(** * Finger-tracking apps: geometry, finger classifier, temporal smoothing
      and frame orchestration.

    Shallow embedding of the three script variants of the repository:
    - the TensorFlow.js variant (median + exponential smoothing, on-screen
      toggles for skeleton / multi-hand / mirror), module [TfjsApp];
    - the MediaPipe variant with keyboard toggles (mode smoothing, window of
      8), module [MediaPipeApp];
    - the older MediaPipe variant [script_bkp.js] (mode smoothing, window of
      6, primary hand only), module [MediaPipeBkp].

    Conventions of the embedding.
    - Landmark coordinates and angles are JavaScript Numbers.  The finger
      classifier and the frame loops only compare an angle with a threshold
      and pass coordinates on; for them Numbers are embedded as real
      numbers [R], with [Math.hypot], [Math.acos], [Math.max], [Math.min]
      as [sqrt] of the sum of squares, [acos], [Rmax], [Rmin].  What
      depends on rounding, overflow, underflow or NaN is settled on module
      [Doubles], which embeds [angleBetween] over binary64 floats.
    - Finger counts are integer-valued Numbers, embedded as [Z]; the
      smoothing arithmetic ([0.6], [0.4], [/2], [Math.round]) is embedded
      over the rationals [Q].
    - Arrays are lists; reading past the end gives [undefined], written
      [None]; a property read on [undefined] throws a TypeError.
    - A plain object used as a frequency table is a list of own properties
      in creation order, read through the prototype chain: a key that is
      not an own property is looked up in [Object.prototype].
      [Object.keys] lists array-index keys in ascending numeric order
      first and the other keys in creation order. *)

From Stdlib Require Import Reals Lra ZArith QArith Qround Lia.
From Stdlib Require Import List String Ascii Bool Permutation Sorted.
From Stdlib Require Import DecimalString.
From Stdlib Require DecimalZ DecimalPos.
From Stdlib Require Floats.
Import ListNotations.

(* ================================================================== *)
(** * Geometry engine *)
(* ================================================================== *)

(** A landmark as the detectors deliver it: [x], [y] and an optional [z]. *)
Record Landmark : Type := mkLandmark { kx : R; ky : R; kz : option R }.

(** [(p.z || 0)] *)
Definition zOr0 (p : Landmark) : R :=
  match kz p with Some v => v | None => 0%R end.

(** [Math.hypot(a, b, c)] *)
Definition hypot (a b c : R) : R := sqrt (a * a + b * b + c * c)%R.

(** [Math.max(-1, Math.min(1, cos))] *)
Definition clampCos (c : R) : R := Rmax (-1) (Rmin 1 c).

(** [angleBetween(a, b, c)] of the TensorFlow.js variant; the two MediaPipe
    variants have the same body under the name [angleBetweenPoints]. *)
Definition angleBetween (a b c : Landmark) : R :=
  let abx := (kx a - kx b)%R in
  let aby := (ky a - ky b)%R in
  let abz := (zOr0 a - zOr0 b)%R in
  let cbx := (kx c - kx b)%R in
  let cby := (ky c - ky b)%R in
  let cbz := (zOr0 c - zOr0 b)%R in
  let dot := (abx * cbx + aby * cby + abz * cbz)%R in
  let mag1 := hypot abx aby abz in
  let mag2 := hypot cbx cby cbz in
  if Req_dec_T mag1 0 then 0%R
  else if Req_dec_T mag2 0 then 0%R
  else
    let cos := (dot / (mag1 * mag2))%R in
    let cos := clampCos cos in
    (acos cos * (180 / PI))%R.

Definition angleBetweenPoints : Landmark -> Landmark -> Landmark -> R :=
  angleBetween.

(** The dot product and the two magnitudes of [angleBetween], as functions
    of the points. *)
Definition dotOf (a b c : Landmark) : R :=
  ((kx a - kx b) * (kx c - kx b) + (ky a - ky b) * (ky c - ky b)
   + (zOr0 a - zOr0 b) * (zOr0 c - zOr0 b))%R.
Definition mag1 (a b : Landmark) : R :=
  hypot (kx a - kx b) (ky a - ky b) (zOr0 a - zOr0 b).
Definition mag2 (c b : Landmark) : R :=
  hypot (kx c - kx b) (ky c - ky b) (zOr0 c - zOr0 b).

(* ================================================================== *)
(** * Geometry engine over binary64 *)
(* ================================================================== *)

Module Doubles.
Import Floats.
Local Open Scope float_scope.

(** A point whose coordinates are doubles. *)
Record Point : Type := mkPoint { px : float; py : float; pz : option float }.

(** [(p.z || 0)]: [undefined], [0], [-0] and NaN are falsy. *)
Definition zOr0 (p : Point) : float :=
  match pz p with
  | Some z => if (z =? 0) || is_nan z then 0 else z
  | None => 0
  end.

(** The two functions of [Math] that [angleBetween] calls and whose
    results ECMA-262 leaves to the implementation, up to the cases listed
    in [ecma262]. *)
Record MathLib : Type := mkMathLib {
  Math_hypot : float -> float -> float -> float;
  Math_acos : float -> float
}.

(** What ECMA-262 fixes of [Math.hypot] and [Math.acos]: an infinite
    argument gives [+Infinity]; otherwise a NaN argument gives NaN;
    arguments that are all zeros give [+0]; [acos] is NaN on NaN and
    outside [-1, 1], and [+0] at 1. *)
Record ecma262 (M : MathLib) : Prop := mkEcma262 {
  hypot_infinite :
    forall x y z,
      is_infinity x || is_infinity y || is_infinity z = true ->
      Math_hypot M x y z = infinity;
  hypot_nan :
    forall x y z,
      is_infinity x || is_infinity y || is_infinity z = false ->
      is_nan x || is_nan y || is_nan z = true ->
      Math_hypot M x y z = nan;
  hypot_zeros :
    forall x y z,
      is_zero x && is_zero y && is_zero z = true ->
      Math_hypot M x y z = 0;
  acos_nan : forall x, is_nan x = true -> Math_acos M x = nan;
  acos_above : forall x, (1 <? x) = true -> Math_acos M x = nan;
  acos_below : forall x, (x <? -1) = true -> Math_acos M x = nan;
  acos_one : Math_acos M 1 = 0
}.

(** [Math.min(a, b)] and [Math.max(a, b)]: NaN when an argument is NaN,
    and [-0] below [+0]. *)
Definition Math_min (a b : float) : float :=
  if is_nan a || is_nan b then nan
  else if a <? b then a
  else if b <? a then b
  else if is_zero a && get_sign a then a else b.

Definition Math_max (a b : float) : float :=
  if is_nan a || is_nan b then nan
  else if a <? b then b
  else if b <? a then a
  else if is_zero a && negb (get_sign a) then a else b.

(** [Math.PI] *)
Definition Math_PI : float := 0x1.921fb54442d18p+1.

(** [angleBetween(a, b, c)], line by line. *)
Definition angleBetween (M : MathLib) (a b c : Point) : float :=
  let abx := px a - px b in
  let aby := py a - py b in
  let abz := zOr0 a - zOr0 b in
  let cbx := px c - px b in
  let cby := py c - py b in
  let cbz := zOr0 c - zOr0 b in
  let dot := abx * cbx + aby * cby + abz * cbz in
  let mag1 := Math_hypot M abx aby abz in
  let mag2 := Math_hypot M cbx cby cbz in
  if (mag1 =? 0) || (mag2 =? 0) then 0
  else
    let cos := dot / (mag1 * mag2) in
    let cos := Math_max (-1) (Math_min 1 cos) in
    Math_acos M cos * (180 / Math_PI).

(** The two magnitudes. *)
Definition mag1 (M : MathLib) (a b : Point) : float :=
  Math_hypot M (px a - px b) (py a - py b) (zOr0 a - zOr0 b).
Definition mag2 (M : MathLib) (c b : Point) : float :=
  Math_hypot M (px c - px b) (py c - py b) (zOr0 c - zOr0 b).

(** Points with finite coordinates: two on the x axis so far apart that
    their difference overflows, and three on the y axis so close that the
    product of their distances underflows. *)
Definition far : float := 0x1.e42d130773b76p+1023.
Definition tiny : float := 0x1p-600.

Definition east : Point := mkPoint far 0 None.
Definition west : Point := mkPoint (- far) 0 None.

Definition low : Point := mkPoint 0 0 None.
Definition mid : Point := mkPoint 0 tiny None.
Definition high : Point := mkPoint 0 0x1p-599 None.

(** A [Math] library within [ecma262], to show that there is one:
    [hypot] scales by the largest magnitude before squaring, and [acos]
    is cut down to the first terms of its series. *)
Definition sampleHypot (x y z : float) : float :=
  if is_infinity x || is_infinity y || is_infinity z then infinity
  else if is_nan x || is_nan y || is_nan z then nan
  else
    let ax := abs x in
    let ay := abs y in
    let az := abs z in
    let m := if ax <? ay then (if ay <? az then az else ay)
             else (if ax <? az then az else ax) in
    if m =? 0 then 0
    else sqrt ((ax / m) * (ax / m) + (ay / m) * (ay / m)
               + (az / m) * (az / m)) * m.

Definition sampleAcos (x : float) : float :=
  if is_nan x || (1 <? x) || (x <? -1) then nan
  else if x =? 1 then 0
  else Math_PI / 2 - x - x * x * x / 6.

Definition sampleMath : MathLib := mkMathLib sampleHypot sampleAcos.

End Doubles.

(* ================================================================== *)
(** * Finger classifier *)
(* ================================================================== *)

(** [a > b] on Numbers, as a boolean. *)
Definition Rgtb (a b : R) : bool := if Rlt_dec b a then true else false.

Record Analysis : Type := mkAnalysis { extended : list bool; count : Z }.

(** One [try { extended[n] = angleBetween(l[i], l[j], l[k]) > thr }
    catch (e) { extended[n] = false }] block: a missing landmark makes the
    property read inside [angleBetween] throw, and the handler stores
    [false]. *)
Definition tryExtended (landmarks : list Landmark) (i j k : nat) (thr : R)
  : bool :=
  match nth_error landmarks i, nth_error landmarks j, nth_error landmarks k with
  | Some a, Some b, Some c => Rgtb (angleBetween a b c) thr
  | _, _, _ => false
  end.

(** The [fingers] table: (mcp, pip, tip) per non-thumb finger. *)
Definition fingers : list (nat * nat * nat) :=
  [ (5, 6, 8); (9, 10, 12); (13, 14, 16); (17, 18, 20) ]%nat.

(** [extended.reduce((s, v) => s + (v ? 1 : 0), 0)] *)
Definition countExtended (ext : list bool) : Z :=
  fold_left (fun s (v : bool) => (s + (if v then 1 else 0))%Z) ext 0%Z.

(** [analyzeLandmarks(landmarks)]; [analyzeHand] of the MediaPipe variants
    has the same body. *)
Definition analyzeLandmarks (landmarks : list Landmark) : Analysis :=
  let thumb := tryExtended landmarks 2 3 4 150 in
  let others :=
    map (fun f => let '(mcp, pip, tip) := f in
                  tryExtended landmarks mcp pip tip 160) fingers in
  let ext := thumb :: others in
  mkAnalysis ext (countExtended ext).

Definition analyzeHand : list Landmark -> Analysis := analyzeLandmarks.

(** The angle at the triple of indices (i, j, k) of a pose. *)
Definition origin : Landmark := mkLandmark 0 0 None.
Definition angleAt (landmarks : list Landmark) (i j k : nat) : R :=
  angleBetween (nth i landmarks origin) (nth j landmarks origin)
               (nth k landmarks origin).

(** Number of [true] entries of an extension vector. *)
Definition numExtended (ext : list bool) : nat :=
  List.length (filter (fun b : bool => b) ext).

(* ================================================================== *)
(** * Numbers, strings and plain objects *)
(* ================================================================== *)

(** [String(n)] for an integer-valued Number: the property key under which
    [counts[n]] is stored. *)
Definition numToString (n : Z) : string := NilZero.string_of_int (Z.to_int n).

(** [Number(s)] on the decimal integer literals that [numToString] produces;
    [None] stands for every other outcome (NaN or a value that is not such a
    literal's). *)
Definition strToNum (s : string) : option Z :=
  option_map Z.of_int (NilZero.int_of_string s).

(** An array index is a canonical decimal string below 2^32 - 1; such keys
    are enumerated first, in ascending numeric order. *)
Definition arrayIndex (k : string) : option N :=
  match NilEmpty.uint_of_string k with
  | Some d =>
      let n := N.of_uint d in
      if (String.eqb (NilZero.string_of_uint (N.to_uint n)) k
          && (n <? 4294967295)%N)%bool
      then Some n else None
  | None => None
  end.

(** What a property of a frequency table can hold: a Number, or one of the
    strings that [+ 1] makes of an object read through the prototype chain:
    the source text of a native function, or ["[object Object]"], followed
    by as many characters ["1"] as there were increments. *)
Inductive Cell : Type :=
| Num (n : Z)
| FnText (fname : string) (ones : nat)
| ObjText (ones : nat).

(** A frequency table: own properties in creation order. *)
Definition JSObject : Type := list (string * Cell).

(** The own property [k] of [o], if there is one. *)
Fixpoint getProp (o : JSObject) (k : string) : option Cell :=
  match o with
  | [] => None
  | (k', v) :: o' => if String.eqb k' k then Some v else getProp o' k
  end.

(** Creation or update of the own property [k]: an existing property keeps
    its place, a new one is created last. *)
Fixpoint setProp (o : JSObject) (k : string) (v : Cell) : JSObject :=
  match o with
  | [] => [(k, v)]
  | (k', v') :: o' =>
      if String.eqb k' k then (k', v) :: o' else (k', v') :: setProp o' k v
  end.

(** The data properties of [Object.prototype], each with the name of the
    native function it holds; [__proto__] is an accessor and is treated
    apart. *)
Definition protoFunctions : list (string * string) :=
  [ ("constructor", "Object");
    ("__defineGetter__", "__defineGetter__");
    ("__defineSetter__", "__defineSetter__");
    ("hasOwnProperty", "hasOwnProperty");
    ("__lookupGetter__", "__lookupGetter__");
    ("__lookupSetter__", "__lookupSetter__");
    ("isPrototypeOf", "isPrototypeOf");
    ("propertyIsEnumerable", "propertyIsEnumerable");
    ("toString", "toString");
    ("valueOf", "valueOf");
    ("toLocaleString", "toLocaleString") ]%string.

Fixpoint assoc (l : list (string * string)) (k : string) : option string :=
  match l with
  | [] => None
  | (k', v) :: l' => if String.eqb k' k then Some v else assoc l' k
  end.

Definition protoFunction (k : string) : option string :=
  assoc protoFunctions k.

(** The outcome of the property read [o[k]]. *)
Inductive JSRead : Type :=
| ROwn (c : Cell)
| RFunction (fname : string)
| RPrototype
| RUndefined.

(** [o[k]]: the own property, else what [Object.prototype] has under [k]:
    a native function, the prototype object itself for [__proto__], or
    nothing. *)
Definition readProp (o : JSObject) (k : string) : JSRead :=
  match getProp o k with
  | Some c => ROwn c
  | None =>
      if String.eqb k "__proto__" then RPrototype
      else match protoFunction k with
           | Some f => RFunction f
           | None => RUndefined
           end
  end.

(** [(x || 0) + 1]: a Number is incremented ([0] is falsy, and [0 + 1] is
    [1] either way); a non-empty string or an object is truthy, and [+ 1]
    appends ["1"] to its string form. *)
Definition orZeroPlusOne (x : JSRead) : Cell :=
  match x with
  | ROwn (Num n) => Num (n + 1)
  | ROwn (FnText f i) => FnText f (S i)
  | ROwn (ObjText i) => ObjText (S i)
  | RFunction f => FnText f 1
  | RPrototype => ObjText 1
  | RUndefined => Num 1
  end.

(** The assignment [o[k] = v] of a Number or string [v]: under
    [__proto__] it reaches the inherited setter, which ignores a value
    that is not an object; under any other key it creates or updates the
    own property. *)
Definition assignProp (o : JSObject) (k : string) (v : Cell) : JSObject :=
  if String.eqb k "__proto__" then o else setProp o k v.

(** The source text of a native function.  The text is left to the
    engine; this is the form V8 and JavaScriptCore give it.  In every
    engine it starts with [function], the function's name and an opening
    parenthesis. *)
Definition nativeText (fname : string) : string :=
  ("function " ++ fname ++ "() { [native code] }")%string.

Fixpoint onesText (n : nat) : string :=
  match n with
  | O => EmptyString
  | S n' => String "1" (onesText n')
  end.

(** The string a cell holds, for the cells that hold one. *)
Definition cellText (c : Cell) : option string :=
  match c with
  | Num _ => None
  | FnText f i => Some (nativeText f ++ onesText i)%string
  | ObjText i => Some ("[object Object]" ++ onesText i)%string
  end.

(** [x > y] on two cells: numeric on two Numbers, by code units on two
    strings; between a Number and one of these strings the string is
    converted to NaN and the comparison is false. *)
Definition cellGt (x y : Cell) : bool :=
  match x, y with
  | Num a, Num b => (b <? a)%Z
  | Num _, _ | _, Num _ => false
  | _, _ =>
      match cellText x, cellText y with
      | Some sx, Some sy => String.ltb sy sx
      | _, _ => false
      end
  end.

(** The primitive value an operand of [>] is converted to: a function
    gives its source text, the prototype object ["[object Object]"];
    [None] is [undefined], which compares as NaN. *)
Definition primitiveOf (x : JSRead) : option Cell :=
  match x with
  | ROwn c => Some c
  | RFunction f => Some (FnText f 0)
  | RPrototype => Some (ObjText 0)
  | RUndefined => None
  end.

(** The array-index keys of a key list with their numeric values, in
    ascending numeric order. *)
Fixpoint insertIndex (e : N * string) (l : list (N * string))
  : list (N * string) :=
  match l with
  | [] => [e]
  | e' :: l' =>
      if (fst e <=? fst e')%N then e :: l else e' :: insertIndex e l'
  end.

Fixpoint indexKeys (ks : list string) : list (N * string) :=
  match ks with
  | [] => []
  | k :: ks' =>
      match arrayIndex k with
      | Some n => insertIndex (n, k) (indexKeys ks')
      | None => indexKeys ks'
      end
  end.

Definition isIndexKey (k : string) : bool :=
  match arrayIndex k with Some _ => true | None => false end.

(** [Object.keys(o)] *)
Definition ownKeys (o : JSObject) : list string :=
  let ks := map fst o in
  map snd (indexKeys ks) ++ filter (fun k => negb (isIndexKey k)) ks.

(** [o[a] > o[b]] *)
Definition propGt (o : JSObject) (a b : string) : bool :=
  match primitiveOf (readProp o a), primitiveOf (readProp o b) with
  | Some x, Some y => cellGt x y
  | _, _ => false
  end.

(** [for (const v of arr) counts[v] = (counts[v] || 0) + 1], where [arr]
    holds the property keys of the array's elements. *)
Definition tally (arr : list string) : JSObject :=
  fold_left
    (fun counts v => assignProp counts v (orZeroPlusOne (readProp counts v)))
    arr [].

(** [keys.reduce((a, b) => counts[a] > counts[b] ? a : b)]; on an empty
    array [reduce] without initial value throws, written [None]. *)
Definition reduceMax (counts : JSObject) (keys : list string) : option string :=
  match keys with
  | [] => None
  | k0 :: rest =>
      Some (fold_left (fun a b => if propGt counts a b then a else b) rest k0)
  end.

(** The loop [let best = null; for (const k of keys)
    if (best === null || counts[k] > counts[best]) best = k]. *)
Definition loopBest (counts : JSObject) (keys : list string) : option string :=
  fold_left
    (fun best k =>
       match best with
       | None => Some k
       | Some b => if propGt counts k b then Some k else Some b
       end) keys None.

(* ================================================================== *)
(** * History windows *)
(* ================================================================== *)

(** [h.push(v); if (h.length > cap) h.shift()] *)
Definition pushShift {A : Type} (cap : nat) (h : list A) (v : A) : list A :=
  let h' := h ++ [v] in
  if (cap <? List.length h')%nat then tl h' else h'.

(** [Math.round(q)]: the nearest integer, halves towards plus infinity. *)
Definition Math_round (q : Q) : Z := Qfloor (q + (1 # 2)).

(** [[...h].sort((a, b) => a - b)]: the ascending rearrangement. *)
Fixpoint insertNum (v : Z) (l : list Z) : list Z :=
  match l with
  | [] => [v]
  | w :: l' => if (v <=? w)%Z then v :: l else w :: insertNum v l'
  end.

Fixpoint sortNum (l : list Z) : list Z :=
  match l with
  | [] => []
  | v :: l' => insertNum v (sortNum l')
  end.

(** Handedness flip [Left <-> Right]; other labels are kept. *)
Definition flipLabel (l : string) : string :=
  if String.eqb l "Left" then "Right"%string
  else if String.eqb l "Right" then "Left"%string
  else l.

(** One entry of a handedness list; [label] may be absent. *)
Record HandednessEntry : Type := mkEntry { label : option string }.

(** [(e && e.label) || 'Unknown'] for an optional entry. *)
Definition labelOrUnknown (e : option HandednessEntry) : string :=
  match e with
  | Some (mkEntry (Some l)) =>
      if String.eqb l "" then "Unknown"%string else l
  | _ => "Unknown"%string
  end.

(** The fingertip indices. *)
Definition tipIndices : list nat := [4; 8; 12; 16; 20]%nat.

(** The fingertip loop reads [lm.x] of each tip landmark and throws on a
    missing one. *)
Definition tipsPresent (landmarks : list Landmark) : bool :=
  forallb (fun t => match nth_error landmarks t with
                    | Some _ => true
                    | None => false
                    end) tipIndices.

(** The text shown for "no hand": an em dash. *)
Definition dash : string := "—".

(* ================================================================== *)
(** * TensorFlow.js variant: median + exponential smoothing *)
(* ================================================================== *)

Module TfjsApp.

Definition COUNT_HISTORY : nat := 8.
Definition HAND_HISTORY : nat := 8.

(** The four globals [countHistory], [handHistory], [smoothCount],
    [smoothHand]. *)
Record Smoother : Type := mkSmoother {
  countHistory : list Z;
  handHistory : list string;
  smoothCount : Z;
  smoothHand : string
}.

(** The values the globals are declared with. *)
Definition initial : Smoother := mkSmoother [] [] 0 dash.

(** The median expression of [pushHistory], on the sorted copy. *)
Definition medianOf (sorted : list Z) : Z :=
  let mid := (List.length sorted / 2)%nat in
  if (List.length sorted mod 2 =? 1)%nat
  then nth mid sorted 0%Z
  else Math_round
         (inject_Z (nth (mid - 1) sorted 0%Z + nth mid sorted 0%Z) / 2).

(** [pushHistory(count, handLabel)]: the globals after the call.  The
    final [reduce] throws a TypeError when the table has no key to offer,
    which is when every label of the window is ["__proto__"]; the
    assignment to [smoothHand] is then not reached (the [None] branch
    below) while the other three globals are updated already, and the
    exception leaves [processFrame] ([frameAborts]). *)
Definition pushHistory (count : Z) (handLabel : string) (st : Smoother)
  : Smoother :=
  let ch := pushShift COUNT_HISTORY (countHistory st) count in
  let hh := pushShift HAND_HISTORY (handHistory st) handLabel in
  let sorted := sortNum ch in
  let median := medianOf sorted in
  let sc := Math_round (inject_Z (smoothCount st) * 0.6
                        + inject_Z median * 0.4) in
  let freq := tally hh in
  let sh := match reduceMax freq (ownKeys freq) with
            | Some k => k
            | None => smoothHand st
            end in
  mkSmoother ch hh sc sh.

(** The [handedness] of a detected hand: a string, or a list of entries
    with a [label]. *)
Inductive HandednessValue : Type :=
| HandednessString (s : string)
| HandednessList (l : list HandednessEntry).

(** One detected hand of [estimateHands]. *)
Record Hand : Type := mkHand {
  keypoints3D : option (list Landmark);
  keypoints : option (list Landmark);
  handedness : option HandednessValue
}.

(** The three toggles. *)
Record Config : Type := mkConfig {
  showSkeleton : bool;
  multiHand : bool;
  mirror : bool
}.

Record Canvas : Type := mkCanvas { width : R; height : R }.

(** [h.keypoints3D || h.keypoints] *)
Definition handKeypoints (h : Hand) : option (list Landmark) :=
  match keypoints3D h with
  | Some k => Some k
  | None => keypoints h
  end.

(** [landmarks]: the 21 keypoints with [z] defaulted, or [null]. *)
Definition landmarksOf (h : Hand) : option (list Landmark) :=
  match handKeypoints h with
  | Some k =>
      if (List.length k =? 21)%nat
      then Some (map (fun p => mkLandmark (kx p) (ky p) (Some (zOr0 p))) k)
      else None
  | None => None
  end.

(** [normLandmarks]: pixel coordinates are scaled back to [0, 1]. *)
Definition normalize (cv : Canvas) (landmarks : option (list Landmark))
  : option (list Landmark) :=
  match landmarks with
  | Some ((p0 :: _) as l) =>
      if Rgtb (kx p0) 1.5
      then Some (map (fun pt => mkLandmark (kx pt / width cv)
                                           (ky pt / height cv) (kz pt)) l)
      else landmarks
  | _ => landmarks
  end.

(** [handednessLabel] before mirroring: ['Unknown'], replaced by
    [h.handedness[0].label || 'Unknown'] when [h.handedness] has a non-zero
    [length].  On a string [h.handedness[0]] is its first character, which
    has no [label]. *)
Definition rawLabel (h : Hand) : string :=
  match handedness h with
  | Some (HandednessList (e :: _)) => labelOrUnknown (Some e)
  | Some (HandednessList []) => "Unknown"%string
  | Some (HandednessString _) => "Unknown"%string
  | None => "Unknown"%string
  end.

(** [if (mirror) { Left -> Right, Right -> Left }] *)
Definition mirrorLabel (mirrorOn : bool) (l : string) : string :=
  if mirrorOn then flipLabel l else l.

(** What one loop iteration did with its hand: [continue] before the
    analysis, or analysis, labelling and drawing. *)
Inductive HandOutcome : Type :=
| Skipped
| Processed (normLandmarks : list Landmark) (analysis : Analysis)
            (handednessLabel : string).

(** The part of the loop body that does not touch the globals: the guard,
    the analysis and the label. *)
Definition handOutcome (cfg : Config) (cv : Canvas) (h : Hand) : HandOutcome :=
  match normalize cv (landmarksOf h) with
  | None => Skipped
  | Some nl =>
      if negb (List.length nl =? 21)%nat then Skipped
      else Processed nl (analyzeLandmarks nl)
                     (mirrorLabel (mirror cfg) (rawLabel h))
  end.

(** The body of the [for] loop over [shownHands], for index [i]:
    [if (i === 0) pushHistory(analysis.count, handednessLabel)] is reached
    only when the hand was not skipped. *)
Definition processHand (cfg : Config) (cv : Canvas) (i : nat) (h : Hand)
  (st : Smoother) : Smoother * HandOutcome :=
  match handOutcome cfg cv h with
  | Skipped => (st, Skipped)
  | Processed nl a lbl =>
      ((if (i =? 0)%nat then pushHistory (count a) lbl st else st),
       Processed nl a lbl)
  end.

Fixpoint loopHands (cfg : Config) (cv : Canvas) (i : nat) (hs : list Hand)
  (st : Smoother) : Smoother * list HandOutcome :=
  match hs with
  | [] => (st, [])
  | h :: rest =>
      let '(st1, o) := processHand cfg cv i h st in
      let '(st2, os) := loopHands cfg cv (S i) rest st1 in
      (st2, o :: os)
  end.

Inductive Status : Type :=
| NoHandsDetected
| Detected (n : nat).

(** The three text elements: status, ['Fingers: ' + count],
    ['Hand: ' + hand]. *)
Record UI : Type := mkUI {
  statusText : Status;
  countText : Z;
  handText : string
}.

Definition maxHandsOf (cfg : Config) : nat := if multiHand cfg then 2 else 1.

(** [hands.slice(0, maxHands)] *)
Definition shownHands (cfg : Config) (hands : list Hand) : list Hand :=
  firstn (maxHandsOf cfg) hands.

(** Whether the [reduce] of [pushHistory] throws. *)
Definition pushHistoryThrows (handLabel : string) (st : Smoother) : bool :=
  let freq := tally (pushShift HAND_HISTORY (handHistory st) handLabel) in
  match reduceMax freq (ownKeys freq) with
  | Some _ => false
  | None => true
  end.

(** Whether a run of [processFrame] is ended by that exception: it can
    only come from the iteration of the first shown hand, once that hand
    has passed the guard. *)
Definition frameAborts (cfg : Config) (cv : Canvas)
  (detected : option (list Hand)) (st : Smoother) : bool :=
  match detected with
  | Some hands =>
      match shownHands cfg hands with
      | h :: _ =>
          match handOutcome cfg cv h with
          | Processed _ _ lbl => pushHistoryThrows lbl st
          | Skipped => false
          end
      | [] => false
      end
  | None => false
  end.

(** One run of [processFrame] once the model and the video are ready:
    the globals after the run and, for a run that reaches its end (see
    [frameAborts]), the texts it writes and what it did with each shown
    hand.  [detected = None] is a rejected [estimateHands], after which
    [hands] is the empty array. *)
Definition processFrame (cfg : Config) (cv : Canvas)
  (detected : option (list Hand)) (st : Smoother)
  : Smoother * UI * list HandOutcome :=
  let hands := match detected with Some hs => hs | None => [] end in
  if (0 <? List.length hands)%nat then
    let '(st', outs) := loopHands cfg cv 0 (shownHands cfg hands) st in
    (st', mkUI (Detected (List.length hands)) (smoothCount st')
               (smoothHand st'), outs)
  else
    (mkSmoother [] [] 0 dash, mkUI NoHandsDetected 0 dash, []).

End TfjsApp.

(* ================================================================== *)
(** * MediaPipe variant with keyboard toggles: mode smoothing *)
(* ================================================================== *)

Module MediaPipeApp.

Definition HISTORY_MAX : nat := 8.

(** The detector is configured with [maxNumHands: 2]. *)
Definition maxNumHands : nat := 2.

(** [mode(arr)], with [reduce]; [None] is the TypeError of [reduce] on an
    empty key array. *)
Definition mode (arr : list string) : option string :=
  let counts := tally arr in
  reduceMax counts (ownKeys counts).

(** The globals [countHistory] and [handedHistory]. *)
Record History : Type := mkHistory {
  countHistory : list Z;
  handedHistory : list string
}.

Definition initial : History := mkHistory [] [].

Record Toggles : Type := mkToggles {
  showSkeleton : bool;
  showMultipleHands : bool
}.

Record Results : Type := mkResults {
  multiHandLandmarks : option (list (list Landmark));
  multiHandedness : option (list HandednessEntry)
}.

(** [results.multiHandedness?.[i]?.label || 'Unknown'] *)
Definition rawLabel (res : Results) (i : nat) : string :=
  labelOrUnknown
    (match multiHandedness res with
     | Some l => nth_error l i
     | None => None
     end).

(** What one loop iteration computed for its hand. *)
Record HandOutcome : Type := mkOutcome {
  analysis : Analysis;
  handednessLabel : string
}.

(** The body of the [for] loop for index [i]; the boolean tells whether the
    iteration ran to its end ([false]: the fingertip loop threw). *)
Definition stepHand (res : Results) (i : nat) (landmarks : list Landmark)
  (st : History) : History * HandOutcome * bool :=
  let lbl := flipLabel (rawLabel res i) in
  let a := analyzeHand landmarks in
  let st' :=
    if (i =? 0)%nat
    then mkHistory (pushShift HISTORY_MAX (countHistory st) (count a))
                   (pushShift HISTORY_MAX (handedHistory st) lbl)
    else st in
  (st', mkOutcome a lbl, tipsPresent landmarks).

Fixpoint loopHands (res : Results) (i : nat) (hs : list (list Landmark))
  (st : History) : History * list HandOutcome * bool :=
  match hs with
  | [] => (st, [], true)
  | lm :: rest =>
      let '(st1, o, ok) := stepHand res i lm st in
      if ok then
        let '(st2, os, ok2) := loopHands res (S i) rest st1 in
        (st2, o :: os, ok2)
      else (st1, [o], false)
  end.

Inductive Status : Type :=
| NoHandsDetected
| HandDetected.

(** The three text elements; [countShown = None] is a NaN. *)
Record UI : Type := mkUI {
  statusText : Status;
  countShown : option Z;
  handShown : string
}.

(** How the callback ended: with the texts updated, or by an uncaught
    exception before that. *)
Inductive Completion : Type :=
| Completed (ui : UI)
| Thrown.

(** [handsToShow] *)
Definition handsToShow (tg : Toggles) (d : nat) : nat :=
  if showMultipleHands tg then d else Nat.min 1 d.

(** [onResults(results)] *)
Definition onResults (tg : Toggles) (res : Results) (st : History)
  : History * list HandOutcome * Completion :=
  let lms := match multiHandLandmarks res with Some l => l | None => [] end in
  if (0 <? List.length lms)%nat then
    let n := handsToShow tg (List.length lms) in
    let '(st', outs, ok) := loopHands res 0 (firstn n lms) st in
    if ok then
      match mode (map numToString (countHistory st')),
            mode (handedHistory st') with
      | Some c, Some h => (st', outs, Completed (mkUI HandDetected (strToNum c) h))
      | _, _ => (st', outs, Thrown)
      end
    else (st', outs, Thrown)
  else
    (mkHistory [] [], [], Completed (mkUI NoHandsDetected (Some 0%Z) dash)).

End MediaPipeApp.

(* ================================================================== *)
(** * Older MediaPipe variant (script_bkp.js): mode smoothing *)
(* ================================================================== *)

Module MediaPipeBkp.

Definition HISTORY_MAX : nat := 6.

(** [mode(arr)], with the [best] loop; [None] is [null]. *)
Definition mode (arr : list string) : option string :=
  let counts := tally arr in
  loopBest counts (ownKeys counts).

Record History : Type := mkHistory {
  countHistory : list Z;
  handedHistory : list string
}.

Definition initial : History := mkHistory [] [].

Record Results : Type := mkResults {
  multiHandLandmarks : option (list (list Landmark));
  multiHandedness : option (list HandednessEntry)
}.

(** [(results.multiHandedness && results.multiHandedness[0] &&
      results.multiHandedness[0].label) || 'Unknown'] *)
Definition rawLabel (res : Results) : string :=
  labelOrUnknown
    (match multiHandedness res with
     | Some l => nth_error l 0
     | None => None
     end).

Inductive Status : Type :=
| NoHandsDetected
| HandDetected.

(** The three text elements.  [countShown = None] is a NaN and
    [handShown = None] is [null]. *)
Record UI : Type := mkUI {
  statusText : Status;
  countShown : option Z;
  handShown : option string
}.

(** [Number(mode(countHistory))]; [Number(null)] is 0. *)
Definition displayedCount (h : list Z) : option Z :=
  match mode (map numToString h) with
  | Some k => strToNum k
  | None => Some 0%Z
  end.

(** [onResults(results)]: the new globals, the texts, and whether the
    fingertip loop that follows the text update ran to its end. *)
Definition onResults (res : Results) (st : History) : History * UI * bool :=
  match multiHandLandmarks res with
  | Some (primaryLandmarks :: _) =>
      let lbl := flipLabel (rawLabel res) in
      let a := analyzeHand primaryLandmarks in
      let ch := pushShift HISTORY_MAX (countHistory st) (count a) in
      let hh := pushShift HISTORY_MAX (handedHistory st) lbl in
      (mkHistory ch hh,
       mkUI HandDetected (displayedCount ch) (mode hh),
       tipsPresent primaryLandmarks)
  | _ => (mkHistory [] [], mkUI NoHandsDetected (Some 0%Z) (Some dash), true)
  end.

End MediaPipeBkp.

(* ================================================================== *)
(** * Reference notions used to state the properties *)
(* ================================================================== *)

(** The most recent [n] entries of a sequence, oldest first. *)
Definition lastn {A : Type} (n : nat) (l : list A) : list A :=
  skipn (List.length l - n) l.

(** A key under which a frequency table counts plainly: it is not the
    name of a property of [Object.prototype]. *)
Definition plainKey (k : string) : bool :=
  negb (String.eqb k "__proto__")
  && match protoFunction k with Some _ => false | None => true end.

(** Number of occurrences of a key in an array of keys. *)
Definition occ (arr : list string) (k : string) : Z :=
  Z.of_nat (count_occ string_dec arr k).

(** Number of occurrences of a count in a window of counts. *)
Definition occZ (w : list Z) (c : Z) : Z :=
  Z.of_nat (count_occ Z.eq_dec w c).

(** Two keys are in enumeration order when both are array indices and the
    first is numerically not above the second; any other pair is left
    unconstrained. *)
Definition keyLe (a b : string) : Prop :=
  match arrayIndex a, arrayIndex b with
  | Some n, Some m => (n <= m)%N
  | _, _ => True
  end.

(** The median of a sorted window as plainly worded: the middle value for
    an odd length, the average of the two middle values for an even one. *)
Definition plainMedian (sorted : list Z) : Q :=
  let n := List.length sorted in
  if Nat.odd n then inject_Z (nth (n / 2) sorted 0%Z)
  else (inject_Z (nth (n / 2 - 1) sorted 0%Z)
        + inject_Z (nth (n / 2) sorted 0%Z)) / 2.

(** The same with the average of the two middle values rounded to the
    nearest integer, halves up: [(a + b + 1) / 2] in integer division. *)
Definition roundedMedian (sorted : list Z) : Z :=
  let n := List.length sorted in
  if Nat.odd n then nth (n / 2) sorted 0%Z
  else ((nth (n / 2 - 1) sorted 0%Z + nth (n / 2) sorted 0%Z + 1) / 2)%Z.

(** [round(0.6 * previous + 0.4 * median)] *)
Definition blend (previous : Z) (median : Q) : Z :=
  Math_round (0.6 * inject_Z previous + 0.4 * median).

(** A run of observations through [pushHistory]. *)
Definition tfjsObserveAll (obs : list (Z * string)) (st : TfjsApp.Smoother)
  : TfjsApp.Smoother :=
  fold_left (fun s o => TfjsApp.pushHistory (fst o) (snd o) s) obs st.

(** What a frame contributes to the windows of the MediaPipe variants: the
    count and the flipped label of its first hand, if it has one. *)
Definition mpObservation (res : MediaPipeApp.Results) : option (Z * string) :=
  match MediaPipeApp.multiHandLandmarks res with
  | Some (lm0 :: _) =>
      Some (count (analyzeHand lm0), flipLabel (MediaPipeApp.rawLabel res 0))
  | _ => None
  end.

Definition bkpObservation (res : MediaPipeBkp.Results) : option (Z * string) :=
  match MediaPipeBkp.multiHandLandmarks res with
  | Some (lm0 :: _) =>
      Some (count (analyzeHand lm0), flipLabel (MediaPipeBkp.rawLabel res))
  | _ => None
  end.

(** Runs of frames through the [onResults] callbacks. *)
Definition mpRun (tg : MediaPipeApp.Toggles) (frames : list MediaPipeApp.Results)
  (st : MediaPipeApp.History) : MediaPipeApp.History :=
  fold_left (fun s r => fst (fst (MediaPipeApp.onResults tg r s))) frames st.

Definition bkpRun (frames : list MediaPipeBkp.Results)
  (st : MediaPipeBkp.History) : MediaPipeBkp.History :=
  fold_left (fun s r => fst (fst (MediaPipeBkp.onResults r s))) frames st.

(** The outcomes of the hands [hs], the first of which has index [i]. *)
Fixpoint mpOutcomes (res : MediaPipeApp.Results) (i : nat)
  (hs : list (list Landmark)) : list MediaPipeApp.HandOutcome :=
  match hs with
  | [] => []
  | lm :: rest =>
      MediaPipeApp.mkOutcome (analyzeHand lm)
                             (flipLabel (MediaPipeApp.rawLabel res i))
      :: mpOutcomes res (S i) rest
  end.

(** [k] is the first key, in the enumeration order of the frequency table
    of [arr], among the most frequent ones. *)
Definition mostFrequentFirst (arr : list string) (k : string) : Prop :=
  exists pre post,
    ownKeys (tally arr) = pre ++ k :: post
    /\ (forall x, In x pre -> (occ arr x < occ arr k)%Z)
    /\ (forall x, In x post -> (occ arr x <= occ arr k)%Z).

(** [k] is the last key, in that order, among the most frequent ones. *)
Definition mostFrequentLast (arr : list string) (k : string) : Prop :=
  exists pre post,
    ownKeys (tally arr) = pre ++ k :: post
    /\ (forall x, In x pre -> (occ arr x <= occ arr k)%Z)
    /\ (forall x, In x post -> (occ arr x < occ arr k)%Z).

(** A point of the y axis, and a hand whose 21 landmarks lie on it in
    index order: every finger is straight. *)
Definition yPoint (t : R) : Landmark := mkLandmark 0 t None.

Definition straightHand : list Landmark :=
  map (fun n => yPoint (IZR n))
      [0; 1; 2; 3; 4; 5; 6; 7; 8; 9; 10; 11; 12; 13; 14; 15; 16; 17; 18; 19;
       20]%Z.

(** Windows within their capacity. *)
Definition tfjsBounded (st : TfjsApp.Smoother) : Prop :=
  (List.length (TfjsApp.countHistory st) <= TfjsApp.COUNT_HISTORY)%nat
  /\ (List.length (TfjsApp.handHistory st) <= TfjsApp.HAND_HISTORY)%nat.

Definition mpBounded (st : MediaPipeApp.History) : Prop :=
  (List.length (MediaPipeApp.countHistory st) <= MediaPipeApp.HISTORY_MAX)%nat
  /\ (List.length (MediaPipeApp.handedHistory st)
      <= MediaPipeApp.HISTORY_MAX)%nat.

Definition bkpBounded (st : MediaPipeBkp.History) : Prop :=
  (List.length (MediaPipeBkp.countHistory st) <= MediaPipeBkp.HISTORY_MAX)%nat
  /\ (List.length (MediaPipeBkp.handedHistory st)
      <= MediaPipeBkp.HISTORY_MAX)%nat.

(* ================================================================== *)
(** * Further notions: runs of frames *)
(* ================================================================== *)

(** The landmark indices that the classifier reads. *)
Definition usedIndices : list nat :=
  [2; 3; 4; 5; 6; 8; 9; 10; 12; 13; 14; 16; 17; 18; 20]%nat.

(** A frame given to [processFrame]: the toggles and canvas at that time
    and the detector's answer. *)
Definition TfjsFrame : Type :=
  (TfjsApp.Config * TfjsApp.Canvas * option (list TfjsApp.Hand))%type.

Definition tfjsStep (st : TfjsApp.Smoother) (f : TfjsFrame)
  : TfjsApp.Smoother :=
  fst (fst (TfjsApp.processFrame (fst (fst f)) (snd (fst f)) (snd f) st)).

(** The smoothing state after a run of frames. *)
Definition tfjsRun (frames : list TfjsFrame) (st : TfjsApp.Smoother)
  : TfjsApp.Smoother :=
  fold_left tfjsStep frames st.

(** The text elements written by a frame. *)
Definition tfjsShown (st : TfjsApp.Smoother) (f : TfjsFrame) : TfjsApp.UI :=
  snd (fst (TfjsApp.processFrame (fst (fst f)) (snd (fst f)) (snd f) st)).

(** The sum of the Numbers stored in a frequency table. *)
Definition tableTotal (o : JSObject) : Z :=
  fold_right (fun kv acc => match snd kv with
                            | Num n => (n + acc)%Z
                            | _ => acc
                            end) 0%Z o.

(* ================================================================== *)
(** * TensorFlow.js variant: what a processed hand draws *)
(* ================================================================== *)

(** The canvas calls of [drawLine] and [drawCircle] are recorded as
    commands, in the order they are issued; the coordinates are the pixel
    positions passed to [moveTo] / [lineTo] / [arc].  The canvas transform
    set up for mirror mode is outside this record. *)
Module TfjsDraw.

Inductive DrawCmd : Type :=
| Line (x1 y1 x2 y2 : R) (lineWidth : R) (strokeStyle : string)
| Circle (x y r : R) (fillStyle : string).

(** ['rgba(0,224,168,0.95)'], ['rgba(255,255,255,0.12)'] and
    ['rgba(255,255,255,0.08)']. *)
Definition highlight : string := "rgba(0,224,168,0.95)".
Definition dimJoint : string := "rgba(255,255,255,0.12)".
Definition dimTip : string := "rgba(255,255,255,0.08)".

(** [drawLine(a, b, width, color)] *)
Definition drawLine (cv : TfjsApp.Canvas) (a b : Landmark) (width : R)
  (color : string) : DrawCmd :=
  Line (kx a * TfjsApp.width cv) (ky a * TfjsApp.height cv)
       (kx b * TfjsApp.width cv) (ky b * TfjsApp.height cv) width color.

(** [drawCircle(p, r, fill)] *)
Definition drawCircle (cv : TfjsApp.Canvas) (p : Landmark) (r : R)
  (fill : string) : DrawCmd :=
  Circle (kx p * TfjsApp.width cv) (ky p * TfjsApp.height cv) r fill.

Definition CONNECTIONS : list (nat * nat) :=
  [ (0, 1); (1, 2); (2, 3); (3, 4);
    (0, 5); (5, 6); (6, 7); (7, 8);
    (0, 9); (9, 10); (10, 11); (11, 12);
    (0, 13); (13, 14); (14, 15); (15, 16);
    (0, 17); (17, 18); (18, 19); (19, 20) ]%nat.

(** [arr.indexOf(x)]; [None] is -1. *)
Fixpoint indexOf (x : nat) (arr : list nat) : option nat :=
  match arr with
  | [] => None
  | y :: arr' =>
      if (y =? x)%nat then Some 0%nat
      else option_map S (indexOf x arr')
  end.

(** [[4,8,12,16,20].includes(pi)] *)
Definition isTip (pi : nat) : bool := existsb (fun t => (t =? pi)%nat) tipIndices.

(** [analysis.extended[idx]] as a condition: a missing entry is falsy. *)
Definition extendedAt (ext : list bool) (idx : option nat) : bool :=
  match idx with
  | Some i => nth i ext false
  | None => false
  end.

(** One pass of a [for] loop whose body may throw: the commands issued, or
    [None] when a landmark is missing and its property read throws. *)
Fixpoint collect {A : Type} (body : A -> option DrawCmd) (items : list A)
  : option (list DrawCmd) :=
  match items with
  | [] => Some []
  | x :: rest =>
      match body x, collect body rest with
      | Some c, Some cs => Some (c :: cs)
      | _, _ => None
      end
  end.

(** The loop over [CONNECTIONS]. *)
Definition drawConnections (cv : TfjsApp.Canvas) (nl : list Landmark)
  : option (list DrawCmd) :=
  collect (fun c : nat * nat =>
             match nth_error nl (fst c), nth_error nl (snd c) with
             | Some a, Some b => Some (drawLine cv a b 3 highlight)
             | _, _ => None
             end) CONNECTIONS.

(** The circle of landmark [pi] in skeleton mode. *)
Definition pointCircle (cv : TfjsApp.Canvas) (ext : list bool) (pi : nat)
  (p : Landmark) : DrawCmd :=
  drawCircle cv p (if isTip pi then 6 else 3)
    (if (isTip pi && extendedAt ext (indexOf pi tipIndices))%bool
     then highlight else dimJoint).

(** The loop [for (pi = 0; pi < normLandmarks.length; pi++)]. *)
Definition drawPoints (cv : TfjsApp.Canvas) (ext : list bool)
  (nl : list Landmark) : list DrawCmd :=
  map (fun ip : nat * Landmark => pointCircle cv ext (fst ip) (snd ip))
      (combine (seq 0 (List.length nl)) nl).

(** The loop over the fingertips when the skeleton is hidden. *)
Definition drawTips (cv : TfjsApp.Canvas) (ext : list bool)
  (nl : list Landmark) : option (list DrawCmd) :=
  collect (fun tidx : nat =>
             match nth_error nl tidx with
             | Some p =>
                 Some (drawCircle cv p 7
                         (if extendedAt ext (indexOf tidx tipIndices)
                          then highlight else dimTip))
             | None => None
             end) tipIndices.

(** The drawing part of the loop body of [processFrame]. *)
Definition drawHand (showSkeleton : bool) (cv : TfjsApp.Canvas)
  (nl : list Landmark) (analysis : Analysis) : option (list DrawCmd) :=
  if showSkeleton then
    match drawConnections cv nl with
    | Some lines => Some (lines ++ drawPoints cv (extended analysis) nl)
    | None => None
    end
  else drawTips cv (extended analysis) nl.

(** What a frame draws for one of its hands: nothing for a skipped hand. *)
Definition drawOutcome (cfg : TfjsApp.Config) (cv : TfjsApp.Canvas)
  (o : TfjsApp.HandOutcome) : option (list DrawCmd) :=
  match o with
  | TfjsApp.Skipped => Some []
  | TfjsApp.Processed nl a _ => drawHand (TfjsApp.showSkeleton cfg) cv nl a
  end.

End TfjsDraw.

(** A circle filled with the highlight colour. *)
Definition isHighlighted (c : TfjsDraw.DrawCmd) : bool :=
  match c with
  | TfjsDraw.Circle _ _ _ fill => String.eqb fill TfjsDraw.highlight
  | TfjsDraw.Line _ _ _ _ _ _ => false
  end.

Definition isCircle (c : TfjsDraw.DrawCmd) : bool :=
  match c with
  | TfjsDraw.Circle _ _ _ _ => true
  | TfjsDraw.Line _ _ _ _ _ _ => false
  end.

(* ================================================================== *)
(** * Canvas sizing *)
(* ================================================================== *)

(** Pixel sizes are integer-valued Numbers; a size of 0 is falsy, an absent
    property is [undefined], written [None]. *)
Module CanvasSizing.

(** [results.image], with its optional [width] and [height]. *)
Record Image : Type := mkImage {
  imgWidth : option Z;
  imgHeight : option Z
}.

(** The properties of the [<video>] element that are read. *)
Record Video : Type := mkVideo {
  videoWidth : Z;
  videoHeight : Z;
  clientWidth : Z;
  clientHeight : Z
}.

(** The properties of the [<canvas>] element that are written. *)
Record CanvasEl : Type := mkCanvasEl {
  cWidth : Z;
  cHeight : Z;
  styleWidth : string;
  styleHeight : string
}.

(** Truthiness of a Number. *)
Definition truthy (n : Z) : bool := negb (n =? 0)%Z.

(** [image?.width || fallback] *)
Definition orElse (v : option Z) (fallback : Z) : Z :=
  match v with
  | Some n => if truthy n then n else fallback
  | None => fallback
  end.

(** [ensureCanvasSize(image)] of the variant with toggles:
    [w = image?.width || videoElement.videoWidth], likewise [h]. *)
Definition ensureCanvasSize (image : option Image) (video : Video)
  (canvas : CanvasEl) : CanvasEl :=
  let w := orElse (match image with Some i => imgWidth i | None => None end)
                  (videoWidth video) in
  let h := orElse (match image with Some i => imgHeight i | None => None end)
                  (videoHeight video) in
  if (truthy w && truthy h
      && (negb (cWidth canvas =? w)%Z || negb (cHeight canvas =? h)%Z))%bool
  then mkCanvasEl w h "100%" "100%"
  else canvas.

(** [ensureCanvasSize(image)] of [script_bkp.js]:
    [w = image && image.width ? image.width : videoElement.videoWidth]. *)
Definition ensureCanvasSizeBkp (image : option Image) (video : Video)
  (canvas : CanvasEl) : CanvasEl :=
  let w := match image with
           | Some i =>
               match imgWidth i with
               | Some n => if truthy n then n else videoWidth video
               | None => videoWidth video
               end
           | None => videoWidth video
           end in
  let h := match image with
           | Some i =>
               match imgHeight i with
               | Some n => if truthy n then n else videoHeight video
               | None => videoHeight video
               end
           | None => videoHeight video
           end in
  if (truthy w && truthy h
      && (negb (cWidth canvas =? w)%Z || negb (cHeight canvas =? h)%Z))%bool
  then mkCanvasEl w h "100%" "100%"
  else canvas.

(** [fitCanvasToVideo()] of the TensorFlow.js variant. *)
Definition fitCanvasToVideo (video : Video) (canvas : CanvasEl) : CanvasEl :=
  let vw := videoWidth video in
  let vh := videoHeight video in
  if (negb (truthy vw) || negb (truthy vh))%bool then canvas
  else mkCanvasEl vw vh
         (numToString (clientWidth video) ++ "px")
         (numToString (clientHeight video) ++ "px").

End CanvasSizing.

(** The size of the frame along one dimension, as a relation: the
    image's value when the image is there and carries a non-zero one,
    else the video's. *)
Definition frameDimension (imageDim : option Z) (videoDim : Z) (d : Z)
  : Prop :=
  (exists n, imageDim = Some n /\ n <> 0%Z /\ d = n)
  \/ ((imageDim = None \/ imageDim = Some 0%Z) /\ d = videoDim).

Definition imageWidth (image : option CanvasSizing.Image) : option Z :=
  match image with Some i => CanvasSizing.imgWidth i | None => None end.

Definition imageHeight (image : option CanvasSizing.Image) : option Z :=
  match image with Some i => CanvasSizing.imgHeight i | None => None end.

(* ================================================================== *)
(** * Toggles *)
(* ================================================================== *)

(** [c.toLowerCase()] on a character of a key name.  Letters outside ASCII
    are left as they are: none of them lowers to "s" or "m", the only
    strings the handler compares with. *)
Definition lowerAscii (c : ascii) : ascii :=
  let n := nat_of_ascii c in
  if ((65 <=? n) && (n <=? 90))%nat%bool then ascii_of_nat (n + 32) else c.

Fixpoint toLowerCase (s : string) : string :=
  match s with
  | EmptyString => EmptyString
  | String c s' => String (lowerAscii c) (toLowerCase s')
  end.

(** The [keydown] listener of the MediaPipe variant with toggles. *)
Definition onKeydown (key : string) (tg : MediaPipeApp.Toggles)
  : MediaPipeApp.Toggles :=
  let tg1 :=
    if String.eqb (toLowerCase key) "s"
    then MediaPipeApp.mkToggles (negb (MediaPipeApp.showSkeleton tg))
                                (MediaPipeApp.showMultipleHands tg)
    else tg in
  if String.eqb (toLowerCase key) "m"
  then MediaPipeApp.mkToggles (MediaPipeApp.showSkeleton tg1)
                              (negb (MediaPipeApp.showMultipleHands tg1))
  else tg1.

(** The three buttons of the TensorFlow.js variant. *)
Module TfjsControls.

Inductive Button : Type := BtnSkeleton | BtnMulti | BtnMirror.

(** The toggles together with what the listeners write: the button
    captions and the transform of the video element. *)
Record Controls : Type := mkControls {
  cfg : TfjsApp.Config;
  skeletonCaption : string;
  multiCaption : string;
  mirrorCaption : string;
  videoTransform : string
}.

(** The [click] listeners. *)
Definition click (b : Button) (c : Controls) : Controls :=
  match b with
  | BtnSkeleton =>
      let v := negb (TfjsApp.showSkeleton (cfg c)) in
      mkControls
        (TfjsApp.mkConfig v (TfjsApp.multiHand (cfg c))
                          (TfjsApp.mirror (cfg c)))
        (if v then "Hide Skeleton" else "Show Skeleton")
        (multiCaption c) (mirrorCaption c) (videoTransform c)
  | BtnMulti =>
      let v := negb (TfjsApp.multiHand (cfg c)) in
      mkControls
        (TfjsApp.mkConfig (TfjsApp.showSkeleton (cfg c)) v
                          (TfjsApp.mirror (cfg c)))
        (skeletonCaption c)
        ("Multi-hand: " ++ (if v then "On" else "Off"))
        (mirrorCaption c) (videoTransform c)
  | BtnMirror =>
      let v := negb (TfjsApp.mirror (cfg c)) in
      mkControls
        (TfjsApp.mkConfig (TfjsApp.showSkeleton (cfg c))
                          (TfjsApp.multiHand (cfg c)) v)
        (skeletonCaption c) (multiCaption c)
        ("Mirror: " ++ (if v then "On" else "Off"))
        (if v then "scaleX(-1)" else "none")
  end.

(** The globals as declared: skeleton shown, single hand, no mirror. *)
Definition initialConfig : TfjsApp.Config := TfjsApp.mkConfig true false false.

End TfjsControls.

(** Number of clicks on a button within a sequence of clicks. *)
Definition clicksOn (b : TfjsControls.Button) (bs : list TfjsControls.Button)
  : nat :=
  List.length
    (filter (fun x => match b, x with
                      | TfjsControls.BtnSkeleton, TfjsControls.BtnSkeleton
                      | TfjsControls.BtnMulti, TfjsControls.BtnMulti
                      | TfjsControls.BtnMirror, TfjsControls.BtnMirror => true
                      | _, _ => false
                      end) bs).

(** A sequence of clicks, oldest first. *)
Definition clickAll (bs : list TfjsControls.Button) (c : TfjsControls.Controls)
  : TfjsControls.Controls :=
  fold_left (fun s b => TfjsControls.click b s) bs c.

(** A flag after an odd number of flips. *)
Definition flipped (v : bool) (n : nat) : bool := xorb v (Nat.odd n).

(* ================================================================== *)
(** * The embedded code on concrete inputs *)
(* ================================================================== *)

Example sortNum_sample : sortNum [3; 1; 2; 5; 0]%Z = [0; 1; 2; 3; 5]%Z.
Proof. reflexivity. Qed.

Example pushShift_sample :
  fold_left (pushShift 3) [1; 2; 3; 4; 5]%Z [] = [3; 4; 5]%Z.
Proof. reflexivity. Qed.

(** Array-index keys come first and ascending, then the other keys in
    creation order; "007" is not a canonical index. *)
Example ownKeys_sample :
  ownKeys (tally ["5"; "Left"; "10"; "4"; "007"; "5"]%string)
  = ["4"; "5"; "10"; "Left"; "007"]%string.
Proof. vm_compute. reflexivity. Qed.

Example tally_sample :
  tally ["Right"; "Left"; "Right"]%string
  = [("Right"%string, Num 2); ("Left"%string, Num 1)].
Proof. vm_compute. reflexivity. Qed.

(** Keys that name a property of [Object.prototype]: the first
    [counts[v]] finds the inherited function, so the stored value is a
    string; [__proto__] is never stored. *)
Example tally_inherited_sample :
  tally ["Left"; "constructor"; "__proto__"; "Left"; "constructor"]%string
  = [("Left"%string, Num 2); ("constructor"%string, FnText "Object" 2)]
  /\ cellText (FnText "Object" 2)
     = Some "function Object() { [native code] }11"%string
  /\ readProp (tally ["Left"]%string) "toString" = RFunction "toString"
  /\ readProp (tally ["__proto__"]%string) "__proto__" = RPrototype
  /\ readProp (tally ["Left"]%string) "Right" = RUndefined.
Proof. vm_compute. repeat split. Qed.

Example mode_samples :
  MediaPipeBkp.mode ["Right"; "Left"; "Right"]%string = Some "Right"%string
  /\ MediaPipeApp.mode ["Right"; "Left"; "Right"]%string = Some "Right"%string
  /\ MediaPipeBkp.mode ["Left"; "Right"]%string = Some "Left"%string
  /\ MediaPipeApp.mode ["Left"; "Right"]%string = Some "Right"%string
  /\ MediaPipeBkp.mode [] = None
  /\ MediaPipeApp.mode [] = None.
Proof. vm_compute. repeat split. Qed.

(** With such keys the two functions no longer return the most frequent
    element: a stored string compares as NaN with every Number, so
    [reduce] moves on to the later key, and the [best] loop never leaves
    its first key. *)
Example mode_inherited_samples :
  MediaPipeApp.mode ["Left"; "Left"; "constructor"]%string
  = Some "constructor"%string
  /\ MediaPipeBkp.mode ["toString"; "Left"; "Left"]%string
     = Some "toString"%string
  /\ MediaPipeBkp.mode ["Left"; "Left"; "constructor"]%string
     = Some "Left"%string
  /\ MediaPipeApp.mode ["__proto__"]%string = None
  /\ MediaPipeBkp.mode ["__proto__"]%string = None.
Proof. vm_compute. repeat split. Qed.

(** The displayed counts along the observations 4, 0, 1, 0 after a reset:
    the medians are 4, 2, 1, 1 and every blend rounds to 2. *)
Example pushHistory_trace :
  map (fun n => TfjsApp.smoothCount
                  (tfjsObserveAll
                     (firstn n [(4%Z, "Left"%string); (0%Z, "Left"%string);
                                (1%Z, "Left"%string); (0%Z, "Left"%string)])
                     TfjsApp.initial))
      [1; 2; 3; 4]%nat
  = [2; 2; 2; 2]%Z
  /\ TfjsApp.medianOf [0; 0; 1; 4]%Z = 1%Z
  /\ TfjsApp.medianOf [0; 1; 4]%Z = 1%Z
  /\ TfjsApp.smoothHand
       (TfjsApp.pushHistory 4 "Left" TfjsApp.initial) = "Left"%string.
Proof. vm_compute. repeat split. Qed.

(** A hand without landmarks: every finger falls into its [catch]. *)
Example analyzeHand_no_landmarks :
  analyzeHand [] = mkAnalysis [false; false; false; false; false] 0.
Proof. reflexivity. Qed.

Example flipLabel_samples :
  flipLabel "Left" = "Right"%string
  /\ flipLabel "Right" = "Left"%string
  /\ flipLabel "Unknown" = "Unknown"%string
  /\ labelOrUnknown None = "Unknown"%string
  /\ labelOrUnknown (Some (mkEntry (Some ""%string))) = "Unknown"%string.
Proof. repeat split. Qed.

(* ================================================================== *)
(** * Properties of the geometry engine *)
(* ================================================================== *)

Lemma Rgtb_true (a b : R) : Rgtb a b = true <-> (a > b)%R.
Proof.
  unfold Rgtb. destruct (Rlt_dec b a); split; intro H; easy.
Qed.

Lemma angleBetween_unfold (a b c : Landmark) :
  angleBetween a b c =
  if Req_dec_T (mag1 a b) 0 then 0%R
  else if Req_dec_T (mag2 c b) 0 then 0%R
  else (acos (clampCos (dotOf a b c / (mag1 a b * mag2 c b)))
        * (180 / PI))%R.
Proof. reflexivity. Qed.

(* ================================================================== *)
(** * The geometry engine on doubles *)
(* ================================================================== *)

Lemma zero_float_cases (x : PrimFloat.float) :
  PrimFloat.is_zero x = true ->
  PrimFloat.is_nan x = false /\ PrimFloat.is_infinity x = false.
Proof.
  unfold PrimFloat.is_zero, PrimFloat.is_nan, PrimFloat.is_infinity.
  rewrite !FloatAxioms.eqb_spec, FloatAxioms.abs_spec.
  destruct (FloatOps.Prim2SF x) as [s| s| |s m e]; cbn;
    try discriminate; try (destruct s; discriminate).
  intros _. split; reflexivity.
Qed.

Lemma sampleMath_ecma262 : Doubles.ecma262 Doubles.sampleMath.
Proof.
  constructor; cbn [Doubles.Math_hypot Doubles.Math_acos Doubles.sampleMath].
  - intros x y z H. unfold Doubles.sampleHypot. rewrite H. reflexivity.
  - intros x y z Hi Hn. unfold Doubles.sampleHypot. rewrite Hi, Hn.
    reflexivity.
  - intros x y z H.
    apply andb_prop in H. destruct H as [H Hz].
    apply andb_prop in H. destruct H as [Hx Hy].
    destruct (zero_float_cases x Hx) as [Hnx Hix].
    destruct (zero_float_cases y Hy) as [Hny Hiy].
    destruct (zero_float_cases z Hz) as [Hnz Hiz].
    unfold Doubles.sampleHypot.
    rewrite Hix, Hiy, Hiz, Hnx, Hny, Hnz. cbn [orb].
    assert (Ha : forall v, PrimFloat.is_zero v = true ->
                           PrimFloat.is_zero (PrimFloat.abs v) = true).
    { intros v Hv. unfold PrimFloat.is_zero in Hv |- *.
      rewrite FloatAxioms.eqb_spec in Hv |- *.
      rewrite FloatAxioms.abs_spec.
      destruct (FloatOps.Prim2SF v) as [s| s| |s m e]; cbn in Hv |- *;
        try discriminate; try (destruct s; discriminate); reflexivity. }
    assert (Hm : forall u v, PrimFloat.is_zero u = true ->
                             PrimFloat.is_zero v = true ->
                             PrimFloat.is_zero
                               (if PrimFloat.ltb u v then v else u) = true).
    { intros u v Hu Hv. destruct (PrimFloat.ltb u v); assumption. }
    pose proof (Ha x Hx) as Hax. pose proof (Ha y Hy) as Hay.
    pose proof (Ha z Hz) as Haz.
    cbv zeta.
    set (m := if PrimFloat.ltb (PrimFloat.abs x) (PrimFloat.abs y)
              then _ else _).
    assert (Hmz : PrimFloat.is_zero m = true).
    { subst m.
      destruct (PrimFloat.ltb (PrimFloat.abs x) (PrimFloat.abs y));
        apply Hm; assumption. }
    unfold PrimFloat.is_zero in Hmz.
    match goal with
    | |- context [PrimFloat.eqb m ?z] =>
        change (PrimFloat.eqb m z) with (PrimFloat.eqb m PrimFloat.zero)
    end.
    rewrite Hmz. reflexivity.
  - intros x H. unfold Doubles.sampleAcos. rewrite H. reflexivity.
  - intros x H. unfold Doubles.sampleAcos. rewrite H.
    destruct (PrimFloat.is_nan x); reflexivity.
  - intros x H. unfold Doubles.sampleAcos. rewrite H.
    destruct (PrimFloat.is_nan x), (PrimFloat.ltb _ x); reflexivity.
  - vm_compute. reflexivity.
Qed.

(** C7.  On doubles [angleBetween] does return 0 when [Math.hypot]
    reports a zero magnitude, in particular when the computed vector
    [a - b] or [c - b] is the zero vector.  But its result is not always
    in [0, 180]: on points with finite coordinates it is NaN when the
    differences overflow ([Infinity / Infinity]) and when the product of
    two non-zero magnitudes underflows to 0 ([0 / 0] behind the guard,
    which tests each magnitude and not their product).  This holds with
    any [Math.hypot] and [Math.acos] that ECMA-262 allows; for the second
    input [Math.hypot] is taken to return the length of a vector that lies
    along one axis. *)
Theorem angle_not_a_number_at_extremes (M : Doubles.MathLib) :
  Doubles.ecma262 M ->
  Doubles.angleBetween M Doubles.east Doubles.west Doubles.east
  = PrimFloat.nan
  /\ (Doubles.Math_hypot M PrimFloat.zero (PrimFloat.opp Doubles.tiny)
                         PrimFloat.zero = Doubles.tiny ->
      Doubles.Math_hypot M PrimFloat.zero Doubles.tiny PrimFloat.zero
      = Doubles.tiny ->
      Doubles.angleBetween M Doubles.low Doubles.mid Doubles.high
      = PrimFloat.nan)
  /\ (forall a b c,
        PrimFloat.is_zero (Doubles.mag1 M a b) = true
        \/ PrimFloat.is_zero (Doubles.mag2 M c b) = true ->
        Doubles.angleBetween M a b c = PrimFloat.zero)
  /\ (forall a b c,
        (PrimFloat.is_zero (PrimFloat.sub (Doubles.px a) (Doubles.px b))
         && PrimFloat.is_zero (PrimFloat.sub (Doubles.py a) (Doubles.py b))
         && PrimFloat.is_zero
              (PrimFloat.sub (Doubles.zOr0 a) (Doubles.zOr0 b)))%bool = true
        \/ (PrimFloat.is_zero (PrimFloat.sub (Doubles.px c) (Doubles.px b))
            && PrimFloat.is_zero (PrimFloat.sub (Doubles.py c) (Doubles.py b))
            && PrimFloat.is_zero
                 (PrimFloat.sub (Doubles.zOr0 c) (Doubles.zOr0 b)))%bool
           = true ->
        Doubles.angleBetween M a b c = PrimFloat.zero).
Proof.
  intro HM.
  assert (Hguard : forall a b c,
             PrimFloat.is_zero (Doubles.mag1 M a b) = true
             \/ PrimFloat.is_zero (Doubles.mag2 M c b) = true ->
             Doubles.angleBetween M a b c = PrimFloat.zero).
  { intros a b c Hz. unfold Doubles.angleBetween. cbv zeta.
    change (Doubles.Math_hypot M
              (PrimFloat.sub (Doubles.px a) (Doubles.px b))
              (PrimFloat.sub (Doubles.py a) (Doubles.py b))
              (PrimFloat.sub (Doubles.zOr0 a) (Doubles.zOr0 b)))
      with (Doubles.mag1 M a b).
    change (Doubles.Math_hypot M
              (PrimFloat.sub (Doubles.px c) (Doubles.px b))
              (PrimFloat.sub (Doubles.py c) (Doubles.py b))
              (PrimFloat.sub (Doubles.zOr0 c) (Doubles.zOr0 b)))
      with (Doubles.mag2 M c b).
    repeat match goal with
           | |- context [PrimFloat.eqb ?m ?z] =>
               progress change (PrimFloat.eqb m z) with (PrimFloat.is_zero m)
           end.
    destruct Hz as [Hz|Hz]; rewrite Hz; [reflexivity|].
    rewrite Bool.orb_true_r. reflexivity. }
  split; [|split; [|split]].
  - unfold Doubles.angleBetween. cbv zeta.
    change (PrimFloat.sub (Doubles.px Doubles.east) (Doubles.px Doubles.west))
      with PrimFloat.infinity.
    change (PrimFloat.sub (Doubles.py Doubles.east) (Doubles.py Doubles.west))
      with PrimFloat.zero.
    change (PrimFloat.sub (Doubles.zOr0 Doubles.east)
                          (Doubles.zOr0 Doubles.west))
      with PrimFloat.zero.
    rewrite (Doubles.hypot_infinite M HM PrimFloat.infinity PrimFloat.zero
               PrimFloat.zero eq_refl).
    match goal with
    | |- context [Doubles.Math_acos M ?t] => change t with PrimFloat.nan
    end.
    rewrite (Doubles.acos_nan M HM PrimFloat.nan eq_refl).
    reflexivity.
  - intros H1 H2. unfold Doubles.angleBetween. cbv zeta.
    change (PrimFloat.sub (Doubles.px Doubles.low) (Doubles.px Doubles.mid))
      with PrimFloat.zero.
    change (PrimFloat.sub (Doubles.py Doubles.low) (Doubles.py Doubles.mid))
      with (PrimFloat.opp Doubles.tiny).
    change (PrimFloat.sub (Doubles.zOr0 Doubles.low)
                          (Doubles.zOr0 Doubles.mid))
      with PrimFloat.zero.
    change (PrimFloat.sub (Doubles.px Doubles.high) (Doubles.px Doubles.mid))
      with PrimFloat.zero.
    change (PrimFloat.sub (Doubles.py Doubles.high) (Doubles.py Doubles.mid))
      with Doubles.tiny.
    change (PrimFloat.sub (Doubles.zOr0 Doubles.high)
                          (Doubles.zOr0 Doubles.mid))
      with PrimFloat.zero.
    rewrite H1, H2.
    match goal with
    | |- context [Doubles.Math_acos M ?t] => change t with PrimFloat.nan
    end.
    rewrite (Doubles.acos_nan M HM PrimFloat.nan eq_refl).
    reflexivity.
  - exact Hguard.
  - intros a b c [Hz|Hz]; apply Hguard; [left|right];
      unfold Doubles.mag1, Doubles.mag2;
      rewrite (Doubles.hypot_zeros M HM _ _ _ Hz); reflexivity.
Qed.

(** Witness for C7: a [Math] library within the requirements, on which
    both inputs give NaN. *)
Lemma angle_not_a_number_at_extremes_witness :
  Doubles.ecma262 Doubles.sampleMath
  /\ Doubles.angleBetween Doubles.sampleMath Doubles.east Doubles.west
                          Doubles.east = PrimFloat.nan
  /\ Doubles.Math_hypot Doubles.sampleMath PrimFloat.zero
        (PrimFloat.opp Doubles.tiny) PrimFloat.zero = Doubles.tiny
  /\ Doubles.Math_hypot Doubles.sampleMath PrimFloat.zero Doubles.tiny
        PrimFloat.zero = Doubles.tiny
  /\ Doubles.angleBetween Doubles.sampleMath Doubles.low Doubles.mid
                          Doubles.high = PrimFloat.nan.
Proof.
  assert (H1 : Doubles.Math_hypot Doubles.sampleMath PrimFloat.zero
                 (PrimFloat.opp Doubles.tiny) PrimFloat.zero = Doubles.tiny)
    by (vm_compute; reflexivity).
  assert (H2 : Doubles.Math_hypot Doubles.sampleMath PrimFloat.zero
                 Doubles.tiny PrimFloat.zero = Doubles.tiny)
    by (vm_compute; reflexivity).
  split; [exact sampleMath_ecma262|].
  split; [exact (proj1 (angle_not_a_number_at_extremes Doubles.sampleMath
                          sampleMath_ecma262))|].
  split; [exact H1|]. split; [exact H2|].
  exact (proj1 (proj2 (angle_not_a_number_at_extremes Doubles.sampleMath
                         sampleMath_ecma262)) H1 H2).
Defined.

(** Three points in a row, the vertex in the middle: a straight angle. *)
Lemma angle_collinear (t1 t2 t3 : R) :
  (t1 < t2 < t3)%R ->
  angleBetween (yPoint t1) (yPoint t2) (yPoint t3) = 180%R.
Proof.
  intros [H12 H23].
  assert (Hm1 : mag1 (yPoint t1) (yPoint t2) = (t2 - t1)%R).
  { unfold mag1, hypot, yPoint, zOr0. cbn [kx ky kz].
    replace ((0 - 0) * (0 - 0) + (t1 - t2) * (t1 - t2) + (0 - 0) * (0 - 0))%R
      with ((t2 - t1) * (t2 - t1))%R by ring.
    apply sqrt_square. lra. }
  assert (Hm2 : mag2 (yPoint t3) (yPoint t2) = (t3 - t2)%R).
  { unfold mag2, hypot, yPoint, zOr0. cbn [kx ky kz].
    replace ((0 - 0) * (0 - 0) + (t3 - t2) * (t3 - t2) + (0 - 0) * (0 - 0))%R
      with ((t3 - t2) * (t3 - t2))%R by ring.
    apply sqrt_square. lra. }
  rewrite angleBetween_unfold, Hm1, Hm2.
  destruct (Req_dec_T (t2 - t1) 0); [lra|].
  destruct (Req_dec_T (t3 - t2) 0); [lra|].
  assert (Hcos : (dotOf (yPoint t1) (yPoint t2) (yPoint t3)
                  / ((t2 - t1) * (t3 - t2)) = -1)%R).
  { unfold dotOf, yPoint, zOr0. cbn [kx ky kz]. field. lra. }
  rewrite Hcos. unfold clampCos.
  rewrite (Rmin_right 1 (-1)) by lra.
  rewrite (Rmax_left (-1) (-1)) by lra.
  replace (-1)%R with (- (1))%R by ring.
  rewrite acos_opp, acos_1.
  pose proof PI_RGT_0. field. lra.
Qed.

(** The spec's example: MCP = (0,0,0), PIP = (0,1,0), TIP = (0,2,0) gives
    180 degrees, above both thresholds. *)
Example angle_straight_finger :
  angleBetween (yPoint 0) (yPoint 1) (yPoint 2) = 180%R
  /\ Rgtb (angleBetween (yPoint 0) (yPoint 1) (yPoint 2)) 160 = true.
Proof.
  assert (H : angleBetween (yPoint 0) (yPoint 1) (yPoint 2) = 180%R)
    by (apply angle_collinear; lra).
  split; [exact H|]. rewrite H. apply Rgtb_true. lra.
Qed.

(** A fully extended hand is classified with all five fingers out. *)
Example straightHand_all_extended :
  List.length straightHand = 21%nat
  /\ analyzeLandmarks straightHand
     = mkAnalysis [true; true; true; true; true] 5.
Proof.
  split; [reflexivity|].
  assert (Hgt : forall t1 t2 t3 thr,
             (t1 < t2 < t3)%R -> (thr < 180)%R ->
             Rgtb (angleBetween (yPoint t1) (yPoint t2) (yPoint t3)) thr = true).
  { intros t1 t2 t3 thr Ht Hthr. rewrite angle_collinear by exact Ht.
    apply Rgtb_true. lra. }
  unfold analyzeLandmarks, fingers, tryExtended, straightHand.
  cbn [map nth_error].
  rewrite !Hgt by lra. reflexivity.
Qed.
(* ================================================================== *)
(** * Properties of the finger classifier *)
(* ================================================================== *)

Lemma nth_error_nth_lt (lm : list Landmark) (i : nat) :
  (i < List.length lm)%nat -> nth_error lm i = Some (nth i lm origin).
Proof.
  intro Hlt. apply nth_error_nth'. exact Hlt.
Qed.

Lemma tryExtended_angleAt (lm : list Landmark) (i j k : nat) (thr : R) :
  (i < List.length lm)%nat -> (j < List.length lm)%nat ->
  (k < List.length lm)%nat ->
  tryExtended lm i j k thr = Rgtb (angleAt lm i j k) thr.
Proof.
  intros Hi Hj Hk. unfold tryExtended, angleAt.
  rewrite (nth_error_nth_lt lm i Hi), (nth_error_nth_lt lm j Hj),
          (nth_error_nth_lt lm k Hk).
  reflexivity.
Qed.

Lemma countExtended_five (b0 b1 b2 b3 b4 : bool) :
  countExtended [b0; b1; b2; b3; b4]
  = Z.of_nat (numExtended [b0; b1; b2; b3; b4])
  /\ (0 <= countExtended [b0; b1; b2; b3; b4] <= 5)%Z.
Proof.
  destruct b0, b1, b2, b3, b4; cbn; split; lia.
Qed.

(** C3.  On a pose of 21 landmarks the classifier marks the thumb extended
    exactly when the angle at (2, 3, 4) exceeds 150 degrees, and index,
    middle, ring and pinky exactly when the angle at (5, 6, 8), (9, 10, 12),
    (13, 14, 16), (17, 18, 20) exceeds 160 degrees; the count is the number
    of extended fingers, an integer between 0 and 5.  [analyzeHand] is the
    same function. *)
Theorem classify_thresholds (lm : list Landmark) :
  List.length lm = 21%nat ->
  exists thumb index middle ring pinky : bool,
    extended (analyzeLandmarks lm) = [thumb; index; middle; ring; pinky]
    /\ (thumb = true <-> (angleAt lm 2 3 4 > 150)%R)
    /\ (index = true <-> (angleAt lm 5 6 8 > 160)%R)
    /\ (middle = true <-> (angleAt lm 9 10 12 > 160)%R)
    /\ (ring = true <-> (angleAt lm 13 14 16 > 160)%R)
    /\ (pinky = true <-> (angleAt lm 17 18 20 > 160)%R)
    /\ count (analyzeLandmarks lm)
       = Z.of_nat (numExtended (extended (analyzeLandmarks lm)))
    /\ (0 <= count (analyzeLandmarks lm) <= 5)%Z
    /\ analyzeHand lm = analyzeLandmarks lm.
Proof.
  intro Hlen.
  exists (Rgtb (angleAt lm 2 3 4) 150), (Rgtb (angleAt lm 5 6 8) 160),
         (Rgtb (angleAt lm 9 10 12) 160), (Rgtb (angleAt lm 13 14 16) 160),
         (Rgtb (angleAt lm 17 18 20) 160).
  assert (Hext : extended (analyzeLandmarks lm) =
                 [Rgtb (angleAt lm 2 3 4) 150; Rgtb (angleAt lm 5 6 8) 160;
                  Rgtb (angleAt lm 9 10 12) 160;
                  Rgtb (angleAt lm 13 14 16) 160;
                  Rgtb (angleAt lm 17 18 20) 160]).
  { unfold analyzeLandmarks, fingers. cbn [extended map].
    rewrite !tryExtended_angleAt by (rewrite Hlen; lia).
    reflexivity. }
  assert (Hcnt : count (analyzeLandmarks lm)
                 = countExtended (extended (analyzeLandmarks lm)))
    by reflexivity.
  rewrite Hcnt, Hext.
  repeat split; try (apply Rgtb_true; assumption);
    try (apply countExtended_five).
Qed.

(** Witness for C3: the pose with all 21 landmarks at the origin. *)
Lemma classify_thresholds_witness :
  List.length (repeat origin 21) = 21%nat /\
  exists thumb index middle ring pinky : bool,
    extended (analyzeLandmarks (repeat origin 21))
    = [thumb; index; middle; ring; pinky]
    /\ (thumb = true <-> (angleAt (repeat origin 21) 2 3 4 > 150)%R)
    /\ (index = true <-> (angleAt (repeat origin 21) 5 6 8 > 160)%R)
    /\ (middle = true <-> (angleAt (repeat origin 21) 9 10 12 > 160)%R)
    /\ (ring = true <-> (angleAt (repeat origin 21) 13 14 16 > 160)%R)
    /\ (pinky = true <-> (angleAt (repeat origin 21) 17 18 20 > 160)%R)
    /\ count (analyzeLandmarks (repeat origin 21))
       = Z.of_nat (numExtended (extended (analyzeLandmarks (repeat origin 21))))
    /\ (0 <= count (analyzeLandmarks (repeat origin 21)) <= 5)%Z
    /\ analyzeHand (repeat origin 21) = analyzeLandmarks (repeat origin 21).
Proof.
  split; [reflexivity|].
  apply (classify_thresholds (repeat origin 21)). reflexivity.
Defined.

(* ================================================================== *)
(** * Sliding windows *)
(* ================================================================== *)

Section Windows.
Context {A : Type}.
Implicit Types (l h : list A) (v : A) (cap n : nat).

Lemma lastn_length n l : List.length (lastn n l) = Nat.min n (List.length l).
Proof. unfold lastn. rewrite length_skipn. lia. Qed.

Lemma lastn_short n l : (List.length l <= n)%nat -> lastn n l = l.
Proof.
  intro Hle. unfold lastn.
  replace (List.length l - n)%nat with 0%nat by lia. reflexivity.
Qed.

Lemma pushShift_lastn cap h v :
  (List.length h <= cap)%nat -> pushShift cap h v = lastn cap (h ++ [v]).
Proof.
  intro Hle. unfold pushShift, lastn.
  rewrite length_app. cbn [List.length].
  destruct (Nat.ltb_spec cap (List.length h + 1)) as [Hfull|Hroom].
  - replace (List.length h + 1 - cap)%nat with 1%nat by lia.
    destruct (h ++ [v]); reflexivity.
  - replace (List.length h + 1 - cap)%nat with 0%nat by lia.
    reflexivity.
Qed.

Lemma lastn_snoc cap l v :
  lastn cap (lastn cap l ++ [v]) = lastn cap (l ++ [v]).
Proof.
  destruct (Nat.le_gt_cases (List.length l) cap) as [Hle|Hgt].
  - rewrite (lastn_short cap l Hle). reflexivity.
  - unfold lastn at 1 3.
    rewrite !length_app, lastn_length. cbn [List.length].
    replace (Nat.min cap (List.length l) + 1 - cap)%nat with 1%nat by lia.
    replace (List.length l + 1 - cap)%nat
      with (1 + (List.length l - cap))%nat by lia.
    rewrite <- skipn_skipn. unfold lastn.
    rewrite (skipn_app (List.length l - cap) l [v]).
    replace (List.length l - cap - List.length l)%nat with 0%nat by lia.
    reflexivity.
Qed.

Lemma pushAll_lastn cap (obs : list A) :
  fold_left (pushShift cap) obs [] = lastn cap obs.
Proof.
  induction obs as [|v obs IH] using rev_ind.
  - reflexivity.
  - rewrite fold_left_app. cbn [fold_left]. rewrite IH.
    rewrite pushShift_lastn by (rewrite lastn_length; lia).
    apply lastn_snoc.
Qed.

Lemma pushShift_bound cap h v :
  (List.length h <= cap)%nat ->
  (List.length (pushShift cap h v) <= cap)%nat.
Proof.
  intro Hle. rewrite pushShift_lastn by exact Hle.
  rewrite lastn_length. lia.
Qed.

Lemma pushShift_nonempty cap h v :
  (0 < cap)%nat -> pushShift cap h v <> [].
Proof.
  intros Hcap Hnil.
  assert (Hlen : List.length (pushShift cap h v) = 0%nat)
    by (rewrite Hnil; reflexivity).
  unfold pushShift in Hlen.
  destruct (Nat.ltb_spec cap (List.length (h ++ [v]))) as [Hfull|Hroom].
  - destruct (h ++ [v]) as [|a [|b t]] eqn:E; cbn in *; lia.
  - rewrite length_app in Hlen. cbn in Hlen. lia.
Qed.

Lemma pushShift_last cap h v :
  (0 < cap)%nat -> In v (pushShift cap h v).
Proof.
  intro Hcap. unfold pushShift.
  destruct (Nat.ltb_spec cap (List.length (h ++ [v]))) as [Hfull|Hroom].
  - destruct h as [|a h']; cbn in *; [lia|].
    apply in_or_app. right. left. reflexivity.
  - apply in_or_app. right. left. reflexivity.
Qed.
End Windows.

(* ================================================================== *)
(** * Frequency tables and their key order *)
(* ================================================================== *)

Lemma getProp_In (o : JSObject) (k : string) :
  getProp o k <> None <-> In k (map fst o).
Proof.
  induction o as [|[k' v] o IH]; cbn.
  - split; [congruence | tauto].
  - destruct (String.eqb_spec k' k) as [->|Hne].
    + split; [intros _; left; reflexivity | congruence].
    + rewrite IH. split; [tauto | intros [E|Hin]; [contradiction | exact Hin]].
Qed.

Lemma getProp_setProp_same (o : JSObject) (k : string) (v : Cell) :
  getProp (setProp o k v) k = Some v.
Proof.
  induction o as [|[k' v'] o IH]; cbn.
  - rewrite String.eqb_refl. reflexivity.
  - destruct (String.eqb_spec k' k) as [->|Hne]; cbn.
    + rewrite String.eqb_refl. reflexivity.
    + apply String.eqb_neq in Hne. rewrite Hne. exact IH.
Qed.

Lemma getProp_setProp_other (o : JSObject) (k k' : string) (v : Cell) :
  k <> k' -> getProp (setProp o k v) k' = getProp o k'.
Proof.
  intro Hne. induction o as [|[k0 v0] o IH]; cbn.
  - apply String.eqb_neq in Hne. rewrite Hne. reflexivity.
  - destruct (String.eqb_spec k0 k) as [->|Hne0]; cbn.
    + apply String.eqb_neq in Hne. rewrite Hne. reflexivity.
    + destruct (String.eqb k0 k'); [reflexivity | exact IH].
Qed.

Lemma getProp_assignProp_other (o : JSObject) (k k' : string) (v : Cell) :
  k <> k' -> getProp (assignProp o k v) k' = getProp o k'.
Proof.
  intro Hne. unfold assignProp.
  destruct (String.eqb k "__proto__"); [reflexivity|].
  apply getProp_setProp_other. exact Hne.
Qed.

Lemma tally_snoc (arr : list string) (v : string) :
  tally (arr ++ [v])
  = assignProp (tally arr) v (orZeroPlusOne (readProp (tally arr) v)).
Proof. unfold tally. rewrite fold_left_app. reflexivity. Qed.

(** [__proto__] never becomes an own property. *)
Lemma tally_proto_absent (arr : list string) :
  getProp (tally arr) "__proto__" = None.
Proof.
  induction arr as [|v arr IH] using rev_ind; [reflexivity|].
  rewrite tally_snoc. unfold assignProp.
  destruct (String.eqb_spec v "__proto__") as [->|Hne]; [exact IH|].
  rewrite getProp_setProp_other by exact Hne. exact IH.
Qed.

Lemma plainKey_spec (k : string) :
  plainKey k = true <-> k <> "__proto__"%string /\ protoFunction k = None.
Proof.
  unfold plainKey. rewrite Bool.andb_true_iff, Bool.negb_true_iff.
  rewrite String.eqb_neq.
  destruct (protoFunction k); split; intros [H1 H2];
    (split; [exact H1|]); congruence.
Qed.

Lemma protoFunction_not_proto (k f : string) :
  protoFunction k = Some f -> k <> "__proto__"%string.
Proof. intros H ->. vm_compute in H. discriminate H. Qed.

(** Under a plain key the table holds the number of occurrences. *)
Lemma tally_getProp (arr : list string) (k : string) :
  plainKey k = true ->
  getProp (tally arr) k
  = if (count_occ string_dec arr k =? 0)%nat then None
    else Some (Num (occ arr k)).
Proof.
  intro Hk. apply plainKey_spec in Hk. destruct Hk as [Hnp Hnf].
  induction arr as [|v arr IH] using rev_ind.
  - reflexivity.
  - rewrite tally_snoc. unfold occ. rewrite count_occ_app. cbn [count_occ].
    destruct (string_dec v k) as [->|Hne].
    + unfold assignProp. apply String.eqb_neq in Hnp. rewrite Hnp.
      rewrite getProp_setProp_same. unfold readProp. rewrite IH, Hnp, Hnf.
      destruct (Nat.eqb_spec (count_occ string_dec arr k) 0) as [E|E].
      * rewrite E. reflexivity.
      * destruct (Nat.eqb_spec (count_occ string_dec arr k + 1) 0);
          [lia|]. unfold occ. cbn [orZeroPlusOne]. do 2 f_equal. lia.
    + rewrite getProp_assignProp_other by exact Hne. rewrite IH.
      rewrite Nat.add_0_r. reflexivity.
Qed.

(** Under the name of an inherited function it holds the function's
    source text followed by one ["1"] per occurrence. *)
Lemma tally_getProp_inherited (arr : list string) (k f : string) :
  protoFunction k = Some f ->
  getProp (tally arr) k
  = if (count_occ string_dec arr k =? 0)%nat then None
    else Some (FnText f (count_occ string_dec arr k)).
Proof.
  intro Hf. pose proof (protoFunction_not_proto k f Hf) as Hnp.
  induction arr as [|v arr IH] using rev_ind.
  - reflexivity.
  - rewrite tally_snoc, count_occ_app. cbn [count_occ].
    destruct (string_dec v k) as [->|Hne].
    + unfold assignProp. apply String.eqb_neq in Hnp. rewrite Hnp.
      rewrite getProp_setProp_same. unfold readProp. rewrite IH, Hnp, Hf.
      destruct (Nat.eqb_spec (count_occ string_dec arr k) 0) as [E|E].
      * rewrite E. reflexivity.
      * destruct (Nat.eqb_spec (count_occ string_dec arr k + 1) 0);
          [lia|]. cbn [orZeroPlusOne]. rewrite Nat.add_1_r. reflexivity.
    + rewrite getProp_assignProp_other by exact Hne. rewrite IH.
      rewrite Nat.add_0_r. reflexivity.
Qed.

Lemma tally_getProp_In (arr : list string) (k : string) :
  plainKey k = true -> In k arr ->
  getProp (tally arr) k = Some (Num (occ arr k)).
Proof.
  intros Hk Hin. rewrite tally_getProp by exact Hk.
  apply (count_occ_In string_dec) in Hin.
  destruct (Nat.eqb_spec (count_occ string_dec arr k) 0); [lia | reflexivity].
Qed.

(** The own keys are the array's elements other than [__proto__]. *)
Lemma tally_keys (arr : list string) (k : string) :
  In k (map fst (tally arr)) <-> In k arr /\ k <> "__proto__"%string.
Proof.
  rewrite <- getProp_In.
  destruct (String.eqb_spec k "__proto__") as [->|Hnp].
  - rewrite tally_proto_absent. split; [congruence | intros [_ H]; congruence].
  - rewrite (count_occ_In string_dec).
    destruct (protoFunction k) as [f|] eqn:Hf.
    + rewrite (tally_getProp_inherited arr k f Hf).
      destruct (Nat.eqb_spec (count_occ string_dec arr k) 0) as [E|E].
      * split; [intro H; congruence | intros [H _]; lia].
      * split; [intros _; split; [lia | exact Hnp] | intros _; discriminate].
    + rewrite tally_getProp by (apply plainKey_spec; split; assumption).
      destruct (Nat.eqb_spec (count_occ string_dec arr k) 0) as [E|E].
      * split; [intro H; congruence | intros [H _]; lia].
      * split; [intros _; split; [lia | exact Hnp] | intros _; discriminate].
Qed.

Lemma propGt_tally (arr : list string) (a b : string) :
  In a arr /\ plainKey a = true -> In b arr /\ plainKey b = true ->
  propGt (tally arr) a b = (occ arr b <? occ arr a)%Z.
Proof.
  intros [Ha Pa] [Hb Pb]. unfold propGt, readProp.
  rewrite (tally_getProp_In arr a Pa Ha), (tally_getProp_In arr b Pb Hb).
  reflexivity.
Qed.

Lemma insertIndex_In (e e0 : N * string) (l : list (N * string)) :
  In e (insertIndex e0 l) <-> e = e0 \/ In e l.
Proof.
  induction l as [|e' l IH]; cbn.
  - intuition congruence.
  - destruct (fst e0 <=? fst e')%N; cbn; [intuition congruence|].
    rewrite IH. intuition congruence.
Qed.

Lemma indexKeys_In (ks : list string) (n : N) (k : string) :
  In (n, k) (indexKeys ks) <-> In k ks /\ arrayIndex k = Some n.
Proof.
  induction ks as [|k0 ks IH]; cbn.
  - tauto.
  - destruct (arrayIndex k0) as [n0|] eqn:E.
    + rewrite insertIndex_In, IH. split.
      * intros [Heq|[Hin Hidx]].
        -- inversion Heq; subst. split; [left; reflexivity | exact E].
        -- split; [right; exact Hin | exact Hidx].
      * intros [[->|Hin] Hidx].
        -- left. congruence.
        -- right. split; assumption.
    + rewrite IH. split.
      * intros [Hin Hidx]. split; [right; exact Hin | exact Hidx].
      * intros [[->|Hin] Hidx]; [congruence | split; assumption].
Qed.

Lemma ownKeys_In (o : JSObject) (k : string) :
  In k (ownKeys o) <-> In k (map fst o).
Proof.
  unfold ownKeys. rewrite in_app_iff, filter_In, in_map_iff.
  unfold isIndexKey. split.
  - intros [[[n k'] [Hsnd Hin]]|[Hin _]]; [|exact Hin].
    cbn in Hsnd. subst k'. apply indexKeys_In in Hin. tauto.
  - intro Hin. destruct (arrayIndex k) as [n|] eqn:E.
    + left. exists (n, k). split; [reflexivity|].
      apply indexKeys_In. split; assumption.
    + right. split; [exact Hin | reflexivity].
Qed.

Lemma ownKeys_tally_In (arr : list string) (k : string) :
  In k (ownKeys (tally arr)) <-> In k arr /\ k <> "__proto__"%string.
Proof. rewrite ownKeys_In. apply tally_keys. Qed.

Lemma ownKeys_tally_nonempty (arr : list string) :
  (exists x, In x arr /\ x <> "__proto__"%string) ->
  ownKeys (tally arr) <> [].
Proof.
  intros (x & Hin & Hnp) Hnil.
  assert (H : In x (ownKeys (tally arr)))
    by (apply ownKeys_tally_In; split; assumption).
  rewrite Hnil in H. exact H.
Qed.

Lemma ownKeys_tally_empty (arr : list string) :
  Forall (fun x => x = "__proto__"%string) arr -> ownKeys (tally arr) = [].
Proof.
  intro Hall. destruct (ownKeys (tally arr)) as [|k ks] eqn:E; [reflexivity|].
  assert (H : In k (ownKeys (tally arr))) by (rewrite E; left; reflexivity).
  apply ownKeys_tally_In in H. destruct H as [Hin Hnp].
  rewrite Forall_forall in Hall. elim Hnp. apply Hall. exact Hin.
Qed.

(** An array of plain keys has an element other than [__proto__] as soon
    as it has one. *)
Lemma plain_keys_non_proto (arr : list string) :
  arr <> [] -> Forall (fun k => plainKey k = true) arr ->
  exists x, In x arr /\ x <> "__proto__"%string.
Proof.
  intros Hne Hall. destruct arr as [|v arr]; [congruence|].
  exists v. split; [left; reflexivity|].
  inversion Hall as [|? ? Hv _]; subst.
  apply plainKey_spec in Hv. tauto.
Qed.

(* ================================================================== *)
(** * The two ways of picking the most frequent key *)
(* ================================================================== *)

Section PickMax.
Variable gt : string -> string -> bool.
Variable score : string -> Z.
Variable dom : string -> Prop.
Hypothesis gt_score :
  forall a b, dom a -> dom b -> gt a b = (score b <? score a)%Z.

(** The [best] loop keeps the first key of maximal score. *)
Lemma loop_keeps_first (rest pre mid : list string) (b : string) :
  dom b -> Forall dom rest ->
  (forall x, In x pre -> (score x < score b)%Z) ->
  (forall x, In x mid -> (score x <= score b)%Z) ->
  exists k pre' post',
    fold_left (fun best k =>
                 match best with
                 | None => Some k
                 | Some b => if gt k b then Some k else Some b
                 end) rest (Some b) = Some k
    /\ pre ++ b :: mid ++ rest = pre' ++ k :: post'
    /\ (forall x, In x pre' -> (score x < score k)%Z)
    /\ (forall x, In x post' -> (score x <= score k)%Z).
Proof.
  revert pre mid b.
  induction rest as [|k rest IH]; intros pre mid b Hb Hdom Hpre Hmid.
  - exists b, pre, mid. rewrite app_nil_r. cbn. auto.
  - inversion Hdom as [|? ? Hk Hrest]; subst. cbn [fold_left].
    rewrite (gt_score k b Hk Hb).
    destruct (Z.ltb_spec (score b) (score k)) as [Hlt|Hge].
    + destruct (IH (pre ++ b :: mid) [] k Hk Hrest) as (k' & p & q & H).
      * intros x Hin. apply in_app_iff in Hin.
        destruct Hin as [Hin|[<-|Hin]];
          [specialize (Hpre x Hin) | | specialize (Hmid x Hin)]; lia.
      * intros x [].
      * exists k', p, q. cbn [app] in H.
        rewrite <- app_assoc in H. cbn [app] in H. exact H.
    + destruct (IH pre (mid ++ [k]) b Hb Hrest Hpre) as (k' & p & q & H).
      * intros x Hin. apply in_app_iff in Hin.
        destruct Hin as [Hin|[<-|[]]]; [apply Hmid; exact Hin | lia].
      * exists k', p, q. rewrite <- app_assoc in H. exact H.
Qed.

(** [reduce] with [a > b ? a : b] keeps the last key of maximal score. *)
Lemma reduce_keeps_last (rest pre mid : list string) (a : string) :
  dom a -> Forall dom rest ->
  (forall x, In x pre -> (score x <= score a)%Z) ->
  (forall x, In x mid -> (score x < score a)%Z) ->
  exists k pre' post',
    fold_left (fun a b => if gt a b then a else b) rest a = k
    /\ pre ++ a :: mid ++ rest = pre' ++ k :: post'
    /\ (forall x, In x pre' -> (score x <= score k)%Z)
    /\ (forall x, In x post' -> (score x < score k)%Z).
Proof.
  revert pre mid a.
  induction rest as [|b rest IH]; intros pre mid a Ha Hdom Hpre Hmid.
  - exists a, pre, mid. rewrite app_nil_r. cbn. auto.
  - inversion Hdom as [|? ? Hb Hrest]; subst. cbn [fold_left].
    rewrite (gt_score a b Ha Hb).
    destruct (Z.ltb_spec (score b) (score a)) as [Hlt|Hge].
    + destruct (IH pre (mid ++ [b]) a Ha Hrest Hpre) as (k' & p & q & H).
      * intros x Hin. apply in_app_iff in Hin.
        destruct Hin as [Hin|[<-|[]]]; [apply Hmid; exact Hin | lia].
      * exists k', p, q. rewrite <- app_assoc in H. exact H.
    + destruct (IH (pre ++ a :: mid) [] b Hb Hrest) as (k' & p & q & H).
      * intros x Hin. apply in_app_iff in Hin.
        destruct Hin as [Hin|[<-|Hin]];
          [specialize (Hpre x Hin) | | specialize (Hmid x Hin)]; lia.
      * intros x [].
      * exists k', p, q. cbn [app] in H.
        rewrite <- app_assoc in H. cbn [app] in H. exact H.
Qed.
End PickMax.

(* ================================================================== *)
(** * Counts as property keys *)
(* ================================================================== *)

Lemma strToNum_numToString (z : Z) : strToNum (numToString z) = Some z.
Proof.
  unfold strToNum, numToString.
  rewrite NilZero.isi.
  - cbn. rewrite DecimalZ.of_to. reflexivity.
  - destruct z; cbn; try discriminate;
      intro H; inversion H as [E]; exact (DecimalPos.Unsigned.to_uint_nonnil _ E).
  - destruct z; cbn; try discriminate;
      intro H; inversion H as [E]; exact (DecimalPos.Unsigned.to_uint_nonnil _ E).
Qed.

Lemma numToString_inj (a b : Z) : numToString a = numToString b -> a = b.
Proof.
  intro H. apply (f_equal strToNum) in H.
  rewrite !strToNum_numToString in H. congruence.
Qed.

Lemma arrayIndex_numToString (c : Z) :
  (0 <= c < 4294967295)%Z -> arrayIndex (numToString c) = Some (Z.to_N c).
Proof.
  intros [Hlo Hhi]. destruct c as [|p|p]; [reflexivity| |lia].
  unfold arrayIndex, numToString. cbn [Z.to_int NilZero.string_of_int].
  assert (Hs : NilZero.string_of_uint (Pos.to_uint p)
               = NilEmpty.string_of_uint (Pos.to_uint p)).
  { pose proof (DecimalPos.Unsigned.to_uint_nonnil p) as Hnn.
    destruct (Pos.to_uint p); [contradiction | reflexivity..]. }
  rewrite Hs, NilEmpty.usu.
  cbv zeta. unfold N.of_uint. rewrite DecimalPos.Unsigned.of_to.
  cbn [N.to_uint]. rewrite Hs, String.eqb_refl. cbn [andb Z.to_N].
  destruct (N.ltb_spec (N.pos p) 4294967295); [reflexivity | lia].
Qed.

Lemma assoc_In (l : list (string * string)) (k v : string) :
  assoc l k = Some v -> In k (map fst l).
Proof.
  induction l as [|[k' v'] l IH]; cbn; [discriminate|].
  destruct (String.eqb_spec k' k) as [->|_]; [left; reflexivity|].
  intro H. right. apply IH. exact H.
Qed.

(** No count is stored under a key that names a property of
    [Object.prototype]. *)
Lemma plainKey_numToString (c : Z) : plainKey (numToString c) = true.
Proof.
  destruct (plainKey (numToString c)) eqn:E; [reflexivity|].
  assert (Hnames : Forall (fun k => strToNum k = None)
                     ("__proto__"%string :: map fst protoFunctions)).
  { vm_compute. repeat constructor. }
  rewrite Forall_forall in Hnames.
  assert (Hin : In (numToString c)
                   ("__proto__"%string :: map fst protoFunctions)).
  { unfold plainKey in E.
    destruct (String.eqb_spec (numToString c) "__proto__") as [->|_];
      [left; reflexivity|].
    cbn [negb andb] in E.
    destruct (protoFunction (numToString c)) as [f|] eqn:Hf;
      [|discriminate E].
    right. exact (assoc_In _ _ _ Hf). }
  specialize (Hnames _ Hin). rewrite strToNum_numToString in Hnames.
  discriminate Hnames.
Qed.

Lemma plain_counts (w : list Z) :
  Forall (fun k => plainKey k = true) (map numToString w).
Proof.
  apply Forall_forall. intros k Hin. apply in_map_iff in Hin.
  destruct Hin as (c & <- & _). apply plainKey_numToString.
Qed.

Lemma occ_numToString (w : list Z) (c : Z) :
  occ (map numToString w) (numToString c) = occZ w c.
Proof.
  unfold occ, occZ. f_equal. symmetry.
  apply count_occ_map. exact numToString_inj.
Qed.

(* ================================================================== *)
(** * Enumeration order of [Object.keys] *)
(* ================================================================== *)

Lemma insertIndex_sorted (e : N * string) (l : list (N * string)) :
  StronglySorted (fun a b => (fst a <= fst b)%N) l ->
  StronglySorted (fun a b => (fst a <= fst b)%N) (insertIndex e l).
Proof.
  induction 1 as [|e' l Hs IH Hall]; cbn.
  - constructor; constructor.
  - destruct (N.leb_spec (fst e) (fst e')) as [Hle|Hgt].
    + constructor; [constructor; assumption|].
      constructor; [exact Hle|].
      eapply Forall_impl; [|exact Hall]. cbn. intros a Ha. lia.
    + constructor; [exact IH|].
      apply Forall_forall. intros a Ha. apply insertIndex_In in Ha.
      destruct Ha as [->|Ha]; [lia|].
      rewrite Forall_forall in Hall. apply Hall. exact Ha.
Qed.

Lemma indexKeys_sorted (ks : list string) :
  StronglySorted (fun a b => (fst a <= fst b)%N) (indexKeys ks).
Proof.
  induction ks as [|k ks IH]; cbn; [constructor|].
  destruct (arrayIndex k); [apply insertIndex_sorted|]; exact IH.
Qed.

Lemma StronglySorted_app_intro {A : Type} (R : A -> A -> Prop)
  (l1 l2 : list A) :
  StronglySorted R l1 -> StronglySorted R l2 ->
  (forall a b, In a l1 -> In b l2 -> R a b) ->
  StronglySorted R (l1 ++ l2).
Proof.
  intros H1 H2 Hx. induction H1 as [|a l1 Hs IH Hall]; cbn; [exact H2|].
  constructor.
  - apply IH. intros x y Hxin Hy. apply Hx; [right; exact Hxin | exact Hy].
  - apply Forall_app. split; [exact Hall|].
    apply Forall_forall. intros y Hy. apply Hx; [left; reflexivity | exact Hy].
Qed.

Lemma StronglySorted_split {A : Type} (R : A -> A -> Prop)
  (pre post : list A) (k : A) :
  StronglySorted R (pre ++ k :: post) ->
  (forall x, In x pre -> R x k) /\ (forall x, In x post -> R k x).
Proof.
  induction pre as [|a pre IH]; cbn; intro Hs.
  - inversion Hs as [|? ? _ Hall]; subst. rewrite Forall_forall in Hall.
    split; [intros x [] | exact Hall].
  - inversion Hs as [|? ? Hs' Hall]; subst.
    destruct (IH Hs') as [Hpre Hpost]. split; [|exact Hpost].
    intros x [<-|Hin]; [|apply Hpre; exact Hin].
    rewrite Forall_forall in Hall. apply Hall.
    apply in_or_app. right. left. reflexivity.
Qed.

Lemma ownKeys_sorted (o : JSObject) : StronglySorted keyLe (ownKeys o).
Proof.
  unfold ownKeys. set (ks := map fst o).
  apply StronglySorted_app_intro.
  - assert (Hent : forall e, In e (indexKeys ks) ->
                             arrayIndex (snd e) = Some (fst e)).
    { intros [n k] Hin. apply indexKeys_In in Hin. cbn. tauto. }
    pose proof (indexKeys_sorted ks) as Hs.
    induction Hs as [|e l Hs IH Hall]; cbn; constructor.
    + apply IH. intros e' He'. apply Hent. right. exact He'.
    + apply Forall_forall. intros k Hk. apply in_map_iff in Hk.
      destruct Hk as (e' & <- & He'). unfold keyLe.
      rewrite (Hent e (or_introl eq_refl)), (Hent e' (or_intror He')).
      rewrite Forall_forall in Hall. apply Hall. exact He'.
  - induction ks as [|k ks' IH]; cbn; [constructor|].
    unfold isIndexKey at 1.
    destruct (arrayIndex k) eqn:E; cbn; [exact IH|].
    constructor; [exact IH|].
    apply Forall_forall. intros x _. unfold keyLe. rewrite E. exact I.
  - intros a b _ Hb. apply filter_In in Hb. destruct Hb as [_ Hb].
    unfold isIndexKey in Hb. unfold keyLe.
    destruct (arrayIndex a); [|exact I].
    destruct (arrayIndex b); [discriminate | exact I].
Qed.

Lemma keyLe_counts (a b : Z) :
  (0 <= a < 4294967295)%Z -> (0 <= b < 4294967295)%Z ->
  keyLe (numToString a) (numToString b) -> (a <= b)%Z.
Proof.
  intros Ha Hb. unfold keyLe.
  rewrite (arrayIndex_numToString a Ha), (arrayIndex_numToString b Hb). lia.
Qed.

(* ================================================================== *)
(** * Sorting and the median *)
(* ================================================================== *)

Lemma insertNum_perm (v : Z) (l : list Z) : Permutation (insertNum v l) (v :: l).
Proof.
  induction l as [|w l IH]; cbn; [reflexivity|].
  destruct (v <=? w)%Z; [reflexivity|].
  rewrite IH. apply perm_swap.
Qed.

Lemma sortNum_perm (l : list Z) : Permutation (sortNum l) l.
Proof.
  induction l as [|v l IH]; cbn; [reflexivity|].
  rewrite insertNum_perm. apply perm_skip. exact IH.
Qed.

Lemma insertNum_sorted (v : Z) (l : list Z) :
  StronglySorted Z.le l -> StronglySorted Z.le (insertNum v l).
Proof.
  induction 1 as [|w l Hs IH Hall]; cbn.
  - constructor; constructor.
  - destruct (Z.leb_spec v w) as [Hle|Hgt].
    + constructor; [constructor; assumption|].
      constructor; [exact Hle|].
      eapply Forall_impl; [|exact Hall]. cbn. intros a Ha. lia.
    + constructor; [exact IH|].
      apply Forall_forall. intros a Ha.
      apply (Permutation_in _ (insertNum_perm v l)) in Ha.
      destruct Ha as [<-|Ha]; [lia|].
      rewrite Forall_forall in Hall. apply Hall. exact Ha.
Qed.

Lemma sortNum_sorted (l : list Z) : StronglySorted Z.le (sortNum l).
Proof.
  induction l as [|v l IH]; cbn; [constructor|].
  apply insertNum_sorted. exact IH.
Qed.

(** A list has one ascending rearrangement only. *)
Lemma sorted_perm_unique (l1 l2 : list Z) :
  StronglySorted Z.le l1 -> StronglySorted Z.le l2 ->
  Permutation l1 l2 -> l1 = l2.
Proof.
  intros H1. revert l2.
  induction H1 as [|a l1 Hs1 IH Hall1]; intros l2 H2 Hp.
  - apply Permutation_nil in Hp. subst. reflexivity.
  - destruct H2 as [|b l2 Hs2 Hall2].
    + apply Permutation_sym, Permutation_nil in Hp. discriminate.
    + rewrite Forall_forall in Hall1, Hall2.
      assert (Hab : a = b).
      { assert (Ha : In a (b :: l2))
          by (apply (Permutation_in _ Hp); left; reflexivity).
        assert (Hb : In b (a :: l1))
          by (apply (Permutation_in _ (Permutation_sym Hp)); left; reflexivity).
        destruct Ha as [Ha|Ha]; [congruence|].
        destruct Hb as [Hb|Hb]; [congruence|].
        specialize (Hall1 b Hb). specialize (Hall2 a Ha). lia. }
      subst b. f_equal. apply IH; [exact Hs2|].
      apply Permutation_cons_inv with (a := a). exact Hp.
Qed.

Lemma sortNum_unique (s w : list Z) :
  Sorted Z.le s -> Permutation s w -> sortNum w = s.
Proof.
  intros Hs Hp. apply sorted_perm_unique.
  - apply sortNum_sorted.
  - apply Sorted_StronglySorted; [|exact Hs].
    intros x y z. apply Z.le_trans.
  - rewrite sortNum_perm. apply Permutation_sym. exact Hp.
Qed.

Lemma Math_round_half (n : Z) : Math_round (inject_Z n / 2) = ((n + 1) / 2)%Z.
Proof.
  unfold Math_round.
  assert (E : (inject_Z n / 2 + (1 # 2) == (n + 1) # 2)%Q).
  { unfold Qeq, Qdiv, Qinv, Qmult, Qplus, inject_Z. cbn. lia. }
  rewrite (Qfloor_comp _ _ E). reflexivity.
Qed.

Lemma medianOf_rounded (s : list Z) : TfjsApp.medianOf s = roundedMedian s.
Proof.
  unfold TfjsApp.medianOf, roundedMedian. cbv zeta.
  rewrite <- Nat.bit0_mod, Nat.bit0_odd.
  destruct (Nat.odd (List.length s)); cbn [Nat.b2n Nat.eqb]; [reflexivity|].
  apply Math_round_half.
Qed.

Lemma blend_code (prev m : Z) :
  Math_round (inject_Z prev * 0.6 + inject_Z m * 0.4)
  = blend prev (inject_Z m).
Proof.
  unfold blend, Math_round. apply Qfloor_comp. ring.
Qed.

Lemma blend_integer (prev m : Z) :
  blend prev (inject_Z m) = ((6 * prev + 4 * m + 5) / 10)%Z.
Proof.
  unfold blend, Math_round.
  assert (E : (0.6 * inject_Z prev + 0.4 * inject_Z m + (1 # 2)
               == (6 * prev + 4 * m + 5) # 10)%Q).
  { unfold Qeq, Qmult, Qplus, inject_Z. cbn. lia. }
  rewrite (Qfloor_comp _ _ E). reflexivity.
Qed.

(* ================================================================== *)
(** * Median + exponential blend (TensorFlow.js variant) *)
(* ================================================================== *)

Lemma pushHistory_smoothCount (c : Z) (h : string) (st : TfjsApp.Smoother) :
  TfjsApp.smoothCount (TfjsApp.pushHistory c h st)
  = blend (TfjsApp.smoothCount st)
          (inject_Z (roundedMedian
                       (sortNum (TfjsApp.countHistory
                                   (TfjsApp.pushHistory c h st))))).
Proof.
  unfold TfjsApp.pushHistory. cbn [TfjsApp.smoothCount TfjsApp.countHistory].
  rewrite medianOf_rounded. apply blend_code.
Qed.

(** C1, as amended.  After each observation the displayed count is
    [round(0.6 * previous + 0.4 * median)], where the median of the count
    window is the middle value of the sorted window when its length is odd
    and, when it is even, the average of the two middle values rounded to
    the nearest integer (halves up).  The blend is the integer
    [(6 * previous + 4 * median + 5) / 10], and for an odd length the
    median is the plain one. *)
Theorem median_blend_rounded (st : TfjsApp.Smoother) (c : Z) (h : string)
  (s : list Z) :
  Sorted Z.le s ->
  Permutation s (TfjsApp.countHistory (TfjsApp.pushHistory c h st)) ->
  TfjsApp.smoothCount (TfjsApp.pushHistory c h st)
  = blend (TfjsApp.smoothCount st) (inject_Z (roundedMedian s))
  /\ TfjsApp.smoothCount (TfjsApp.pushHistory c h st)
     = ((6 * TfjsApp.smoothCount st + 4 * roundedMedian s + 5) / 10)%Z
  /\ (Nat.odd (List.length s) = true ->
      plainMedian s = inject_Z (roundedMedian s)).
Proof.
  intros Hs Hp.
  rewrite pushHistory_smoothCount, (sortNum_unique s _ Hs Hp).
  split; [reflexivity|]. split; [apply blend_integer|].
  intro Hodd. unfold plainMedian, roundedMedian. cbv zeta.
  rewrite Hodd. reflexivity.
Qed.

(** Witness for C1: the first observation after a reset. *)
Lemma median_blend_rounded_witness :
  Sorted Z.le [3%Z]
  /\ Permutation [3%Z]
       (TfjsApp.countHistory (TfjsApp.pushHistory 3 "Left" TfjsApp.initial))
  /\ TfjsApp.smoothCount (TfjsApp.pushHistory 3 "Left" TfjsApp.initial)
     = blend (TfjsApp.smoothCount TfjsApp.initial)
             (inject_Z (roundedMedian [3%Z])).
Proof.
  assert (Hs : Sorted Z.le [3%Z]) by (constructor; constructor).
  assert (Hp : Permutation [3%Z]
                 (TfjsApp.countHistory
                    (TfjsApp.pushHistory 3 "Left" TfjsApp.initial)))
    by apply Permutation_refl.
  split; [exact Hs|]. split; [exact Hp|].
  exact (proj1 (median_blend_rounded TfjsApp.initial 3 "Left" [3%Z] Hs Hp)).
Defined.

(** C1 as first stated, with the plain (unrounded) average for even
    lengths, fails: after the observations 4, 0, 1 the displayed count is
    2; observing 0 gives the window [4; 0; 1; 0], whose two middle values
    are 0 and 1.  The code displays 2, the plain average gives 1. *)
Lemma plain_median_blend_fails :
  ~ (forall s : list Z,
       Sorted Z.le s ->
       Permutation s
         (TfjsApp.countHistory
            (TfjsApp.pushHistory 0 "Left"
               (tfjsObserveAll [(4%Z, "Left"%string); (0%Z, "Left"%string);
                                (1%Z, "Left"%string)] TfjsApp.initial))) ->
       TfjsApp.smoothCount
         (TfjsApp.pushHistory 0 "Left"
            (tfjsObserveAll [(4%Z, "Left"%string); (0%Z, "Left"%string);
                             (1%Z, "Left"%string)] TfjsApp.initial))
       = blend (TfjsApp.smoothCount
                  (tfjsObserveAll [(4%Z, "Left"%string); (0%Z, "Left"%string);
                                   (1%Z, "Left"%string)] TfjsApp.initial))
               (plainMedian s)).
Proof.
  intro H. specialize (H [0; 0; 1; 4]%Z).
  assert (Hs : Sorted Z.le [0; 0; 1; 4]%Z).
  { repeat constructor; discriminate. }
  assert (Hp : Permutation [0; 0; 1; 4]%Z
                 (TfjsApp.countHistory
                    (TfjsApp.pushHistory 0 "Left"
                       (tfjsObserveAll
                          [(4%Z, "Left"%string); (0%Z, "Left"%string);
                           (1%Z, "Left"%string)] TfjsApp.initial)))).
  { exact (sortNum_perm [4; 0; 1; 0]%Z). }
  specialize (H Hs Hp). vm_compute in H. discriminate H.
Qed.

(* ================================================================== *)
(** * History windows of the three variants *)
(* ================================================================== *)

Lemma tfjsObserveAll_windows (obs : list (Z * string)) (st : TfjsApp.Smoother) :
  TfjsApp.countHistory (tfjsObserveAll obs st)
  = fold_left (pushShift TfjsApp.COUNT_HISTORY) (map fst obs)
              (TfjsApp.countHistory st)
  /\ TfjsApp.handHistory (tfjsObserveAll obs st)
     = fold_left (pushShift TfjsApp.HAND_HISTORY) (map snd obs)
                 (TfjsApp.handHistory st).
Proof.
  revert st. induction obs as [|[c h] obs IH]; intro st; cbn.
  - split; reflexivity.
  - destruct (IH (TfjsApp.pushHistory c h st)) as [Hc Hh].
    unfold tfjsObserveAll in Hc, Hh. cbn in Hc, Hh.
    rewrite Hc, Hh. split; reflexivity.
Qed.

(** Hands after the first leave the windows alone. *)
Lemma mp_loop_later (res : MediaPipeApp.Results) (i : nat)
  (hs : list (list Landmark)) (st : MediaPipeApp.History) :
  fst (fst (MediaPipeApp.loopHands res (S i) hs st)) = st.
Proof.
  revert i st. induction hs as [|lm hs IH]; intros i st; [reflexivity|].
  cbn [MediaPipeApp.loopHands MediaPipeApp.stepHand Nat.eqb].
  destruct (tipsPresent lm); [|reflexivity].
  specialize (IH (S i) st).
  destruct (MediaPipeApp.loopHands res (S (S i)) hs st) as [[st2 os] ok2].
  exact IH.
Qed.

Lemma mp_handsToShow_pos (tg : MediaPipeApp.Toggles) (d : nat) :
  exists m, MediaPipeApp.handsToShow tg (S d) = S m.
Proof.
  unfold MediaPipeApp.handsToShow.
  destruct (MediaPipeApp.showMultipleHands tg); [exists d | exists 0%nat];
    reflexivity.
Qed.

Lemma mp_onResults_state (tg : MediaPipeApp.Toggles)
  (res : MediaPipeApp.Results) (st : MediaPipeApp.History) :
  fst (fst (MediaPipeApp.onResults tg res st))
  = match mpObservation res with
    | Some (c, l) =>
        MediaPipeApp.mkHistory
          (pushShift MediaPipeApp.HISTORY_MAX (MediaPipeApp.countHistory st) c)
          (pushShift MediaPipeApp.HISTORY_MAX (MediaPipeApp.handedHistory st) l)
    | None => MediaPipeApp.mkHistory [] []
    end.
Proof.
  unfold MediaPipeApp.onResults, mpObservation.
  destruct (MediaPipeApp.multiHandLandmarks res) as [[|lm0 rest]|];
    [reflexivity| |reflexivity].
  cbn [List.length Nat.ltb Nat.leb].
  destruct (mp_handsToShow_pos tg (List.length rest)) as [m ->].
  cbn [firstn MediaPipeApp.loopHands MediaPipeApp.stepHand Nat.eqb].
  destruct (tipsPresent lm0).
  - pose proof (mp_loop_later res 0 (firstn m rest)
                  (MediaPipeApp.mkHistory
                     (pushShift MediaPipeApp.HISTORY_MAX
                        (MediaPipeApp.countHistory st) (count (analyzeHand lm0)))
                     (pushShift MediaPipeApp.HISTORY_MAX
                        (MediaPipeApp.handedHistory st)
                        (flipLabel (MediaPipeApp.rawLabel res 0))))) as Hl.
    destruct (MediaPipeApp.loopHands res 1 (firstn m rest) _)
      as [[st2 os] ok2].
    cbn in Hl. subst st2.
    destruct ok2; [|reflexivity].
    destruct (MediaPipeApp.mode _); [|reflexivity].
    destruct (MediaPipeApp.mode _); reflexivity.
  - reflexivity.
Qed.

Lemma bkp_onResults_state (res : MediaPipeBkp.Results)
  (st : MediaPipeBkp.History) :
  fst (fst (MediaPipeBkp.onResults res st))
  = match bkpObservation res with
    | Some (c, l) =>
        MediaPipeBkp.mkHistory
          (pushShift MediaPipeBkp.HISTORY_MAX (MediaPipeBkp.countHistory st) c)
          (pushShift MediaPipeBkp.HISTORY_MAX (MediaPipeBkp.handedHistory st) l)
    | None => MediaPipeBkp.mkHistory [] []
    end.
Proof.
  unfold MediaPipeBkp.onResults, bkpObservation.
  destruct (MediaPipeBkp.multiHandLandmarks res) as [[|lm0 rest]|];
    reflexivity.
Qed.

Lemma mpRun_windows (tg : MediaPipeApp.Toggles)
  (frames : list MediaPipeApp.Results) (obs : list (Z * string))
  (st : MediaPipeApp.History) :
  map mpObservation frames = map Some obs ->
  MediaPipeApp.countHistory (mpRun tg frames st)
  = fold_left (pushShift MediaPipeApp.HISTORY_MAX) (map fst obs)
              (MediaPipeApp.countHistory st)
  /\ MediaPipeApp.handedHistory (mpRun tg frames st)
     = fold_left (pushShift MediaPipeApp.HISTORY_MAX) (map snd obs)
                 (MediaPipeApp.handedHistory st).
Proof.
  revert obs st. induction frames as [|r frames IH]; intros obs st Hobs.
  - destruct obs; [|discriminate]. split; reflexivity.
  - destruct obs as [|[c l] obs]; [discriminate|].
    cbn in Hobs. inversion Hobs as [[Hr Hrest]].
    unfold mpRun. cbn [fold_left]. rewrite mp_onResults_state, Hr.
    destruct (IH obs (MediaPipeApp.mkHistory
                (pushShift MediaPipeApp.HISTORY_MAX
                   (MediaPipeApp.countHistory st) c)
                (pushShift MediaPipeApp.HISTORY_MAX
                   (MediaPipeApp.handedHistory st) l)) Hrest) as [Hc Hh].
    unfold mpRun in Hc, Hh. rewrite Hc, Hh. split; reflexivity.
Qed.

Lemma bkpRun_windows (frames : list MediaPipeBkp.Results)
  (obs : list (Z * string)) (st : MediaPipeBkp.History) :
  map bkpObservation frames = map Some obs ->
  MediaPipeBkp.countHistory (bkpRun frames st)
  = fold_left (pushShift MediaPipeBkp.HISTORY_MAX) (map fst obs)
              (MediaPipeBkp.countHistory st)
  /\ MediaPipeBkp.handedHistory (bkpRun frames st)
     = fold_left (pushShift MediaPipeBkp.HISTORY_MAX) (map snd obs)
                 (MediaPipeBkp.handedHistory st).
Proof.
  revert obs st. induction frames as [|r frames IH]; intros obs st Hobs.
  - destruct obs; [|discriminate]. split; reflexivity.
  - destruct obs as [|[c l] obs]; [discriminate|].
    cbn in Hobs. inversion Hobs as [[Hr Hrest]].
    unfold bkpRun. cbn [fold_left]. rewrite bkp_onResults_state, Hr.
    destruct (IH obs (MediaPipeBkp.mkHistory
                (pushShift MediaPipeBkp.HISTORY_MAX
                   (MediaPipeBkp.countHistory st) c)
                (pushShift MediaPipeBkp.HISTORY_MAX
                   (MediaPipeBkp.handedHistory st) l)) Hrest) as [Hc Hh].
    unfold bkpRun in Hc, Hh. rewrite Hc, Hh. split; reflexivity.
Qed.


(* ================================================================== *)
(** * The mode functions *)
(* ================================================================== *)

Lemma plain_dom (arr : list string) :
  Forall (fun k => plainKey k = true) arr ->
  Forall (fun k => In k arr /\ plainKey k = true) (ownKeys (tally arr)).
Proof.
  intro Hall. rewrite Forall_forall in Hall.
  apply Forall_forall. intros k Hin. apply ownKeys_tally_In in Hin.
  destruct Hin as [Hin _]. split; [exact Hin | apply Hall; exact Hin].
Qed.

Lemma bkp_mode_first (arr : list string) :
  arr <> [] -> Forall (fun k => plainKey k = true) arr ->
  exists k, MediaPipeBkp.mode arr = Some k /\ mostFrequentFirst arr k.
Proof.
  intros Hne Hall. unfold MediaPipeBkp.mode, mostFrequentFirst, loopBest.
  pose proof (ownKeys_tally_nonempty arr (plain_keys_non_proto arr Hne Hall))
    as Hk.
  pose proof (plain_dom arr Hall) as Hdom.
  destruct (ownKeys (tally arr)) as [|k0 rest]; [congruence|].
  inversion Hdom as [|? ? Hk0 Hrest]; subst. cbn [fold_left].
  destruct (loop_keeps_first (propGt (tally arr)) (occ arr)
              (fun k => In k arr /\ plainKey k = true) (propGt_tally arr)
              rest [] [] k0 Hk0 Hrest) as (k & pre & post & Hf & Hs & Hp & Hq).
  - intros x [].
  - intros x [].
  - exists k. split; [exact Hf|]. exists pre, post. cbn [app] in Hs. auto.
Qed.

Lemma app_mode_last (arr : list string) :
  arr <> [] -> Forall (fun k => plainKey k = true) arr ->
  exists k, MediaPipeApp.mode arr = Some k /\ mostFrequentLast arr k.
Proof.
  intros Hne Hall. unfold MediaPipeApp.mode, mostFrequentLast, reduceMax.
  pose proof (ownKeys_tally_nonempty arr (plain_keys_non_proto arr Hne Hall))
    as Hk.
  pose proof (plain_dom arr Hall) as Hdom.
  destruct (ownKeys (tally arr)) as [|k0 rest]; [congruence|].
  inversion Hdom as [|? ? Hk0 Hrest]; subst.
  destruct (reduce_keeps_last (propGt (tally arr)) (occ arr)
              (fun k => In k arr /\ plainKey k = true) (propGt_tally arr)
              rest [] [] k0 Hk0 Hrest) as (k & pre & post & Hf & Hs & Hp & Hq).
  - intros x [].
  - intros x [].
  - exists k. split; [rewrite Hf; reflexivity|].
    exists pre, post. cbn [app] in Hs. auto.
Qed.

Lemma plain_non_proto (arr : list string) (x : string) :
  Forall (fun k => plainKey k = true) arr -> In x arr ->
  x <> "__proto__"%string.
Proof.
  intros Hall Hin. rewrite Forall_forall in Hall.
  specialize (Hall x Hin). apply plainKey_spec in Hall. tauto.
Qed.

Lemma first_in_window (arr : list string) (k : string) :
  Forall (fun k => plainKey k = true) arr ->
  mostFrequentFirst arr k ->
  In k arr /\ forall x, In x arr -> (occ arr x <= occ arr k)%Z.
Proof.
  intros Hall (pre & post & Hs & Hp & Hq).
  assert (Hin : forall x, In x arr <-> In x pre \/ x = k \/ In x post).
  { intro x. split.
    - intro Hx.
      assert (Hk : In x (ownKeys (tally arr)))
        by (apply ownKeys_tally_In; split;
            [exact Hx | exact (plain_non_proto arr x Hall Hx)]).
      rewrite Hs, in_app_iff in Hk. cbn in Hk. intuition congruence.
    - intro Hx.
      assert (Hk : In x (ownKeys (tally arr))).
      { rewrite Hs, in_app_iff. cbn. intuition congruence. }
      apply ownKeys_tally_In in Hk. tauto. }
  split; [apply Hin; right; left; reflexivity|].
  intros x Hx. apply Hin in Hx.
  destruct Hx as [Hx|[->|Hx]]; [specialize (Hp x Hx); lia | lia | auto].
Qed.

Lemma last_in_window (arr : list string) (k : string) :
  Forall (fun k => plainKey k = true) arr ->
  mostFrequentLast arr k ->
  In k arr /\ forall x, In x arr -> (occ arr x <= occ arr k)%Z.
Proof.
  intros Hall (pre & post & Hs & Hp & Hq).
  assert (Hin : forall x, In x arr <-> In x pre \/ x = k \/ In x post).
  { intro x. split.
    - intro Hx.
      assert (Hk : In x (ownKeys (tally arr)))
        by (apply ownKeys_tally_In; split;
            [exact Hx | exact (plain_non_proto arr x Hall Hx)]).
      rewrite Hs, in_app_iff in Hk. cbn in Hk. intuition congruence.
    - intro Hx.
      assert (Hk : In x (ownKeys (tally arr))).
      { rewrite Hs, in_app_iff. cbn. intuition congruence. }
      apply ownKeys_tally_In in Hk. tauto. }
  split; [apply Hin; right; left; reflexivity|].
  intros x Hx. apply Hin in Hx.
  destruct Hx as [Hx|[->|Hx]]; [auto | lia | specialize (Hq x Hx); lia].
Qed.

(** On a window of counts the first tied key is the smallest tied count
    and the last tied key the largest. *)
Lemma first_is_smallest (w : list Z) (m : Z) :
  Forall (fun c => 0 <= c < 4294967295)%Z w -> In m w ->
  mostFrequentFirst (map numToString w) (numToString m) ->
  forall x, In x w -> occZ w x = occZ w m -> (m <= x)%Z.
Proof.
  intros Hall Hm (pre & post & Hs & Hp & Hq) x Hx Htie.
  rewrite Forall_forall in Hall.
  assert (Hin : In (numToString x) (pre ++ numToString m :: post)).
  { rewrite <- Hs. apply ownKeys_tally_In.
    split; [apply in_map; exact Hx|].
    apply (plain_non_proto _ _ (plain_counts w)). apply in_map. exact Hx. }
  pose proof (ownKeys_sorted (tally (map numToString w))) as Hsort.
  rewrite Hs in Hsort. apply StronglySorted_split in Hsort.
  destruct Hsort as [_ Hafter].
  apply in_app_iff in Hin. destruct Hin as [Hin|[Heq|Hin]].
  - specialize (Hp _ Hin). rewrite !occ_numToString in Hp. lia.
  - apply numToString_inj in Heq. lia.
  - apply keyLe_counts; auto.
Qed.

Lemma last_is_largest (w : list Z) (m : Z) :
  Forall (fun c => 0 <= c < 4294967295)%Z w -> In m w ->
  mostFrequentLast (map numToString w) (numToString m) ->
  forall x, In x w -> occZ w x = occZ w m -> (x <= m)%Z.
Proof.
  intros Hall Hm (pre & post & Hs & Hp & Hq) x Hx Htie.
  rewrite Forall_forall in Hall.
  assert (Hin : In (numToString x) (pre ++ numToString m :: post)).
  { rewrite <- Hs. apply ownKeys_tally_In.
    split; [apply in_map; exact Hx|].
    apply (plain_non_proto _ _ (plain_counts w)). apply in_map. exact Hx. }
  pose proof (ownKeys_sorted (tally (map numToString w))) as Hsort.
  rewrite Hs in Hsort. apply StronglySorted_split in Hsort.
  destruct Hsort as [Hbefore _].
  apply in_app_iff in Hin. destruct Hin as [Hin|[Heq|Hin]].
  - apply keyLe_counts; auto.
  - apply numToString_inj in Heq. lia.
  - specialize (Hq _ Hin). rewrite !occ_numToString in Hq. lia.
Qed.

Lemma map_numToString_nonempty (w : list Z) :
  w <> [] -> map numToString w <> [].
Proof. destruct w; [congruence | discriminate]. Qed.

Lemma bkp_displayedCount_spec (w : list Z) :
  w <> [] ->
  exists m, MediaPipeBkp.displayedCount w = Some m
            /\ In m w
            /\ MediaPipeBkp.mode (map numToString w) = Some (numToString m)
            /\ mostFrequentFirst (map numToString w) (numToString m).
Proof.
  intro Hne.
  destruct (bkp_mode_first _ (map_numToString_nonempty w Hne)
              (plain_counts w)) as (k & Hmode & Hfirst).
  destruct (first_in_window _ _ (plain_counts w) Hfirst) as [Hin _].
  apply in_map_iff in Hin. destruct Hin as (m & <- & Hm).
  exists m. unfold MediaPipeBkp.displayedCount. rewrite Hmode.
  rewrite strToNum_numToString. auto.
Qed.

Lemma app_mode_counts_spec (w : list Z) :
  w <> [] ->
  exists m, MediaPipeApp.mode (map numToString w) = Some (numToString m)
            /\ In m w
            /\ mostFrequentLast (map numToString w) (numToString m).
Proof.
  intro Hne.
  destruct (app_mode_last _ (map_numToString_nonempty w Hne)
              (plain_counts w)) as (k & Hmode & Hlast).
  destruct (last_in_window _ _ (plain_counts w) Hlast) as [Hin _].
  apply in_map_iff in Hin. destruct Hin as (m & <- & Hm).
  exists m. auto.
Qed.

(** Whatever the keys, [reduce] and the [best] loop return one of the keys
    they are given. *)
Lemma reduceMax_In (o : JSObject) (keys : list string) :
  keys <> [] -> exists k, reduceMax o keys = Some k /\ In k keys.
Proof.
  intro Hne. destruct keys as [|k0 rest]; [congruence|].
  unfold reduceMax. eexists. split; [reflexivity|].
  assert (H : forall l a, In (fold_left (fun a b => if propGt o a b then a
                                                    else b) l a) (a :: l)).
  { induction l as [|b l IH]; intro a; cbn [fold_left].
    - left. reflexivity.
    - destruct (propGt o a b).
      + destruct (IH a) as [E|Hin]; [left; exact E | right; right; exact Hin].
      + right. exact (IH b). }
  apply H.
Qed.

Lemma loopBest_In (o : JSObject) (keys : list string) :
  keys <> [] -> exists k, loopBest o keys = Some k /\ In k keys.
Proof.
  intro Hne. destruct keys as [|k0 rest]; [congruence|].
  unfold loopBest. cbn [fold_left].
  assert (H : forall l b,
             exists k,
               fold_left (fun best k =>
                            match best with
                            | None => Some k
                            | Some b => if propGt o k b then Some k
                                        else Some b
                            end) l (Some b) = Some k
               /\ In k (b :: l)).
  { induction l as [|x l IH]; intro b; cbn [fold_left].
    - exists b. split; [reflexivity | left; reflexivity].
    - destruct (propGt o x b).
      + destruct (IH x) as (k & Hk & Hin). exists k. split; [exact Hk|].
        right. exact Hin.
      + destruct (IH b) as (k & Hk & [E|Hin]); exists k;
          (split; [exact Hk|]); [left; exact E | right; right; exact Hin]. }
  apply H.
Qed.

(** Both [mode] functions return an element of the array as soon as the
    array has an element other than ["__proto__"], and nothing otherwise. *)
Lemma mode_returns_element (arr : list string) :
  (exists x, In x arr /\ x <> "__proto__"%string) ->
  (exists k, MediaPipeBkp.mode arr = Some k /\ In k arr
             /\ k <> "__proto__"%string)
  /\ (exists k, MediaPipeApp.mode arr = Some k /\ In k arr
                /\ k <> "__proto__"%string).
Proof.
  intro Hex. pose proof (ownKeys_tally_nonempty arr Hex) as Hne.
  split.
  - destruct (loopBest_In (tally arr) _ Hne) as (k & Hk & Hin).
    exists k. split; [exact Hk|]. apply ownKeys_tally_In. exact Hin.
  - destruct (reduceMax_In (tally arr) _ Hne) as (k & Hk & Hin).
    exists k. split; [exact Hk|]. apply ownKeys_tally_In. exact Hin.
Qed.

Lemma mode_of_proto_only (arr : list string) :
  Forall (fun x => x = "__proto__"%string) arr ->
  MediaPipeBkp.mode arr = None /\ MediaPipeApp.mode arr = None.
Proof.
  intro Hall. unfold MediaPipeBkp.mode, MediaPipeApp.mode.
  rewrite (ownKeys_tally_empty arr Hall). split; reflexivity.
Qed.

Lemma non_proto_dec (arr : list string) :
  (exists x, In x arr /\ x <> "__proto__"%string)
  \/ Forall (fun x => x = "__proto__"%string) arr.
Proof.
  induction arr as [|v arr IH].
  - right. constructor.
  - destruct (string_dec v "__proto__") as [->|Hne].
    + destruct IH as [(x & Hin & Hx)|Hall].
      * left. exists x. split; [right; exact Hin | exact Hx].
      * right. constructor; [reflexivity | exact Hall].
    + left. exists v. split; [left; reflexivity | exact Hne].
Qed.

(* ================================================================== *)
(** * The frame loop of the TensorFlow.js variant *)
(* ================================================================== *)

Lemma normalize_length (cv : TfjsApp.Canvas) (l : list Landmark) :
  exists nl, TfjsApp.normalize cv (Some l) = Some nl
             /\ List.length nl = List.length l.
Proof.
  destruct l as [|p0 l']; [exists []; split; reflexivity|].
  cbn [TfjsApp.normalize].
  destruct (Rgtb (kx p0) 1.5).
  - eexists. split; [reflexivity|]. apply length_map.
  - eexists. split; reflexivity.
Qed.

Lemma handOutcome_cases (cfg : TfjsApp.Config) (cv : TfjsApp.Canvas)
  (h : TfjsApp.Hand) :
  (option_map (@List.length Landmark) (TfjsApp.handKeypoints h) <> Some 21%nat
   /\ TfjsApp.handOutcome cfg cv h = TfjsApp.Skipped)
  \/ (exists k nl,
        TfjsApp.handKeypoints h = Some k /\ List.length k = 21%nat
        /\ List.length nl = 21%nat
        /\ TfjsApp.handOutcome cfg cv h
           = TfjsApp.Processed nl (analyzeLandmarks nl)
               (TfjsApp.mirrorLabel (TfjsApp.mirror cfg) (TfjsApp.rawLabel h))).
Proof.
  unfold TfjsApp.handOutcome, TfjsApp.landmarksOf.
  destruct (TfjsApp.handKeypoints h) as [k|]; cbn [option_map].
  - destruct (Nat.eqb_spec (List.length k) 21) as [Hlen|Hlen].
    + right.
      destruct (normalize_length cv
                  (map (fun p => mkLandmark (kx p) (ky p) (Some (zOr0 p))) k))
        as (nl & Hn & Hl).
      rewrite length_map, Hlen in Hl.
      exists k, nl. rewrite Hn, Hl.
      split; [reflexivity|]. split; [exact Hlen|]. split; reflexivity.
    + left. split; [congruence | reflexivity].
  - left. split; [discriminate | reflexivity].
Qed.

Lemma processHand_outcome (cfg : TfjsApp.Config) (cv : TfjsApp.Canvas)
  (i : nat) (h : TfjsApp.Hand) (st : TfjsApp.Smoother) :
  snd (TfjsApp.processHand cfg cv i h st) = TfjsApp.handOutcome cfg cv h.
Proof.
  unfold TfjsApp.processHand.
  destruct (TfjsApp.handOutcome cfg cv h); reflexivity.
Qed.

Lemma processHand_later (cfg : TfjsApp.Config) (cv : TfjsApp.Canvas)
  (i : nat) (h : TfjsApp.Hand) (st : TfjsApp.Smoother) :
  fst (TfjsApp.processHand cfg cv (S i) h st) = st.
Proof.
  unfold TfjsApp.processHand.
  destruct (TfjsApp.handOutcome cfg cv h); reflexivity.
Qed.

Lemma tfjs_loop_outcomes (cfg : TfjsApp.Config) (cv : TfjsApp.Canvas)
  (i : nat) (hs : list TfjsApp.Hand) (st : TfjsApp.Smoother) :
  snd (TfjsApp.loopHands cfg cv i hs st) = map (TfjsApp.handOutcome cfg cv) hs.
Proof.
  revert i st. induction hs as [|h hs IH]; intros i st; [reflexivity|].
  cbn [TfjsApp.loopHands map].
  pose proof (processHand_outcome cfg cv i h st) as Ho.
  destruct (TfjsApp.processHand cfg cv i h st) as [st1 o].
  specialize (IH (S i) st1).
  destruct (TfjsApp.loopHands cfg cv (S i) hs st1) as [st2 os].
  cbn in *. subst. reflexivity.
Qed.

Lemma tfjs_loop_later (cfg : TfjsApp.Config) (cv : TfjsApp.Canvas)
  (i : nat) (hs : list TfjsApp.Hand) (st : TfjsApp.Smoother) :
  fst (TfjsApp.loopHands cfg cv (S i) hs st) = st.
Proof.
  revert i st. induction hs as [|h hs IH]; intros i st; [reflexivity|].
  cbn [TfjsApp.loopHands].
  pose proof (processHand_later cfg cv i h st) as Hst.
  destruct (TfjsApp.processHand cfg cv (S i) h st) as [st1 o].
  specialize (IH (S i) st1).
  destruct (TfjsApp.loopHands cfg cv (S (S i)) hs st1) as [st2 os].
  cbn in *. subst. reflexivity.
Qed.

Lemma tfjs_loop_state (cfg : TfjsApp.Config) (cv : TfjsApp.Canvas)
  (h : TfjsApp.Hand) (rest : list TfjsApp.Hand) (st : TfjsApp.Smoother) :
  fst (TfjsApp.loopHands cfg cv 0 (h :: rest) st)
  = fst (TfjsApp.processHand cfg cv 0 h st).
Proof.
  cbn [TfjsApp.loopHands].
  destruct (TfjsApp.processHand cfg cv 0 h st) as [st1 o].
  pose proof (tfjs_loop_later cfg cv 0 rest st1) as Hl.
  destruct (TfjsApp.loopHands cfg cv 1 rest st1) as [st2 os].
  cbn in *. subst. reflexivity.
Qed.

Lemma firstn_min_length {A : Type} (m : nat) (l : list A) :
  firstn (Nat.min (List.length l) m) l = firstn m l.
Proof.
  destruct (Nat.le_gt_cases m (List.length l)) as [Hle|Hgt].
  - rewrite Nat.min_r by exact Hle. reflexivity.
  - rewrite Nat.min_l by lia. rewrite firstn_all, firstn_all2 by lia.
    reflexivity.
Qed.

Lemma tfjs_frame_outcomes (cfg : TfjsApp.Config) (cv : TfjsApp.Canvas)
  (hands : list TfjsApp.Hand) (st : TfjsApp.Smoother) :
  snd (TfjsApp.processFrame cfg cv (Some hands) st)
  = map (TfjsApp.handOutcome cfg cv) (TfjsApp.shownHands cfg hands).
Proof.
  unfold TfjsApp.processFrame.
  destruct hands as [|h rest].
  - cbn. unfold TfjsApp.shownHands. rewrite firstn_nil. reflexivity.
  - cbn [List.length Nat.ltb Nat.leb].
    pose proof (tfjs_loop_outcomes cfg cv 0
                  (TfjsApp.shownHands cfg (h :: rest)) st) as Ho.
    destruct (TfjsApp.loopHands cfg cv 0 _ st) as [st' outs].
    exact Ho.
Qed.

Lemma tfjs_frame_state (cfg : TfjsApp.Config) (cv : TfjsApp.Canvas)
  (h : TfjsApp.Hand) (rest : list TfjsApp.Hand) (st : TfjsApp.Smoother) :
  fst (fst (TfjsApp.processFrame cfg cv (Some (h :: rest)) st))
  = fst (TfjsApp.processHand cfg cv 0 h st).
Proof.
  unfold TfjsApp.processFrame. cbn [List.length Nat.ltb Nat.leb].
  assert (Hs : TfjsApp.shownHands cfg (h :: rest)
               = h :: firstn (TfjsApp.maxHandsOf cfg - 1) rest).
  { unfold TfjsApp.shownHands, TfjsApp.maxHandsOf.
    destruct (TfjsApp.multiHand cfg); reflexivity. }
  rewrite Hs.
  pose proof (tfjs_loop_state cfg cv h
                (firstn (TfjsApp.maxHandsOf cfg - 1) rest) st) as Hl.
  destruct (TfjsApp.loopHands cfg cv 0 _ st) as [st' outs].
  exact Hl.
Qed.

Lemma tfjs_frame_bounded (cfg : TfjsApp.Config) (cv : TfjsApp.Canvas)
  (detected : option (list TfjsApp.Hand)) (st : TfjsApp.Smoother) :
  tfjsBounded st ->
  tfjsBounded (fst (fst (TfjsApp.processFrame cfg cv detected st))).
Proof.
  intros [Hc Hh].
  destruct detected as [[|h rest]|];
    [split; cbn; lia | | split; cbn; lia].
  rewrite tfjs_frame_state. unfold TfjsApp.processHand.
  destruct (TfjsApp.handOutcome cfg cv h) as [|nl a lbl];
    [split; assumption|].
  split; cbn; apply pushShift_bound; assumption.
Qed.

Lemma mp_frame_bounded (tg : MediaPipeApp.Toggles)
  (res : MediaPipeApp.Results) (st : MediaPipeApp.History) :
  mpBounded st ->
  mpBounded (fst (fst (MediaPipeApp.onResults tg res st))).
Proof.
  intros [Hc Hh]. rewrite mp_onResults_state.
  destruct (mpObservation res) as [[c l]|]; [|split; cbn; lia].
  split; cbn; apply pushShift_bound; assumption.
Qed.

Lemma bkp_frame_bounded (res : MediaPipeBkp.Results)
  (st : MediaPipeBkp.History) :
  bkpBounded st ->
  bkpBounded (fst (fst (MediaPipeBkp.onResults res st))).
Proof.
  intros [Hc Hh]. rewrite bkp_onResults_state.
  destruct (bkpObservation res) as [[c l]|]; [|split; cbn; lia].
  split; cbn; apply pushShift_bound; assumption.
Qed.

(** C2.  Whatever sequence of observations is pushed, starting from the
    empty windows, the count window and the label window each hold exactly
    the most recent N of them, oldest first (all of them while fewer than N
    were pushed), hence never more than N: N = 8 for both windows of
    [pushHistory], N = 8 for the MediaPipe variant with toggles and N = 6
    for [script_bkp.js], where a frame with at least one hand pushes the
    count and label of its first hand.  Moreover no frame, with or without
    hands, takes a window beyond its capacity. *)
Theorem windows_hold_most_recent :
  (forall obs : list (Z * string),
      TfjsApp.countHistory (tfjsObserveAll obs TfjsApp.initial)
      = lastn TfjsApp.COUNT_HISTORY (map fst obs)
      /\ TfjsApp.handHistory (tfjsObserveAll obs TfjsApp.initial)
         = lastn TfjsApp.HAND_HISTORY (map snd obs)
      /\ (List.length (TfjsApp.countHistory
                         (tfjsObserveAll obs TfjsApp.initial))
          <= TfjsApp.COUNT_HISTORY)%nat
      /\ (List.length (TfjsApp.handHistory
                         (tfjsObserveAll obs TfjsApp.initial))
          <= TfjsApp.HAND_HISTORY)%nat)
  /\ (forall tg frames obs,
        map mpObservation frames = map Some obs ->
        MediaPipeApp.countHistory (mpRun tg frames MediaPipeApp.initial)
        = lastn MediaPipeApp.HISTORY_MAX (map fst obs)
        /\ MediaPipeApp.handedHistory (mpRun tg frames MediaPipeApp.initial)
           = lastn MediaPipeApp.HISTORY_MAX (map snd obs)
        /\ (List.length (MediaPipeApp.countHistory
                           (mpRun tg frames MediaPipeApp.initial))
            <= MediaPipeApp.HISTORY_MAX)%nat
        /\ (List.length (MediaPipeApp.handedHistory
                           (mpRun tg frames MediaPipeApp.initial))
            <= MediaPipeApp.HISTORY_MAX)%nat)
  /\ (forall frames obs,
        map bkpObservation frames = map Some obs ->
        MediaPipeBkp.countHistory (bkpRun frames MediaPipeBkp.initial)
        = lastn MediaPipeBkp.HISTORY_MAX (map fst obs)
        /\ MediaPipeBkp.handedHistory (bkpRun frames MediaPipeBkp.initial)
           = lastn MediaPipeBkp.HISTORY_MAX (map snd obs)
        /\ (List.length (MediaPipeBkp.countHistory
                           (bkpRun frames MediaPipeBkp.initial))
            <= MediaPipeBkp.HISTORY_MAX)%nat
        /\ (List.length (MediaPipeBkp.handedHistory
                           (bkpRun frames MediaPipeBkp.initial))
            <= MediaPipeBkp.HISTORY_MAX)%nat)
  /\ (forall cfg cv detected st,
        tfjsBounded st ->
        tfjsBounded (fst (fst (TfjsApp.processFrame cfg cv detected st))))
  /\ (forall tg res st,
        mpBounded st ->
        mpBounded (fst (fst (MediaPipeApp.onResults tg res st))))
  /\ (forall res st,
        bkpBounded st ->
        bkpBounded (fst (fst (MediaPipeBkp.onResults res st)))).
Proof.
  split; [|split; [|split; [|split; [|split]]]];
    [| | |exact tfjs_frame_bounded|exact mp_frame_bounded
     |exact bkp_frame_bounded].
  - intro obs.
    destruct (tfjsObserveAll_windows obs TfjsApp.initial) as [Hc Hh].
    cbn [TfjsApp.initial TfjsApp.countHistory TfjsApp.handHistory] in Hc, Hh.
    rewrite pushAll_lastn in Hc. rewrite pushAll_lastn in Hh.
    rewrite Hc, Hh, !lastn_length.
    repeat split; lia.
  - intros tg frames obs Hobs.
    destruct (mpRun_windows tg frames obs MediaPipeApp.initial Hobs)
      as [Hc Hh].
    cbn [MediaPipeApp.initial MediaPipeApp.countHistory
         MediaPipeApp.handedHistory] in Hc, Hh.
    rewrite pushAll_lastn in Hc. rewrite pushAll_lastn in Hh.
    rewrite Hc, Hh, !lastn_length.
    repeat split; lia.
  - intros frames obs Hobs.
    destruct (bkpRun_windows frames obs MediaPipeBkp.initial Hobs)
      as [Hc Hh].
    cbn [MediaPipeBkp.initial MediaPipeBkp.countHistory
         MediaPipeBkp.handedHistory] in Hc, Hh.
    rewrite pushAll_lastn in Hc. rewrite pushAll_lastn in Hh.
    rewrite Hc, Hh, !lastn_length.
    repeat split; lia.
Qed.

(** Witness for C2: one frame whose single hand carries no landmarks is
    analysed to the count 0 with the label ['Unknown'], in both MediaPipe
    variants; the empty windows are within capacity. *)
Lemma windows_hold_most_recent_witness :
  (map mpObservation [MediaPipeApp.mkResults (Some [[]]) None]
   = map Some [(0%Z, "Unknown"%string)]
   /\ MediaPipeApp.countHistory
        (mpRun (MediaPipeApp.mkToggles true false)
               [MediaPipeApp.mkResults (Some [[]]) None] MediaPipeApp.initial)
      = lastn MediaPipeApp.HISTORY_MAX (map fst [(0%Z, "Unknown"%string)]))
  /\ (map bkpObservation [MediaPipeBkp.mkResults (Some [[]]) None]
      = map Some [(0%Z, "Unknown"%string)]
      /\ MediaPipeBkp.countHistory
           (bkpRun [MediaPipeBkp.mkResults (Some [[]]) None]
                   MediaPipeBkp.initial)
         = lastn MediaPipeBkp.HISTORY_MAX (map fst [(0%Z, "Unknown"%string)]))
  /\ (tfjsBounded TfjsApp.initial
      /\ tfjsBounded
           (fst (fst (TfjsApp.processFrame (TfjsApp.mkConfig true false false)
                        (TfjsApp.mkCanvas 1280 720) None TfjsApp.initial)))).
Proof.
  assert (Hb : tfjsBounded TfjsApp.initial) by (split; cbn; lia).
  split; [|split].
  - split; [reflexivity|].
    exact (proj1 (proj1 (proj2 windows_hold_most_recent)
                    (MediaPipeApp.mkToggles true false)
                    [MediaPipeApp.mkResults (Some [[]]) None]
                    [(0%Z, "Unknown"%string)] eq_refl)).
  - split; [reflexivity|].
    exact (proj1 (proj1 (proj2 (proj2 windows_hold_most_recent))
                    [MediaPipeBkp.mkResults (Some [[]]) None]
                    [(0%Z, "Unknown"%string)] eq_refl)).
  - split; [exact Hb|].
    exact (proj1 (proj2 (proj2 (proj2 windows_hold_most_recent)))
             (TfjsApp.mkConfig true false false) (TfjsApp.mkCanvas 1280 720)
             None TfjsApp.initial Hb).
Defined.

(** C4.  Whatever the state, a frame with zero detected hands (an empty
    result list, or a failed detection) leaves both history windows empty
    and the displayed count and handedness at 0 and the no-hand placeholder
    (the em dash the globals start with), in that same frame.  The two
    MediaPipe variants clear their windows and show the same texts. *)
Theorem no_hands_resets :
  (forall cfg cv st,
      TfjsApp.processFrame cfg cv (Some []) st
      = (TfjsApp.mkSmoother [] [] 0 dash,
         TfjsApp.mkUI TfjsApp.NoHandsDetected 0 dash, []))
  /\ (forall cfg cv st,
        TfjsApp.processFrame cfg cv None st
        = (TfjsApp.mkSmoother [] [] 0 dash,
           TfjsApp.mkUI TfjsApp.NoHandsDetected 0 dash, []))
  /\ TfjsApp.initial = TfjsApp.mkSmoother [] [] 0 dash
  /\ (forall tg mh st,
        MediaPipeApp.onResults tg (MediaPipeApp.mkResults (Some []) mh) st
        = (MediaPipeApp.mkHistory [] [], [],
           MediaPipeApp.Completed
             (MediaPipeApp.mkUI MediaPipeApp.NoHandsDetected (Some 0%Z) dash)))
  /\ (forall tg mh st,
        MediaPipeApp.onResults tg (MediaPipeApp.mkResults None mh) st
        = (MediaPipeApp.mkHistory [] [], [],
           MediaPipeApp.Completed
             (MediaPipeApp.mkUI MediaPipeApp.NoHandsDetected (Some 0%Z) dash)))
  /\ (forall mh st,
        MediaPipeBkp.onResults (MediaPipeBkp.mkResults (Some []) mh) st
        = (MediaPipeBkp.mkHistory [] [],
           MediaPipeBkp.mkUI MediaPipeBkp.NoHandsDetected (Some 0%Z)
                             (Some dash), true))
  /\ (forall mh st,
        MediaPipeBkp.onResults (MediaPipeBkp.mkResults None mh) st
        = (MediaPipeBkp.mkHistory [] [],
           MediaPipeBkp.mkUI MediaPipeBkp.NoHandsDetected (Some 0%Z)
                             (Some dash), true)).
Proof.
  repeat split.
Qed.

(* ================================================================== *)
(** * Mirroring of the handedness label *)
(* ================================================================== *)

Lemma flipLabel_involutive (l : string) : flipLabel (flipLabel l) = l.
Proof.
  unfold flipLabel.
  destruct (String.eqb_spec l "Left") as [->|HL]; [reflexivity|].
  destruct (String.eqb_spec l "Right") as [->|HR]; [reflexivity|].
  apply String.eqb_neq in HL, HR. rewrite HL, HR. reflexivity.
Qed.

Lemma handOutcome_label (cfg : TfjsApp.Config) (cv : TfjsApp.Canvas)
  (h : TfjsApp.Hand) (nl : list Landmark) (a : Analysis) (lbl : string) :
  TfjsApp.handOutcome cfg cv h = TfjsApp.Processed nl a lbl ->
  a = analyzeLandmarks nl
  /\ lbl = TfjsApp.mirrorLabel (TfjsApp.mirror cfg) (TfjsApp.rawLabel h).
Proof.
  intro H.
  destruct (handOutcome_cases cfg cv h) as [[_ Hs]|(k & nl' & _ & _ & _ & Hp)];
    rewrite H in *; [discriminate|].
  inversion Hp; subst. split; reflexivity.
Qed.

(** The hand window and the hand label after [pushHistory]. *)
Lemma pushHistory_hand (c : Z) (l : string) (st : TfjsApp.Smoother) :
  TfjsApp.handHistory (TfjsApp.pushHistory c l st)
  = pushShift TfjsApp.HAND_HISTORY (TfjsApp.handHistory st) l
  /\ TfjsApp.smoothHand (TfjsApp.pushHistory c l st)
     = match MediaPipeApp.mode
               (pushShift TfjsApp.HAND_HISTORY (TfjsApp.handHistory st) l)
       with
       | Some k => k
       | None => TfjsApp.smoothHand st
       end.
Proof. split; reflexivity. Qed.

(** The state after a frame whose first hand has its 21 keypoints. *)
Lemma tfjs_frame_push (cfg : TfjsApp.Config) (cv : TfjsApp.Canvas)
  (h : TfjsApp.Hand) (rest : list TfjsApp.Hand) (st : TfjsApp.Smoother)
  (k : list Landmark) :
  TfjsApp.handKeypoints h = Some k -> List.length k = 21%nat ->
  exists c,
    fst (fst (TfjsApp.processFrame cfg cv (Some (h :: rest)) st))
    = TfjsApp.pushHistory c
        (TfjsApp.mirrorLabel (TfjsApp.mirror cfg) (TfjsApp.rawLabel h)) st.
Proof.
  intros Hk Hlen. rewrite tfjs_frame_state. unfold TfjsApp.processHand.
  destruct (handOutcome_cases cfg cv h)
    as [[Hn _]|(k' & nl & _ & _ & _ & Hp)].
  - exfalso. apply Hn. rewrite Hk. cbn. rewrite Hlen. reflexivity.
  - rewrite Hp. cbn [Nat.eqb fst]. eexists. reflexivity.
Qed.

(** The handedness text of a frame with hands is the global [smoothHand]
    as the frame leaves it. *)
Lemma tfjs_frame_handText (cfg : TfjsApp.Config) (cv : TfjsApp.Canvas)
  (h : TfjsApp.Hand) (rest : list TfjsApp.Hand) (st : TfjsApp.Smoother) :
  TfjsApp.handText
    (snd (fst (TfjsApp.processFrame cfg cv (Some (h :: rest)) st)))
  = TfjsApp.smoothHand
      (fst (fst (TfjsApp.processFrame cfg cv (Some (h :: rest)) st)))
  /\ TfjsApp.countText
       (snd (fst (TfjsApp.processFrame cfg cv (Some (h :: rest)) st)))
     = TfjsApp.smoothCount
         (fst (fst (TfjsApp.processFrame cfg cv (Some (h :: rest)) st))).
Proof.
  unfold TfjsApp.processFrame. cbn [List.length Nat.ltb Nat.leb].
  destruct (TfjsApp.loopHands cfg cv 0 _ st) as [st' outs].
  split; reflexivity.
Qed.

(** A window that holds one label only, other than ["__proto__"], has
    that label as its mode. *)
Lemma mode_of_constant_window (w : list string) (l : string) :
  w <> [] -> l <> "__proto__"%string -> Forall (fun x => x = l) w ->
  MediaPipeApp.mode w = Some l /\ MediaPipeBkp.mode w = Some l.
Proof.
  intros Hne Hl Hall. rewrite Forall_forall in Hall.
  assert (Hex : exists x, In x w /\ x <> "__proto__"%string).
  { destruct w as [|v w]; [congruence|]. exists v.
    split; [left; reflexivity|].
    rewrite (Hall v (or_introl eq_refl)). exact Hl. }
  destruct (mode_returns_element w Hex)
    as [(k1 & Hk1 & Hin1 & _) (k2 & Hk2 & Hin2 & _)].
  rewrite Hk1, Hk2, (Hall k1 Hin1), (Hall k2 Hin2). split; reflexivity.
Qed.

Lemma pushShift_constant {A : Type} (cap : nat) (h : list A) (v : A) :
  Forall (fun x => x = v) h -> Forall (fun x => x = v) (pushShift cap h v).
Proof.
  intro Hall. unfold pushShift.
  assert (Happ : Forall (fun x => x = v) (h ++ [v])).
  { apply Forall_app. split; [exact Hall | repeat constructor]. }
  destruct (cap <? List.length (h ++ [v]))%nat; [|exact Happ].
  destruct (h ++ [v]) as [|a t]; [constructor|].
  inversion Happ; assumption.
Qed.

(** The [reduce] of [pushHistory] throws exactly when the window holds
    ["__proto__"] only. *)
Lemma pushHistory_throws_iff (h : string) (st : TfjsApp.Smoother) :
  TfjsApp.pushHistoryThrows h st = true
  <-> Forall (fun x => x = "__proto__"%string)
             (pushShift TfjsApp.HAND_HISTORY (TfjsApp.handHistory st) h).
Proof.
  unfold TfjsApp.pushHistoryThrows. cbv zeta.
  set (w := pushShift TfjsApp.HAND_HISTORY (TfjsApp.handHistory st) h).
  destruct (non_proto_dec w) as [Hex|Hall].
  - destruct (mode_returns_element w Hex) as [_ (k & Hk & Hin & Hnp)].
    unfold MediaPipeApp.mode in Hk. rewrite Hk.
    split; [discriminate|].
    intro Hall. rewrite Forall_forall in Hall. elim Hnp. apply Hall. exact Hin.
  - destruct (mode_of_proto_only w Hall) as [_ Hm].
    unfold MediaPipeApp.mode in Hm. rewrite Hm. tauto.
Qed.

(** A frame whose first hand has its 21 keypoints is ended by that
    exception exactly when the window it has just pushed holds
    ["__proto__"] only. *)
Lemma frameAborts_first_hand (cfg : TfjsApp.Config) (cv : TfjsApp.Canvas)
  (h : TfjsApp.Hand) (rest : list TfjsApp.Hand) (st : TfjsApp.Smoother)
  (k : list Landmark) :
  TfjsApp.handKeypoints h = Some k -> List.length k = 21%nat ->
  TfjsApp.frameAborts cfg cv (Some (h :: rest)) st
  = TfjsApp.pushHistoryThrows
      (TfjsApp.mirrorLabel (TfjsApp.mirror cfg) (TfjsApp.rawLabel h)) st.
Proof.
  intros Hk Hlen.
  assert (Hsh : exists tl, TfjsApp.shownHands cfg (h :: rest) = h :: tl).
  { unfold TfjsApp.shownHands, TfjsApp.maxHandsOf.
    destruct (TfjsApp.multiHand cfg); cbn [firstn]; eexists; reflexivity. }
  destruct Hsh as [tl Hsh].
  unfold TfjsApp.frameAborts. rewrite Hsh.
  destruct (handOutcome_cases cfg cv h)
    as [[Hn _]|(k' & nl & _ & _ & _ & Hp)].
  - exfalso. apply Hn. rewrite Hk. cbn. rewrite Hlen. reflexivity.
  - rewrite Hp. reflexivity.
Qed.

(** A frame without hands, or whose first shown hand is skipped, is never
    ended by it. *)
Lemma frameAborts_skipped (cfg : TfjsApp.Config) (cv : TfjsApp.Canvas)
  (st : TfjsApp.Smoother) :
  TfjsApp.frameAborts cfg cv None st = false
  /\ TfjsApp.frameAborts cfg cv (Some []) st = false
  /\ (forall h rest,
        TfjsApp.handOutcome cfg cv h = TfjsApp.Skipped ->
        TfjsApp.frameAborts cfg cv (Some (h :: rest)) st = false).
Proof.
  split; [reflexivity|]. split.
  - unfold TfjsApp.frameAborts, TfjsApp.shownHands.
    destruct (TfjsApp.maxHandsOf cfg); reflexivity.
  - intros h rest Hs. unfold TfjsApp.frameAborts, TfjsApp.shownHands,
      TfjsApp.maxHandsOf.
    destruct (TfjsApp.multiHand cfg); cbn [firstn]; rewrite Hs; reflexivity.
Qed.

(** C9, as amended.  With mirror mode on, the label that a frame pushes
    into the hand window (for its first shown hand, 21 keypoints) is the
    detector's label with ["Left"] and ["Right"] swapped; any other
    label, and ['Unknown'] for a missing label or a handedness given as a
    string, is kept; with mirror mode off it is the detector's label.
    The label the frame emits is [smoothHand], the most frequent label of
    that window, the later-created one on a tie: it is the swapped label
    when the window holds no other label, as after a reset.  (The frame
    emits nothing when [reduce] throws, which it does on a window of
    ["__proto__"] only.)  Applying the correction twice gives the
    original label back, as does toggling the mode twice. *)
Theorem mirror_swaps_left_right :
  TfjsApp.mirrorLabel true "Left" = "Right"%string
  /\ TfjsApp.mirrorLabel true "Right" = "Left"%string
  /\ (forall l, l <> "Left"%string -> l <> "Right"%string ->
                TfjsApp.mirrorLabel true l = l)
  /\ (forall l, TfjsApp.mirrorLabel false l = l)
  /\ (forall l, TfjsApp.mirrorLabel true (TfjsApp.mirrorLabel true l) = l)
  /\ (forall m l, TfjsApp.mirrorLabel (negb (negb m)) l
                  = TfjsApp.mirrorLabel m l)
  /\ (forall k3 k l es,
        l <> ""%string ->
        TfjsApp.rawLabel
          (TfjsApp.mkHand k3 k
             (Some (TfjsApp.HandednessList (mkEntry (Some l) :: es)))) = l)
  /\ (forall k3 k s,
        TfjsApp.rawLabel
          (TfjsApp.mkHand k3 k (Some (TfjsApp.HandednessString s)))
        = "Unknown"%string)
  /\ (forall k3 k,
        TfjsApp.rawLabel (TfjsApp.mkHand k3 k None) = "Unknown"%string)
  /\ (forall cfg cv h rest st k,
        TfjsApp.handKeypoints h = Some k -> List.length k = 21%nat ->
        TfjsApp.handHistory
          (fst (fst (TfjsApp.processFrame cfg cv (Some (h :: rest)) st)))
        = pushShift TfjsApp.HAND_HISTORY (TfjsApp.handHistory st)
            (TfjsApp.mirrorLabel (TfjsApp.mirror cfg) (TfjsApp.rawLabel h))
        /\ (TfjsApp.frameAborts cfg cv (Some (h :: rest)) st = true
            <-> Forall (fun x => x = "__proto__"%string)
                       (TfjsApp.handHistory
                          (fst (fst (TfjsApp.processFrame cfg cv
                                       (Some (h :: rest)) st)))))
        /\ (TfjsApp.frameAborts cfg cv (Some (h :: rest)) st = false ->
            TfjsApp.handText
              (snd (fst (TfjsApp.processFrame cfg cv (Some (h :: rest)) st)))
            = TfjsApp.smoothHand
                (fst (fst (TfjsApp.processFrame cfg cv
                             (Some (h :: rest)) st))))
        /\ (Forall (fun x => plainKey x = true)
                   (TfjsApp.handHistory
                      (fst (fst (TfjsApp.processFrame cfg cv
                                   (Some (h :: rest)) st))))
            -> mostFrequentLast
                 (TfjsApp.handHistory
                    (fst (fst (TfjsApp.processFrame cfg cv
                                 (Some (h :: rest)) st))))
                 (TfjsApp.handText
                    (snd (fst (TfjsApp.processFrame cfg cv
                                 (Some (h :: rest)) st)))))
        /\ (TfjsApp.mirrorLabel (TfjsApp.mirror cfg) (TfjsApp.rawLabel h)
            <> "__proto__"%string ->
            Forall (fun x => x = TfjsApp.mirrorLabel (TfjsApp.mirror cfg)
                                   (TfjsApp.rawLabel h))
                   (TfjsApp.handHistory st) ->
            TfjsApp.handText
              (snd (fst (TfjsApp.processFrame cfg cv (Some (h :: rest)) st)))
            = TfjsApp.mirrorLabel (TfjsApp.mirror cfg) (TfjsApp.rawLabel h))).
Proof.
  split; [reflexivity|]. split; [reflexivity|].
  split.
  { intros l HL HR. unfold TfjsApp.mirrorLabel, flipLabel.
    apply String.eqb_neq in HL, HR. rewrite HL, HR. reflexivity. }
  split; [reflexivity|].
  split; [intro l; apply flipLabel_involutive|].
  split; [intros m l; rewrite Bool.negb_involutive; reflexivity|].
  split.
  { intros k3 k l es Hl. unfold TfjsApp.rawLabel, labelOrUnknown.
    cbn [TfjsApp.handedness]. apply String.eqb_neq in Hl. rewrite Hl.
    reflexivity. }
  split; [reflexivity|]. split; [reflexivity|].
  intros cfg cv h rest st k Hk Hlen.
  destruct (tfjs_frame_handText cfg cv h rest st) as [Htext _].
  destruct (tfjs_frame_push cfg cv h rest st k Hk Hlen) as [c Hst].
  rewrite Htext, Hst.
  destruct (pushHistory_hand c
              (TfjsApp.mirrorLabel (TfjsApp.mirror cfg) (TfjsApp.rawLabel h))
              st) as [Hh Hs].
  rewrite Hh, Hs.
  assert (Hne : pushShift TfjsApp.HAND_HISTORY (TfjsApp.handHistory st)
                  (TfjsApp.mirrorLabel (TfjsApp.mirror cfg)
                                       (TfjsApp.rawLabel h)) <> [])
    by (apply pushShift_nonempty; unfold TfjsApp.HAND_HISTORY; lia).
  split; [reflexivity|]. split.
  { rewrite (frameAborts_first_hand cfg cv h rest st k Hk Hlen).
    apply pushHistory_throws_iff. }
  split; [intros _; reflexivity|]. split.
  - intro Hplain.
    destruct (app_mode_last _ Hne Hplain) as (m & Hm & Hlast).
    rewrite Hm. exact Hlast.
  - intros Hnp Hall.
    destruct (mode_of_constant_window _ _ Hne Hnp
                (pushShift_constant _ _ _ Hall)) as [Hm _].
    rewrite Hm. reflexivity.
Qed.

(** Witness for C9: a left hand of 21 landmarks seen in mirror mode right
    after a reset is shown as ["Right"]. *)
Lemma mirror_swaps_left_right_witness :
  TfjsApp.handKeypoints
    (TfjsApp.mkHand None (Some (repeat origin 21))
       (Some (TfjsApp.HandednessList [mkEntry (Some "Left"%string)])))
  = Some (repeat origin 21)
  /\ List.length (repeat origin 21) = 21%nat
  /\ TfjsApp.handText
       (snd (fst (TfjsApp.processFrame (TfjsApp.mkConfig true false true)
                    (TfjsApp.mkCanvas 1280 720)
                    (Some [TfjsApp.mkHand None (Some (repeat origin 21))
                             (Some (TfjsApp.HandednessList
                                      [mkEntry (Some "Left"%string)]))])
                    TfjsApp.initial)))
     = "Right"%string.
Proof.
  assert (Hnp : TfjsApp.mirrorLabel true "Left" <> "__proto__"%string)
    by discriminate.
  split; [reflexivity|]. split; [reflexivity|].
  destruct mirror_swaps_left_right as (_ & _ & _ & _ & _ & _ & _ & _ & _ & H).
  exact (proj2 (proj2 (proj2 (proj2
           (H (TfjsApp.mkConfig true false true) (TfjsApp.mkCanvas 1280 720)
              (TfjsApp.mkHand None (Some (repeat origin 21))
                 (Some (TfjsApp.HandednessList
                          [mkEntry (Some "Left"%string)])))
              [] TfjsApp.initial (repeat origin 21) eq_refl eq_refl))))
           Hnp (Forall_nil _)).
Defined.

(** C9 as first stated fails on the emitted label: after two frames that
    showed a left hand with mirror mode off, the frame in which mirror
    mode is on pushes ["Right"] into the window ["Left"; "Left"], and the
    label it emits is still ["Left"], the detector's own label. *)
Lemma mirror_on_emits_unswapped_label :
  TfjsApp.rawLabel
    (TfjsApp.mkHand None (Some (repeat origin 21))
       (Some (TfjsApp.HandednessList [mkEntry (Some "Left"%string)])))
  = "Left"%string
  /\ TfjsApp.handHistory
       (tfjsRun
          [(TfjsApp.mkConfig true false false, TfjsApp.mkCanvas 1280 720,
            Some [TfjsApp.mkHand None (Some (repeat origin 21))
                    (Some (TfjsApp.HandednessList
                             [mkEntry (Some "Left"%string)]))]);
           (TfjsApp.mkConfig true false false, TfjsApp.mkCanvas 1280 720,
            Some [TfjsApp.mkHand None (Some (repeat origin 21))
                    (Some (TfjsApp.HandednessList
                             [mkEntry (Some "Left"%string)]))]);
           (TfjsApp.mkConfig true false true, TfjsApp.mkCanvas 1280 720,
            Some [TfjsApp.mkHand None (Some (repeat origin 21))
                    (Some (TfjsApp.HandednessList
                             [mkEntry (Some "Left"%string)]))])]
          TfjsApp.initial)
     = ["Left"; "Left"; "Right"]%string
  /\ TfjsApp.handText
       (tfjsShown
          (tfjsRun
             [(TfjsApp.mkConfig true false false, TfjsApp.mkCanvas 1280 720,
               Some [TfjsApp.mkHand None (Some (repeat origin 21))
                       (Some (TfjsApp.HandednessList
                                [mkEntry (Some "Left"%string)]))]);
              (TfjsApp.mkConfig true false false, TfjsApp.mkCanvas 1280 720,
               Some [TfjsApp.mkHand None (Some (repeat origin 21))
                       (Some (TfjsApp.HandednessList
                                [mkEntry (Some "Left"%string)]))])]
             TfjsApp.initial)
          (TfjsApp.mkConfig true false true, TfjsApp.mkCanvas 1280 720,
           Some [TfjsApp.mkHand None (Some (repeat origin 21))
                   (Some (TfjsApp.HandednessList
                            [mkEntry (Some "Left"%string)]))]))
     = "Left"%string
  /\ "Left"%string <> TfjsApp.mirrorLabel true "Left".
Proof.
  set (hL := TfjsApp.mkHand None (Some (repeat origin 21))
               (Some (TfjsApp.HandednessList [mkEntry (Some "Left"%string)]))).
  set (cv := TfjsApp.mkCanvas 1280 720).
  assert (Hstep : forall cfg st,
             exists c,
               tfjsStep st (cfg, cv, Some [hL])
               = TfjsApp.pushHistory c
                   (TfjsApp.mirrorLabel (TfjsApp.mirror cfg) "Left") st).
  { intros cfg st. unfold tfjsStep. cbn [fst snd].
    exact (tfjs_frame_push cfg cv hL [] st (repeat origin 21)
             eq_refl eq_refl). }
  unfold tfjsRun. cbn [fold_left].
  destruct (Hstep (TfjsApp.mkConfig true false false) TfjsApp.initial)
    as [c1 H1].
  rewrite H1.
  destruct (Hstep (TfjsApp.mkConfig true false false)
              (TfjsApp.pushHistory c1
                 (TfjsApp.mirrorLabel
                    (TfjsApp.mirror (TfjsApp.mkConfig true false false))
                    "Left") TfjsApp.initial)) as [c2 H2].
  rewrite H2.
  destruct (Hstep (TfjsApp.mkConfig true false true)
              (TfjsApp.pushHistory c2
                 (TfjsApp.mirrorLabel
                    (TfjsApp.mirror (TfjsApp.mkConfig true false false))
                    "Left")
                 (TfjsApp.pushHistory c1
                    (TfjsApp.mirrorLabel
                       (TfjsApp.mirror (TfjsApp.mkConfig true false false))
                       "Left") TfjsApp.initial))) as [c3 H3].
  split; [reflexivity|]. split.
  - rewrite H3. rewrite !(proj1 (pushHistory_hand _ _ _)). reflexivity.
  - split; [|discriminate].
    unfold tfjsShown. cbn [fst snd].
    rewrite (proj1 (tfjs_frame_handText _ cv hL [] _)).
    unfold tfjsStep in H3. cbn [fst snd] in H3. rewrite H3.
    rewrite (proj2 (pushHistory_hand _ _ _)).
    rewrite !(proj1 (pushHistory_hand _ _ _)). reflexivity.
Qed.

(* ================================================================== *)
(** * Hand selection *)
(* ================================================================== *)

Lemma In_firstn {A : Type} (n : nat) (l : list A) (x : A) :
  In x (firstn n l) -> In x l.
Proof.
  intro Hin. rewrite <- (firstn_skipn n l). apply in_or_app. left. exact Hin.
Qed.

Lemma mp_loop_outcomes (res : MediaPipeApp.Results) (i : nat)
  (hs : list (list Landmark)) (st : MediaPipeApp.History) :
  Forall (fun lm => tipsPresent lm = true) hs ->
  snd (fst (MediaPipeApp.loopHands res i hs st)) = mpOutcomes res i hs
  /\ snd (MediaPipeApp.loopHands res i hs st) = true.
Proof.
  intro Hall. revert i st.
  induction Hall as [|lm hs Hlm Hall IH]; intros i st; [split; reflexivity|].
  cbn [MediaPipeApp.loopHands MediaPipeApp.stepHand mpOutcomes].
  rewrite Hlm.
  match goal with
  | |- context [MediaPipeApp.loopHands res (S i) hs ?s] =>
      destruct (IH (S i) s) as [Ho Hk];
      destruct (MediaPipeApp.loopHands res (S i) hs s) as [[st2 os] ok2]
  end.
  cbn in *. subst. split; reflexivity.
Qed.

Lemma mp_frame_outcomes (tg : MediaPipeApp.Toggles)
  (res : MediaPipeApp.Results) (lms : list (list Landmark))
  (st : MediaPipeApp.History) :
  MediaPipeApp.multiHandLandmarks res = Some lms ->
  Forall (fun lm => tipsPresent lm = true) lms ->
  snd (fst (MediaPipeApp.onResults tg res st))
  = mpOutcomes res 0
      (firstn (MediaPipeApp.handsToShow tg (List.length lms)) lms).
Proof.
  intros Hres Hall. unfold MediaPipeApp.onResults. rewrite Hres.
  destruct lms as [|lm0 rest].
  - cbn. rewrite firstn_nil. reflexivity.
  - cbn [List.length Nat.ltb Nat.leb].
    assert (Hsub : Forall (fun lm => tipsPresent lm = true)
                     (firstn (MediaPipeApp.handsToShow tg (S (List.length rest)))
                             (lm0 :: rest))).
    { apply Forall_forall. intros lm Hin. apply In_firstn in Hin.
      rewrite Forall_forall in Hall. apply Hall. exact Hin. }
    destruct (mp_loop_outcomes res 0 _ st Hsub) as [Ho Hk].
    destruct (MediaPipeApp.loopHands res 0 _ st) as [[st' outs] ok].
    cbn in Ho, Hk. subst.
    destruct (MediaPipeApp.mode _); [|reflexivity].
    destruct (MediaPipeApp.mode _); reflexivity.
Qed.

(** C6.  [processFrame] processes exactly the first [min(d, 2)] hands of
    the [d] detected ones when multi-hand mode is on and the first
    [min(d, 1)] when it is off, in the detector's order (in a run that
    the [reduce] of [pushHistory] does not end, see [frameAborts]).  So
    does [onResults] of the MediaPipe variant with toggles on every
    result of its detector, which is configured with [maxNumHands: 2] and
    so returns [d <= 2] hands (each with its fingertip landmarks): the
    loop bound [handsToShow] is [d] or [min(1, d)], which is [min(d, 2)]
    or [min(d, 1)] there. *)
Theorem hand_selection :
  (forall cfg cv hands st,
      TfjsApp.frameAborts cfg cv (Some hands) st = false ->
      snd (TfjsApp.processFrame cfg cv (Some hands) st)
      = map (TfjsApp.handOutcome cfg cv)
            (firstn (Nat.min (List.length hands)
                             (if TfjsApp.multiHand cfg then 2 else 1))
                    hands)
      /\ List.length (snd (TfjsApp.processFrame cfg cv (Some hands) st))
         = Nat.min (List.length hands)
                   (if TfjsApp.multiHand cfg then 2 else 1))
  /\ (forall tg res lms st,
        MediaPipeApp.multiHandLandmarks res = Some lms ->
        (List.length lms <= MediaPipeApp.maxNumHands)%nat ->
        Forall (fun lm => tipsPresent lm = true) lms ->
        snd (fst (MediaPipeApp.onResults tg res st))
        = mpOutcomes res 0
            (firstn (Nat.min (List.length lms)
                             (if MediaPipeApp.showMultipleHands tg
                              then 2 else 1)) lms)
        /\ List.length (snd (fst (MediaPipeApp.onResults tg res st)))
           = Nat.min (List.length lms)
                     (if MediaPipeApp.showMultipleHands tg then 2 else 1))
  /\ (forall tg d,
        (d <= MediaPipeApp.maxNumHands)%nat ->
        MediaPipeApp.handsToShow tg d
        = Nat.min d (if MediaPipeApp.showMultipleHands tg then 2 else 1))%nat.
Proof.
  assert (Hbound : forall tg d,
             (d <= MediaPipeApp.maxNumHands)%nat ->
             MediaPipeApp.handsToShow tg d
             = Nat.min d (if MediaPipeApp.showMultipleHands tg
                          then 2 else 1)%nat).
  { intros tg d Hd.
    unfold MediaPipeApp.handsToShow, MediaPipeApp.maxNumHands in *.
    destruct (MediaPipeApp.showMultipleHands tg); lia. }
  assert (Hlen : forall res i hs,
             List.length (mpOutcomes res i hs) = List.length hs).
  { intros res i hs. revert i.
    induction hs as [|lm hs IH]; intro i; cbn; [reflexivity|].
    rewrite IH. reflexivity. }
  split; [|split].
  - intros cfg cv hands st _. rewrite tfjs_frame_outcomes.
    unfold TfjsApp.shownHands, TfjsApp.maxHandsOf.
    rewrite firstn_min_length. split; [reflexivity|].
    rewrite length_map, length_firstn. apply Nat.min_comm.
  - intros tg res lms st Hres Hd Hall.
    rewrite (mp_frame_outcomes tg res lms st Hres Hall).
    rewrite (Hbound tg _ Hd). split; [reflexivity|].
    rewrite Hlen, length_firstn.
    destruct (MediaPipeApp.showMultipleHands tg); lia.
  - exact Hbound.
Qed.

(** Witness for C6: two hands of 21 landmarks, multi-hand mode on, in
    the variant with toggles and in the TensorFlow.js variant. *)
Lemma hand_selection_witness :
  MediaPipeApp.multiHandLandmarks
    (MediaPipeApp.mkResults (Some [repeat origin 21; repeat origin 21]) None)
  = Some [repeat origin 21; repeat origin 21]
  /\ (List.length [repeat origin 21; repeat origin 21]
      <= MediaPipeApp.maxNumHands)%nat
  /\ Forall (fun lm => tipsPresent lm = true)
            [repeat origin 21; repeat origin 21]
  /\ List.length
       (snd (fst (MediaPipeApp.onResults (MediaPipeApp.mkToggles true true)
                    (MediaPipeApp.mkResults
                       (Some [repeat origin 21; repeat origin 21]) None)
                    MediaPipeApp.initial)))
     = Nat.min 2 2
  /\ TfjsApp.frameAborts (TfjsApp.mkConfig true true false)
       (TfjsApp.mkCanvas 1280 720)
       (Some [TfjsApp.mkHand None (Some (repeat origin 21)) None;
              TfjsApp.mkHand None (Some (repeat origin 21)) None])
       TfjsApp.initial = false
  /\ List.length
       (snd (TfjsApp.processFrame (TfjsApp.mkConfig true true false)
               (TfjsApp.mkCanvas 1280 720)
               (Some [TfjsApp.mkHand None (Some (repeat origin 21)) None;
                      TfjsApp.mkHand None (Some (repeat origin 21)) None])
               TfjsApp.initial))
     = Nat.min 2 2.
Proof.
  assert (Hall : Forall (fun lm => tipsPresent lm = true)
                        [repeat origin 21; repeat origin 21]).
  { repeat constructor. }
  assert (Hle : (List.length [repeat origin 21; repeat origin 21]
                 <= MediaPipeApp.maxNumHands)%nat) by apply Nat.le_refl.
  assert (Hab : TfjsApp.frameAborts (TfjsApp.mkConfig true true false)
                  (TfjsApp.mkCanvas 1280 720)
                  (Some [TfjsApp.mkHand None (Some (repeat origin 21)) None;
                         TfjsApp.mkHand None (Some (repeat origin 21)) None])
                  TfjsApp.initial = false).
  { rewrite (frameAborts_first_hand (TfjsApp.mkConfig true true false)
               (TfjsApp.mkCanvas 1280 720)
               (TfjsApp.mkHand None (Some (repeat origin 21)) None)
               [TfjsApp.mkHand None (Some (repeat origin 21)) None]
               TfjsApp.initial (repeat origin 21) eq_refl eq_refl).
    reflexivity. }
  split; [reflexivity|]. split; [exact Hle|]. split; [exact Hall|].
  split.
  - exact (proj2 (proj1 (proj2 hand_selection)
                    (MediaPipeApp.mkToggles true true)
                    (MediaPipeApp.mkResults
                       (Some [repeat origin 21; repeat origin 21]) None)
                    [repeat origin 21; repeat origin 21] MediaPipeApp.initial
                    eq_refl Hle Hall)).
  - split; [exact Hab|].
    exact (proj2 (proj1 hand_selection (TfjsApp.mkConfig true true false)
                    (TfjsApp.mkCanvas 1280 720)
                    [TfjsApp.mkHand None (Some (repeat origin 21)) None;
                     TfjsApp.mkHand None (Some (repeat origin 21)) None]
                    TfjsApp.initial Hab)).
Defined.

(* ================================================================== *)
(** * Hands without 21 landmarks *)
(* ================================================================== *)

(** C8, as amended.  In [processFrame], a selected hand whose keypoint
    list does not have exactly 21 entries is skipped for that frame: it is
    not classified and, even as first hand, does not touch the smoothing
    state, while every other selected hand still gets its own outcome, and
    a hand with 21 keypoints is classified.  The MediaPipe variants have no
    such check: [onResults] classifies whatever landmarks the first hand
    has and pushes the resulting count into the window. *)
Theorem malformed_hand_skipped :
  (forall cfg cv i h st,
      option_map (@List.length Landmark) (TfjsApp.handKeypoints h)
      <> Some 21%nat ->
      TfjsApp.processHand cfg cv i h st = (st, TfjsApp.Skipped))
  /\ (forall cfg cv h rest st,
        option_map (@List.length Landmark) (TfjsApp.handKeypoints h)
        <> Some 21%nat ->
        fst (fst (TfjsApp.processFrame cfg cv (Some (h :: rest)) st)) = st)
  /\ (forall cfg cv hands st,
        snd (TfjsApp.processFrame cfg cv (Some hands) st)
        = map (TfjsApp.handOutcome cfg cv) (TfjsApp.shownHands cfg hands))
  /\ (forall cfg cv h k,
        TfjsApp.handKeypoints h = Some k -> List.length k = 21%nat ->
        exists nl,
          List.length nl = 21%nat
          /\ TfjsApp.handOutcome cfg cv h
             = TfjsApp.Processed nl (analyzeLandmarks nl)
                 (TfjsApp.mirrorLabel (TfjsApp.mirror cfg)
                                      (TfjsApp.rawLabel h)))
  /\ (forall tg res lm0 rest st,
        MediaPipeApp.multiHandLandmarks res = Some (lm0 :: rest) ->
        MediaPipeApp.countHistory (fst (fst (MediaPipeApp.onResults tg res st)))
        = pushShift MediaPipeApp.HISTORY_MAX (MediaPipeApp.countHistory st)
                    (count (analyzeHand lm0)))
  /\ (forall res lm0 rest st,
        MediaPipeBkp.multiHandLandmarks res = Some (lm0 :: rest) ->
        MediaPipeBkp.countHistory (fst (fst (MediaPipeBkp.onResults res st)))
        = pushShift MediaPipeBkp.HISTORY_MAX (MediaPipeBkp.countHistory st)
                    (count (analyzeHand lm0))).
Proof.
  assert (Hskip : forall cfg cv i h st,
             option_map (@List.length Landmark) (TfjsApp.handKeypoints h)
             <> Some 21%nat ->
             TfjsApp.processHand cfg cv i h st = (st, TfjsApp.Skipped)).
  { intros cfg cv i h st Hn. unfold TfjsApp.processHand.
    destruct (handOutcome_cases cfg cv h)
      as [[_ Hs]|(k & nl & Hk & Hlen & _ & _)].
    - rewrite Hs. reflexivity.
    - exfalso. apply Hn. rewrite Hk. cbn. rewrite Hlen. reflexivity. }
  split; [exact Hskip|]. split; [|split; [|split; [|split]]].
  - intros cfg cv h rest st Hn.
    rewrite tfjs_frame_state, (Hskip cfg cv 0%nat h st Hn). reflexivity.
  - intros. apply tfjs_frame_outcomes.
  - intros cfg cv h k Hk Hlen.
    destruct (handOutcome_cases cfg cv h)
      as [[Hn _]|(k' & nl & _ & _ & Hl & Hp)].
    + exfalso. apply Hn. rewrite Hk. cbn. rewrite Hlen. reflexivity.
    + exists nl. split; assumption.
  - intros tg res lm0 rest st Hres.
    rewrite mp_onResults_state. unfold mpObservation. rewrite Hres.
    reflexivity.
  - intros res lm0 rest st Hres.
    rewrite bkp_onResults_state. unfold bkpObservation. rewrite Hres.
    reflexivity.
Qed.

(** Witness for C8: in single-hand mode, a first hand with 20 keypoints
    leaves the smoothing state as it was. *)
Lemma malformed_hand_skipped_witness :
  option_map (@List.length Landmark)
    (TfjsApp.handKeypoints
       (TfjsApp.mkHand None (Some (repeat origin 20)) None))
  <> Some 21%nat
  /\ TfjsApp.processHand (TfjsApp.mkConfig true false false)
       (TfjsApp.mkCanvas 1280 720) 0
       (TfjsApp.mkHand None (Some (repeat origin 20)) None) TfjsApp.initial
     = (TfjsApp.initial, TfjsApp.Skipped).
Proof.
  assert (Hn : option_map (@List.length Landmark)
                 (TfjsApp.handKeypoints
                    (TfjsApp.mkHand None (Some (repeat origin 20)) None))
               <> Some 21%nat) by discriminate.
  split; [exact Hn|].
  exact (proj1 malformed_hand_skipped (TfjsApp.mkConfig true false false)
           (TfjsApp.mkCanvas 1280 720) 0%nat
           (TfjsApp.mkHand None (Some (repeat origin 20)) None)
           TfjsApp.initial Hn).
Defined.

(** C8 as first stated fails on [onResults]: a hand with 22 landmarks is
    not skipped; it is classified and its count enters the window. *)
Lemma extra_landmarks_not_skipped :
  snd (fst (MediaPipeApp.onResults (MediaPipeApp.mkToggles true false)
              (MediaPipeApp.mkResults (Some [repeat origin 22]) None)
              MediaPipeApp.initial))
  = [MediaPipeApp.mkOutcome (analyzeHand (repeat origin 22)) "Unknown"]
  /\ MediaPipeApp.countHistory
       (fst (fst (MediaPipeApp.onResults (MediaPipeApp.mkToggles true false)
                    (MediaPipeApp.mkResults (Some [repeat origin 22]) None)
                    MediaPipeApp.initial)))
     = [count (analyzeHand (repeat origin 22))]
  /\ fst (fst (MediaPipeApp.onResults (MediaPipeApp.mkToggles true false)
                 (MediaPipeApp.mkResults (Some [repeat origin 22]) None)
                 MediaPipeApp.initial))
     <> MediaPipeApp.initial.
Proof.
  assert (Hall : Forall (fun lm => tipsPresent lm = true) [repeat origin 22]).
  { repeat constructor. }
  rewrite (mp_frame_outcomes (MediaPipeApp.mkToggles true false)
             (MediaPipeApp.mkResults (Some [repeat origin 22]) None)
             [repeat origin 22] MediaPipeApp.initial eq_refl Hall).
  rewrite mp_onResults_state.
  split; [reflexivity|]. split; [reflexivity|].
  discriminate.
Qed.

(** C5, as amended.  For every non-empty window the displayed value is a
    most frequent value of the window (for an array of keys in general:
    when none of them names a property of [Object.prototype], as no
    count does).  Among tied values the choice
    follows the enumeration order of the table's keys (array-index keys,
    hence counts, in ascending numeric order): the [best] loop of
    [script_bkp.js] returns the first tied key, so the smallest tied count,
    and the [reduce] of the variant with toggles returns the last tied key,
    so the largest tied count.  For the window [5,5,4,5,4,4,5] both display
    5. *)
Theorem mode_most_frequent :
  (forall arr, arr <> [] -> Forall (fun k => plainKey k = true) arr ->
     exists k, MediaPipeBkp.mode arr = Some k
               /\ In k arr
               /\ (forall x, In x arr -> (occ arr x <= occ arr k)%Z)
               /\ mostFrequentFirst arr k)
  /\ (forall arr, arr <> [] -> Forall (fun k => plainKey k = true) arr ->
        exists k, MediaPipeApp.mode arr = Some k
                  /\ In k arr
                  /\ (forall x, In x arr -> (occ arr x <= occ arr k)%Z)
                  /\ mostFrequentLast arr k)
  /\ (forall o, StronglySorted keyLe (ownKeys o))
  /\ (forall w, w <> [] -> Forall (fun c => 0 <= c < 4294967295)%Z w ->
        exists m, MediaPipeBkp.displayedCount w = Some m
                  /\ In m w
                  /\ (forall x, In x w -> (occZ w x <= occZ w m)%Z)
                  /\ (forall x, In x w -> occZ w x = occZ w m -> (m <= x)%Z))
  /\ (forall w, w <> [] -> Forall (fun c => 0 <= c < 4294967295)%Z w ->
        exists m, option_map strToNum (MediaPipeApp.mode (map numToString w))
                  = Some (Some m)
                  /\ In m w
                  /\ (forall x, In x w -> (occZ w x <= occZ w m)%Z)
                  /\ (forall x, In x w -> occZ w x = occZ w m -> (x <= m)%Z))
  /\ MediaPipeBkp.displayedCount [5; 5; 4; 5; 4; 4; 5]%Z = Some 5%Z
  /\ option_map strToNum
       (MediaPipeApp.mode (map numToString [5; 5; 4; 5; 4; 4; 5]%Z))
     = Some (Some 5%Z).
Proof.
  split; [|split; [|split; [|split; [|split; [|split]]]]].
  - intros arr Hne Hpl.
    destruct (bkp_mode_first arr Hne Hpl) as (k & Hm & Hf).
    destruct (first_in_window arr k Hpl Hf) as [Hin Hmax].
    exists k. auto.
  - intros arr Hne Hpl.
    destruct (app_mode_last arr Hne Hpl) as (k & Hm & Hl).
    destruct (last_in_window arr k Hpl Hl) as [Hin Hmax].
    exists k. auto.
  - exact ownKeys_sorted.
  - intros w Hne Hall.
    destruct (bkp_displayedCount_spec w Hne) as (m & Hd & Hm & _ & Hf).
    exists m. split; [exact Hd|]. split; [exact Hm|]. split.
    + intros x Hx.
      destruct (first_in_window _ _ (plain_counts w) Hf) as [_ Hmax].
      specialize (Hmax (numToString x) (in_map numToString w x Hx)).
      rewrite !occ_numToString in Hmax. exact Hmax.
    + exact (first_is_smallest w m Hall Hm Hf).
  - intros w Hne Hall.
    destruct (app_mode_counts_spec w Hne) as (m & Hd & Hm & Hl).
    exists m. split.
    { rewrite Hd. cbn. rewrite strToNum_numToString. reflexivity. }
    split; [exact Hm|]. split.
    + intros x Hx.
      destruct (last_in_window _ _ (plain_counts w) Hl) as [_ Hmax].
      specialize (Hmax (numToString x) (in_map numToString w x Hx)).
      rewrite !occ_numToString in Hmax. exact Hmax.
    + exact (last_is_largest w m Hall Hm Hl).
  - vm_compute. reflexivity.
  - vm_compute. reflexivity.
Qed.

(** Witness for C5: the window [4; 5], a tie. *)
Lemma mode_most_frequent_witness :
  [4; 5]%Z <> []
  /\ Forall (fun c => 0 <= c < 4294967295)%Z [4; 5]%Z
  /\ exists m, MediaPipeBkp.displayedCount [4; 5]%Z = Some m
               /\ In m [4; 5]%Z
               /\ (forall x, In x [4; 5]%Z ->
                             (occZ [4; 5]%Z x <= occZ [4; 5]%Z m)%Z)
               /\ (forall x, In x [4; 5]%Z ->
                             occZ [4; 5]%Z x = occZ [4; 5]%Z m -> (m <= x)%Z).
Proof.
  assert (Hne : [4; 5]%Z <> []) by discriminate.
  assert (Hall : Forall (fun c => 0 <= c < 4294967295)%Z [4; 5]%Z).
  { repeat constructor; lia. }
  split; [exact Hne|]. split; [exact Hall|].
  exact (proj1 (proj2 (proj2 (proj2 mode_most_frequent))) [4; 5]%Z Hne Hall).
Defined.

(** C5 as first stated fails on the variant with toggles: for the window
    [4; 5] the keys are enumerated as "4", "5", both occur once, and
    [mode] returns "5", which is not the first key among the most frequent
    ones; [script_bkp.js] returns "4" there. *)
Lemma reduce_mode_returns_last_tied_key :
  MediaPipeApp.mode (map numToString [4; 5]%Z) = Some "5"%string
  /\ ownKeys (tally (map numToString [4; 5]%Z)) = ["4"; "5"]%string
  /\ MediaPipeBkp.mode (map numToString [4; 5]%Z) = Some "4"%string
  /\ ~ mostFrequentFirst (map numToString [4; 5]%Z) "5".
Proof.
  split; [vm_compute; reflexivity|].
  split; [vm_compute; reflexivity|].
  split; [vm_compute; reflexivity|].
  intros (pre & post & Hs & Hp & _).
  assert (Hk : ownKeys (tally (map numToString [4; 5]%Z)) = ["4"; "5"]%string)
    by (vm_compute; reflexivity).
  rewrite Hk in Hs.
  destruct pre as [|a [|b pre]].
  - discriminate Hs.
  - inversion Hs; subst.
    specialize (Hp "4"%string (or_introl eq_refl)).
    vm_compute in Hp. discriminate Hp.
  - inversion Hs as [[Ha Hb Hrest]]. destruct pre; discriminate Hrest.
Qed.

(* ================================================================== *)
(** * The displayed values are observed values *)
(* ================================================================== *)

Lemma tfjs_smoothHand_in (c : Z) (h : string) (st : TfjsApp.Smoother) :
  (exists x, In x (TfjsApp.handHistory (TfjsApp.pushHistory c h st))
             /\ x <> "__proto__"%string) ->
  In (TfjsApp.smoothHand (TfjsApp.pushHistory c h st))
     (TfjsApp.handHistory (TfjsApp.pushHistory c h st))
  /\ TfjsApp.pushHistoryThrows h st = false.
Proof.
  destruct (pushHistory_hand c h st) as [Hh Hs]. rewrite Hh, Hs.
  intro Hex. destruct (mode_returns_element _ Hex) as [_ (k & Hk & Hin & _)].
  rewrite Hk. split; [exact Hin|].
  unfold TfjsApp.pushHistoryThrows. unfold MediaPipeApp.mode in Hk.
  cbv zeta. rewrite Hk. reflexivity.
Qed.

Lemma mp_completed_display (tg : MediaPipeApp.Toggles)
  (res : MediaPipeApp.Results) (st st' : MediaPipeApp.History)
  (outs : list MediaPipeApp.HandOutcome) (ui : MediaPipeApp.UI) :
  MediaPipeApp.onResults tg res st = (st', outs, MediaPipeApp.Completed ui) ->
  MediaPipeApp.statusText ui = MediaPipeApp.HandDetected ->
  exists c,
    MediaPipeApp.countShown ui = Some c
    /\ In c (MediaPipeApp.countHistory st')
    /\ In (MediaPipeApp.handShown ui) (MediaPipeApp.handedHistory st').
Proof.
  intros H Hstatus.
  assert (Hst : st' = fst (fst (MediaPipeApp.onResults tg res st)))
    by (rewrite H; reflexivity).
  rewrite mp_onResults_state in Hst. unfold mpObservation in Hst.
  unfold MediaPipeApp.onResults in H.
  destruct (MediaPipeApp.multiHandLandmarks res) as [[|lm0 rest]|].
  - cbn in H. inversion H; subst. discriminate Hstatus.
  - cbn [List.length Nat.ltb Nat.leb] in H.
    destruct (MediaPipeApp.loopHands res 0 _ st) as [[s o] ok].
    destruct ok; [|discriminate H].
    destruct (MediaPipeApp.mode (map numToString (MediaPipeApp.countHistory s)))
      as [c|] eqn:Hc; [|discriminate H].
    destruct (MediaPipeApp.mode (MediaPipeApp.handedHistory s))
      as [hd|] eqn:Hh; [|discriminate H].
    inversion H; subst s outs ui. clear H.
    cbn [MediaPipeApp.countShown MediaPipeApp.handShown].
    assert (Hcn : MediaPipeApp.countHistory st' <> []).
    { rewrite Hst. cbn. apply pushShift_nonempty.
      unfold MediaPipeApp.HISTORY_MAX. lia. }
    destruct (app_mode_counts_spec _ Hcn) as (m & Hm & Hin & _).
    rewrite Hm in Hc. inversion Hc; subst c.
    exists m. split; [apply strToNum_numToString|]. split; [exact Hin|].
    destruct (non_proto_dec (MediaPipeApp.handedHistory st')) as [Hex|Hall].
    + destruct (mode_returns_element _ Hex) as [_ (k & Hk & Hkin & _)].
      rewrite Hk in Hh. inversion Hh; subst hd. exact Hkin.
    + destruct (mode_of_proto_only _ Hall) as [_ Hn].
      rewrite Hn in Hh. discriminate Hh.
  - cbn in H. inversion H; subst. discriminate Hstatus.
Qed.

Lemma mp_completes (tg : MediaPipeApp.Toggles) (res : MediaPipeApp.Results)
  (lm0 : list Landmark) (rest : list (list Landmark))
  (st : MediaPipeApp.History) :
  MediaPipeApp.multiHandLandmarks res = Some (lm0 :: rest) ->
  Forall (fun lm => tipsPresent lm = true) (lm0 :: rest) ->
  (exists x,
      In x (MediaPipeApp.handedHistory
              (fst (fst (MediaPipeApp.onResults tg res st))))
      /\ x <> "__proto__"%string) ->
  exists ui,
    snd (MediaPipeApp.onResults tg res st) = MediaPipeApp.Completed ui
    /\ MediaPipeApp.statusText ui = MediaPipeApp.HandDetected.
Proof.
  intros Hres Hall Hex.
  pose proof (mp_onResults_state tg res st) as Hst.
  unfold mpObservation in Hst. rewrite Hres in Hst.
  rewrite Hst in Hex. clear Hst.
  cbn [MediaPipeApp.handedHistory] in Hex.
  unfold MediaPipeApp.onResults. rewrite Hres.
  cbn [List.length Nat.ltb Nat.leb].
  assert (Hsub : Forall (fun lm => tipsPresent lm = true)
                   (firstn (MediaPipeApp.handsToShow tg (S (List.length rest)))
                           (lm0 :: rest))).
  { apply Forall_forall. intros lm Hin. apply In_firstn in Hin.
    rewrite Forall_forall in Hall. apply Hall. exact Hin. }
  destruct (mp_loop_outcomes res 0 _ st Hsub) as [_ Hk].
  assert (Hs : fst (fst (MediaPipeApp.loopHands res 0
                           (firstn (MediaPipeApp.handsToShow tg
                                      (S (List.length rest))) (lm0 :: rest))
                           st))
               = MediaPipeApp.mkHistory
                   (pushShift MediaPipeApp.HISTORY_MAX
                      (MediaPipeApp.countHistory st) (count (analyzeHand lm0)))
                   (pushShift MediaPipeApp.HISTORY_MAX
                      (MediaPipeApp.handedHistory st)
                      (flipLabel (MediaPipeApp.rawLabel res 0)))).
  { destruct (mp_handsToShow_pos tg (List.length rest)) as [m ->].
    cbn [firstn MediaPipeApp.loopHands MediaPipeApp.stepHand Nat.eqb].
    inversion Hall as [|? ? Hlm0 _]; subst. rewrite Hlm0.
    match goal with
    | |- context [MediaPipeApp.loopHands res 1 ?l ?s] =>
        pose proof (mp_loop_later res 0 l s) as Hl;
        destruct (MediaPipeApp.loopHands res 1 l s) as [[st2 os] ok2]
    end.
    cbn [fst snd] in Hl |- *. exact Hl. }
  destruct (MediaPipeApp.loopHands res 0 _ st) as [[s o] ok].
  cbn [fst snd] in Hk, Hs. subst ok s.
  cbn [MediaPipeApp.countHistory MediaPipeApp.handedHistory].
  assert (Hcn : pushShift MediaPipeApp.HISTORY_MAX
                  (MediaPipeApp.countHistory st) (count (analyzeHand lm0))
                <> [])
    by (apply pushShift_nonempty; unfold MediaPipeApp.HISTORY_MAX; lia).
  destruct (app_mode_counts_spec _ Hcn) as (m & Hm & _).
  destruct (mode_returns_element _ Hex) as [_ (k & Hkk & _)].
  rewrite Hm, Hkk. eexists. split; reflexivity.
Qed.

(** X21.  On an array with an element other than ["__proto__"] both
    [mode] functions return one of the array's elements (as property
    key); on an array of ["__proto__"] only, which leaves the table
    without keys, the one of [script_bkp.js] returns [null] and the one
    with [reduce] throws.  Hence, in the mode variants, the displayed
    count is always a count of the current count window, and the
    displayed handedness is a label of the current label window whenever
    that window holds a label other than ["__proto__"]; [onResults] of
    the variant with toggles then reaches its display when the hands
    carry their fingertip landmarks.  The same holds for the handedness
    kept by [pushHistory]. *)
Theorem displayed_values_observed :
  (forall arr,
      (exists x, In x arr /\ x <> "__proto__"%string) ->
      (exists k, MediaPipeBkp.mode arr = Some k /\ In k arr)
      /\ (exists k, MediaPipeApp.mode arr = Some k /\ In k arr))
  /\ (forall arr,
        Forall (fun x => x = "__proto__"%string) arr ->
        MediaPipeBkp.mode arr = None /\ MediaPipeApp.mode arr = None)
  /\ (forall w,
        w <> [] ->
        (exists c, MediaPipeBkp.displayedCount w = Some c /\ In c w)
        /\ (exists c, option_map strToNum
                        (MediaPipeApp.mode (map numToString w))
                      = Some (Some c) /\ In c w))
  /\ (forall res st lm0 rest,
        MediaPipeBkp.multiHandLandmarks res = Some (lm0 :: rest) ->
        (exists c,
            MediaPipeBkp.countShown (snd (fst (MediaPipeBkp.onResults res st)))
            = Some c
            /\ In c (MediaPipeBkp.countHistory
                       (fst (fst (MediaPipeBkp.onResults res st)))))
        /\ (forall h,
              MediaPipeBkp.handShown
                (snd (fst (MediaPipeBkp.onResults res st))) = Some h ->
              In h (MediaPipeBkp.handedHistory
                      (fst (fst (MediaPipeBkp.onResults res st)))))
        /\ ((exists x,
                In x (MediaPipeBkp.handedHistory
                        (fst (fst (MediaPipeBkp.onResults res st))))
                /\ x <> "__proto__"%string) ->
            exists h,
              MediaPipeBkp.handShown
                (snd (fst (MediaPipeBkp.onResults res st))) = Some h))
  /\ (forall tg res st st' outs ui,
        MediaPipeApp.onResults tg res st
        = (st', outs, MediaPipeApp.Completed ui) ->
        MediaPipeApp.statusText ui = MediaPipeApp.HandDetected ->
        exists c,
          MediaPipeApp.countShown ui = Some c
          /\ In c (MediaPipeApp.countHistory st')
          /\ In (MediaPipeApp.handShown ui) (MediaPipeApp.handedHistory st'))
  /\ (forall tg res lm0 rest st,
        MediaPipeApp.multiHandLandmarks res = Some (lm0 :: rest) ->
        Forall (fun lm => tipsPresent lm = true) (lm0 :: rest) ->
        (exists x,
            In x (MediaPipeApp.handedHistory
                    (fst (fst (MediaPipeApp.onResults tg res st))))
            /\ x <> "__proto__"%string) ->
        exists ui,
          snd (MediaPipeApp.onResults tg res st) = MediaPipeApp.Completed ui
          /\ MediaPipeApp.statusText ui = MediaPipeApp.HandDetected)
  /\ (forall c h st,
        (exists x, In x (TfjsApp.handHistory (TfjsApp.pushHistory c h st))
                   /\ x <> "__proto__"%string) ->
        In (TfjsApp.smoothHand (TfjsApp.pushHistory c h st))
           (TfjsApp.handHistory (TfjsApp.pushHistory c h st))).
Proof.
  split; [|split; [|split; [|split; [|split; [|split]]]]].
  - intros arr Hex.
    destruct (mode_returns_element arr Hex)
      as [(k1 & Hk1 & Hin1 & _) (k2 & Hk2 & Hin2 & _)].
    split; [exists k1 | exists k2]; split; assumption.
  - exact mode_of_proto_only.
  - intros w Hne. split.
    + destruct (bkp_displayedCount_spec w Hne) as (m & Hd & Hm & _).
      exists m. split; assumption.
    + destruct (app_mode_counts_spec w Hne) as (m & Hd & Hm & _).
      exists m. rewrite Hd. cbn. rewrite strToNum_numToString.
      split; [reflexivity | exact Hm].
  - intros res st lm0 rest Hres.
    unfold MediaPipeBkp.onResults. rewrite Hres.
    cbn [fst snd MediaPipeBkp.countShown MediaPipeBkp.handShown
         MediaPipeBkp.countHistory MediaPipeBkp.handedHistory].
    assert (Hcn : pushShift MediaPipeBkp.HISTORY_MAX
                    (MediaPipeBkp.countHistory st) (count (analyzeHand lm0))
                  <> [])
      by (apply pushShift_nonempty; unfold MediaPipeBkp.HISTORY_MAX; lia).
    destruct (bkp_displayedCount_spec _ Hcn) as (m & Hd & Hm & _).
    split; [exists m; split; assumption|].
    set (w := pushShift MediaPipeBkp.HISTORY_MAX
                (MediaPipeBkp.handedHistory st)
                (flipLabel (MediaPipeBkp.rawLabel res))).
    split.
    + intros h Hh.
      destruct (non_proto_dec w) as [Hex|Hall].
      * destruct (mode_returns_element w Hex) as [(k & Hk & Hin & _) _].
        rewrite Hk in Hh. inversion Hh; subst h. exact Hin.
      * destruct (mode_of_proto_only w Hall) as [Hn _].
        rewrite Hn in Hh. discriminate Hh.
    + intro Hex.
      destruct (mode_returns_element w Hex) as [(k & Hk & _) _].
      exists k. exact Hk.
  - exact mp_completed_display.
  - exact mp_completes.
  - intros c h st Hex. exact (proj1 (tfjs_smoothHand_in c h st Hex)).
Qed.

(** Witness for X21: the label window ["Right"; "Left"; "Right"], and a
    frame with one hand given to [script_bkp.js]. *)
Lemma displayed_values_observed_witness :
  (exists x, In x ["Right"; "Left"; "Right"]%string
             /\ x <> "__proto__"%string)
  /\ (exists k, MediaPipeApp.mode ["Right"; "Left"; "Right"]%string = Some k
                /\ In k ["Right"; "Left"; "Right"]%string)
  /\ MediaPipeBkp.multiHandLandmarks
       (MediaPipeBkp.mkResults (Some [[]]) None) = Some [[]]
  /\ exists c,
       MediaPipeBkp.countShown
         (snd (fst (MediaPipeBkp.onResults
                      (MediaPipeBkp.mkResults (Some [[]]) None)
                      MediaPipeBkp.initial))) = Some c
       /\ In c (MediaPipeBkp.countHistory
                  (fst (fst (MediaPipeBkp.onResults
                               (MediaPipeBkp.mkResults (Some [[]]) None)
                               MediaPipeBkp.initial)))).
Proof.
  assert (Hex : exists x, In x ["Right"; "Left"; "Right"]%string
                          /\ x <> "__proto__"%string).
  { exists "Right"%string. split; [left; reflexivity | discriminate]. }
  split; [exact Hex|].
  split.
  - exact (proj2 (proj1 displayed_values_observed _ Hex)).
  - split; [reflexivity|].
    exact (proj1 (proj1 (proj2 (proj2 (proj2 displayed_values_observed)))
                    (MediaPipeBkp.mkResults (Some [[]]) None)
                    MediaPipeBkp.initial [] [] eq_refl)).
Defined.


(* ================================================================== *)
(** * More on the geometry engine *)
(* ================================================================== *)

(** X1.  The angle does not depend on the order of the two outer points. *)
Theorem angle_symmetric (a b c : Landmark) :
  angleBetween a b c = angleBetween c b a
  /\ angleBetweenPoints a b c = angleBetweenPoints c b a.
Proof.
  assert (H : angleBetween a b c = angleBetween c b a).
  { rewrite !angleBetween_unfold.
    change (mag2 c b) with (mag1 c b). change (mag2 a b) with (mag1 a b).
    assert (Hd : dotOf c b a = dotOf a b c) by (unfold dotOf; ring).
    rewrite Hd, (Rmult_comm (mag1 c b) (mag1 a b)).
    destruct (Req_dec_T (mag1 a b) 0), (Req_dec_T (mag1 c b) 0); reflexivity. }
  split; exact H.
Qed.

(* ================================================================== *)
(** * The classifier on arbitrary input *)
(* ================================================================== *)

Lemma tryExtended_needs_tip (lm : list Landmark) (i j k : nat) (thr : R) :
  tryExtended lm i j k thr = true -> (k < List.length lm)%nat.
Proof.
  unfold tryExtended.
  destruct (nth_error lm i), (nth_error lm j), (nth_error lm k) eqn:E;
    try discriminate.
  intros _. apply nth_error_Some. rewrite E. discriminate.
Qed.

Lemma analysis_shape (lm : list Landmark) :
  extended (analyzeLandmarks lm)
  = [tryExtended lm 2 3 4 150; tryExtended lm 5 6 8 160;
     tryExtended lm 9 10 12 160; tryExtended lm 13 14 16 160;
     tryExtended lm 17 18 20 160]
  /\ count (analyzeLandmarks lm)
     = countExtended (extended (analyzeLandmarks lm)).
Proof. split; reflexivity. Qed.

Lemma analysis_count_bounds (lm : list Landmark) :
  (0 <= count (analyzeLandmarks lm) <= 5)%Z.
Proof.
  destruct (analysis_shape lm) as [He Hc]. rewrite Hc, He.
  apply countExtended_five.
Qed.

(** X5.  Whatever array of landmarks it is given, the classifier returns five
    booleans and their number as count, between 0 and 5.  A finger whose
    tip index is past the end of the array is reported as not extended, so
    with fewer than 5 landmarks the count is 0 and with fewer than 21 it is
    at most 4. *)
Theorem classify_any_input (lm : list Landmark) :
  List.length (extended (analyzeLandmarks lm)) = 5%nat
  /\ count (analyzeLandmarks lm)
     = Z.of_nat (numExtended (extended (analyzeLandmarks lm)))
  /\ (0 <= count (analyzeLandmarks lm) <= 5)%Z
  /\ (forall f, (f < 5)%nat ->
                (List.length lm <= nth f tipIndices 0)%nat ->
                nth f (extended (analyzeLandmarks lm)) false = false)
  /\ ((List.length lm < 5)%nat -> count (analyzeLandmarks lm) = 0%Z)
  /\ ((List.length lm < 21)%nat -> (count (analyzeLandmarks lm) <= 4)%Z).
Proof.
  destruct (analysis_shape lm) as [He Hc].
  pose proof (tryExtended_needs_tip lm 2 3 4 150) as H0.
  pose proof (tryExtended_needs_tip lm 5 6 8 160) as H1.
  pose proof (tryExtended_needs_tip lm 9 10 12 160) as H2.
  pose proof (tryExtended_needs_tip lm 13 14 16 160) as H3.
  pose proof (tryExtended_needs_tip lm 17 18 20 160) as H4.
  rewrite Hc, He.
  destruct (tryExtended lm 2 3 4 150), (tryExtended lm 5 6 8 160),
           (tryExtended lm 9 10 12 160), (tryExtended lm 13 14 16 160),
           (tryExtended lm 17 18 20 160);
    (split; [reflexivity|]); (split; [reflexivity|]);
    (split; [cbn; lia|]);
    (split; [intros [|[|[|[|[|f]]]]] Hf Hlen; cbn in *; try reflexivity;
             try lia;
             try (specialize (H0 eq_refl); lia);
             try (specialize (H1 eq_refl); lia);
             try (specialize (H2 eq_refl); lia);
             try (specialize (H3 eq_refl); lia);
             try (specialize (H4 eq_refl); lia)|]);
    (split; intro Hlen; cbn; try reflexivity; try lia;
       try (specialize (H0 eq_refl); lia);
       try (specialize (H1 eq_refl); lia);
       try (specialize (H2 eq_refl); lia);
       try (specialize (H3 eq_refl); lia);
       try (specialize (H4 eq_refl); lia)).
Qed.

(** Witness: four landmarks are too few for any finger. *)
Lemma classify_any_input_witness :
  (List.length (repeat origin 4) < 5)%nat
  /\ count (analyzeLandmarks (repeat origin 4)) = 0%Z.
Proof.
  assert (H : (List.length (repeat origin 4) < 5)%nat) by (cbn; lia).
  split; [exact H|].
  exact (proj1 (proj2 (proj2 (proj2 (proj2
           (classify_any_input (repeat origin 4)))))) H).
Defined.

(** X6.  The classifier reads the landmarks 2, 3, 4, 5, 6, 8, 9, 10, 12, 13, 14,
    16, 17, 18 and 20 only: two arrays that agree there, whatever their
    wrist, thumb base and DIP joints (0, 1, 7, 11, 15, 19) or their
    lengths, are classified alike. *)
Theorem classify_reads_used_indices (lm lm' : list Landmark) :
  (forall i, In i usedIndices -> nth_error lm i = nth_error lm' i) ->
  analyzeLandmarks lm = analyzeLandmarks lm'
  /\ analyzeHand lm = analyzeHand lm'.
Proof.
  intro H.
  assert (E : analyzeLandmarks lm = analyzeLandmarks lm').
  { unfold analyzeLandmarks, fingers, tryExtended. cbn [map].
    rewrite !H by (unfold usedIndices; cbn; tauto). reflexivity. }
  split; exact E.
Qed.

(** Witness: moving the wrist of the straight hand changes nothing. *)
Lemma classify_reads_used_indices_witness :
  (forall i, In i usedIndices ->
             nth_error straightHand i
             = nth_error (yPoint 7 :: tl straightHand) i)
  /\ analyzeLandmarks straightHand
     = analyzeLandmarks (yPoint 7 :: tl straightHand).
Proof.
  assert (H : forall i, In i usedIndices ->
                        nth_error straightHand i
                        = nth_error (yPoint 7 :: tl straightHand) i).
  { intros i Hi. unfold usedIndices in Hi. cbn in Hi.
    repeat (destruct Hi as [<-|Hi]; [reflexivity|]). contradiction. }
  split; [exact H|].
  exact (proj1 (classify_reads_used_indices straightHand
                  (yPoint 7 :: tl straightHand) H)).
Defined.

(* ================================================================== *)
(** * Dynamics of the median + blend smoothing *)
(* ================================================================== *)

Lemma pushHistory_smoothCount_int (c : Z) (h : string) (st : TfjsApp.Smoother) :
  TfjsApp.smoothCount (TfjsApp.pushHistory c h st)
  = ((6 * TfjsApp.smoothCount st
      + 4 * TfjsApp.medianOf
              (sortNum (TfjsApp.countHistory (TfjsApp.pushHistory c h st)))
      + 5) / 10)%Z.
Proof.
  rewrite pushHistory_smoothCount, blend_integer, medianOf_rounded.
  reflexivity.
Qed.

Lemma blend_moves (s m : Z) :
  ((- 1 <= s - m <= 1 -> (6 * s + 4 * m + 5) / 10 = s)
   /\ (s + 2 <= m -> s < (6 * s + 4 * m + 5) / 10 < m)
   /\ (m + 2 <= s -> m < (6 * s + 4 * m + 5) / 10 < s))%Z.
Proof.
  pose proof (Z.div_mod (6 * s + 4 * m + 5) 10 ltac:(lia)) as Hd.
  pose proof (Z.mod_pos_bound (6 * s + 4 * m + 5) 10 ltac:(lia)) as Hm.
  repeat split; intros; lia.
Qed.

(** X7.  One smoothing step never lands on a median it did not start from: the
    displayed count stays where it is when it is within 1 of the median of
    the new window, and otherwise moves strictly towards the median without
    reaching it. *)
Theorem blend_step (c : Z) (h : string) (st : TfjsApp.Smoother) :
  let m := TfjsApp.medianOf
             (sortNum (TfjsApp.countHistory (TfjsApp.pushHistory c h st))) in
  let s := TfjsApp.smoothCount st in
  let s' := TfjsApp.smoothCount (TfjsApp.pushHistory c h st) in
  ((- 1 <= s - m <= 1 -> s' = s)
   /\ (s + 2 <= m -> s < s' < m)
   /\ (m + 2 <= s -> m < s' < s)
   /\ (s' = m <-> s = m))%Z.
Proof.
  cbv zeta. rewrite pushHistory_smoothCount_int.
  set (m := TfjsApp.medianOf _). set (s := TfjsApp.smoothCount st).
  destruct (blend_moves s m) as (H1 & H2 & H3).
  split; [exact H1|]. split; [exact H2|]. split; [exact H3|].
  destruct (Z_le_gt_dec (s + 2) m); [specialize (H2 ltac:(lia)); lia|].
  destruct (Z_le_gt_dec (m + 2) s); [specialize (H3 ltac:(lia)); lia|].
  specialize (H1 ltac:(lia)). lia.
Qed.

(** Witness: from the display 0, the median 1 of the first observation is
    within 1 and the display stays at 0. *)
Lemma blend_step_witness :
  (- 1 <= TfjsApp.smoothCount TfjsApp.initial
          - TfjsApp.medianOf
              (sortNum (TfjsApp.countHistory
                          (TfjsApp.pushHistory 1 "Left" TfjsApp.initial)))
   <= 1)%Z
  /\ TfjsApp.smoothCount (TfjsApp.pushHistory 1 "Left" TfjsApp.initial)
     = TfjsApp.smoothCount TfjsApp.initial.
Proof.
  assert (H : (- 1 <= TfjsApp.smoothCount TfjsApp.initial
                     - TfjsApp.medianOf
                         (sortNum (TfjsApp.countHistory
                                     (TfjsApp.pushHistory 1 "Left"
                                                          TfjsApp.initial)))
               <= 1)%Z) by (vm_compute; split; discriminate).
  split; [exact H|].
  exact (proj1 (blend_step 1 "Left" TfjsApp.initial) H).
Defined.

(* ------------------------------------------------------------------ *)
(** ** The median of a window *)

Lemma sortNum_length (w : list Z) : List.length (sortNum w) = List.length w.
Proof. apply Permutation_length. apply sortNum_perm. Qed.

Lemma sortNum_Forall (P : Z -> Prop) (w : list Z) :
  Forall P w -> Forall P (sortNum w).
Proof.
  intro H. apply (Permutation_Forall (Permutation_sym (sortNum_perm w))).
  exact H.
Qed.

Lemma half_facts (n : nat) :
  (n = 2 * (n / 2) + (if Nat.odd n then 1 else 0))%nat.
Proof.
  rewrite <- Nat.div2_div. pose proof (Nat.div2_odd n) as H.
  destruct (Nat.odd n); cbn [Nat.b2n] in H; exact H.
Qed.

Lemma roundedMedian_range (lo hi : Z) (s : list Z) :
  s <> [] -> Forall (fun c => lo <= c <= hi)%Z s ->
  (lo <= roundedMedian s <= hi)%Z.
Proof.
  intros Hne Hall. rewrite Forall_forall in Hall.
  assert (Hn : (0 < List.length s)%nat)
    by (destruct s; [congruence | cbn; lia]).
  pose proof (half_facts (List.length s)) as Hh.
  unfold roundedMedian. cbv zeta.
  destruct (Nat.odd (List.length s)).
  - apply Hall. apply nth_In. lia.
  - assert (H1 : (lo <= nth (List.length s / 2 - 1) s 0 <= hi)%Z)
      by (apply Hall; apply nth_In; lia).
    assert (H2 : (lo <= nth (List.length s / 2) s 0 <= hi)%Z)
      by (apply Hall; apply nth_In; lia).
    set (a := nth (List.length s / 2 - 1) s 0%Z) in *.
    set (b := nth (List.length s / 2) s 0%Z) in *.
    pose proof (Z.div_mod (a + b + 1) 2 ltac:(lia)).
    pose proof (Z.mod_pos_bound (a + b + 1) 2 ltac:(lia)).
    lia.
Qed.

Lemma medianOf_range (lo hi : Z) (w : list Z) :
  w <> [] -> Forall (fun c => lo <= c <= hi)%Z w ->
  (lo <= TfjsApp.medianOf (sortNum w) <= hi)%Z.
Proof.
  intros Hne Hall. rewrite medianOf_rounded.
  apply roundedMedian_range; [|apply sortNum_Forall; exact Hall].
  intro E. apply (f_equal (@List.length Z)) in E.
  rewrite sortNum_length in E. destruct w; [congruence | discriminate].
Qed.

Lemma filter_none (p : Z -> bool) (l : list Z) :
  Forall (fun x => p x = false) l -> filter p l = [].
Proof.
  induction 1 as [|x l Hx _ IH]; cbn; [reflexivity|].
  rewrite Hx. exact IH.
Qed.

(** A sorted list is its entries below [c], then those equal to [c], then
    those above. *)
Lemma sorted_blocks (c : Z) (s : list Z) :
  StronglySorted Z.le s ->
  s = filter (fun x => x <? c)%Z s ++ filter (fun x => x =? c)%Z s
      ++ filter (fun x => c <? x)%Z s.
Proof.
  induction 1 as [|a s Hs IH Hall]; [reflexivity|].
  cbn [filter].
  destruct (Z.ltb_spec a c) as [Hlt|Hge].
  - destruct (Z.eqb_spec a c); [lia|].
    destruct (Z.ltb_spec c a); [lia|].
    cbn [app]. f_equal. exact IH.
  - assert (Hnolt : filter (fun x => x <? c)%Z s = []).
    { apply filter_none. eapply Forall_impl; [|exact Hall].
      cbn. intros x Hx. apply Z.ltb_ge. lia. }
    rewrite Hnolt in *. cbn [app] in *.
    destruct (Z.eqb_spec a c) as [->|Hne].
    + rewrite Z.ltb_irrefl. cbn [app]. f_equal. exact IH.
    + assert (Hnoeq : filter (fun x => x =? c)%Z s = []).
      { apply filter_none. eapply Forall_impl; [|exact Hall].
        cbn. intros x Hx. apply Z.eqb_neq. lia. }
      rewrite Hnoeq in *. cbn [app] in *.
      destruct (Z.ltb_spec c a); [|lia]. f_equal. exact IH.
Qed.

Lemma filter_eqb_length (c : Z) (l : list Z) :
  List.length (filter (fun x => x =? c)%Z l) = count_occ Z.eq_dec l c.
Proof.
  induction l as [|a l IH]; [reflexivity|]. cbn.
  destruct (Z.eqb_spec a c) as [->|Hne].
  - destruct (Z.eq_dec c c); [|congruence]. cbn. rewrite IH. reflexivity.
  - destruct (Z.eq_dec a c); [congruence|]. exact IH.
Qed.

Lemma sorted_middle (c : Z) (s : list Z) (i : nat) :
  StronglySorted Z.le s ->
  (2 * count_occ Z.eq_dec s c > List.length s)%nat ->
  (List.length s <= 2 * i + 2)%nat -> (2 * i <= List.length s)%nat ->
  (i < List.length s)%nat ->
  nth i s 0%Z = c.
Proof.
  intros Hs Hmaj Hlo Hhi Hi.
  pose proof (sorted_blocks c s Hs) as Hb.
  pose proof (filter_eqb_length c s) as Hk.
  set (A := filter (fun x => x <? c)%Z s) in *.
  set (B := filter (fun x => x =? c)%Z s) in *.
  set (C := filter (fun x => c <? x)%Z s) in *.
  assert (Hlen : List.length s
                 = (List.length A + List.length B + List.length C)%nat).
  { rewrite Hb at 1. rewrite !length_app. lia. }
  rewrite Hb. rewrite app_nth2 by lia. rewrite app_nth1 by lia.
  assert (Hin : In (nth (i - List.length A) B 0%Z) B)
    by (apply nth_In; lia).
  unfold B in Hin at 2. apply filter_In in Hin. destruct Hin as [_ Heq].
  apply Z.eqb_eq in Heq. exact Heq.
Qed.

Lemma majority_median (c : Z) (w : list Z) :
  (2 * count_occ Z.eq_dec w c > List.length w)%nat ->
  TfjsApp.medianOf (sortNum w) = c.
Proof.
  intro Hmaj.
  assert (Hmaj' : (2 * count_occ Z.eq_dec (sortNum w) c
                   > List.length (sortNum w))%nat).
  { rewrite sortNum_length.
    rewrite (proj1 (Permutation_count_occ Z.eq_dec (sortNum w) w)
                   (sortNum_perm w) c).
    exact Hmaj. }
  pose proof (sortNum_sorted w) as Hs.
  assert (Hn : (0 < List.length (sortNum w))%nat).
  { pose proof (count_occ_bound Z.eq_dec c (sortNum w)). lia. }
  pose proof (half_facts (List.length (sortNum w))) as Hh.
  rewrite medianOf_rounded. unfold roundedMedian. cbv zeta.
  destruct (Nat.odd (List.length (sortNum w))).
  - apply sorted_middle; try assumption; lia.
  - rewrite !(sorted_middle c (sortNum w)) by (try assumption; lia).
    replace (c + c + 1)%Z with (1 + c * 2)%Z by ring.
    rewrite Z.div_add by lia. reflexivity.
Qed.

Lemma pushHistory_majority (cnt : Z) (h : string) (st : TfjsApp.Smoother)
  (c : Z) :
  (2 * count_occ Z.eq_dec
         (TfjsApp.countHistory (TfjsApp.pushHistory cnt h st)) c
   > List.length (TfjsApp.countHistory (TfjsApp.pushHistory cnt h st)))%nat ->
  TfjsApp.smoothCount (TfjsApp.pushHistory cnt h st)
  = ((6 * TfjsApp.smoothCount st + 4 * c + 5) / 10)%Z.
Proof.
  intro Hmaj. rewrite pushHistory_smoothCount_int.
  rewrite (majority_median c _ Hmaj). reflexivity.
Qed.

(** X8.  A count that fills more than half of the new window is the median used
    for the blend, whatever the other entries are. *)
Theorem majority_count_is_median (cnt : Z) (h : string)
  (st : TfjsApp.Smoother) (c : Z) :
  (2 * count_occ Z.eq_dec
         (TfjsApp.countHistory (TfjsApp.pushHistory cnt h st)) c
   > List.length (TfjsApp.countHistory (TfjsApp.pushHistory cnt h st)))%nat ->
  TfjsApp.medianOf
    (sortNum (TfjsApp.countHistory (TfjsApp.pushHistory cnt h st))) = c
  /\ TfjsApp.smoothCount (TfjsApp.pushHistory cnt h st)
     = ((6 * TfjsApp.smoothCount st + 4 * c + 5) / 10)%Z.
Proof.
  intro Hmaj. split; [apply majority_median; exact Hmaj|].
  apply pushHistory_majority. exact Hmaj.
Qed.

(** Witness: the window [5; 0; 5] has median 5. *)
Lemma majority_count_is_median_witness :
  (2 * count_occ Z.eq_dec
         (TfjsApp.countHistory
            (TfjsApp.pushHistory 5 "Left"
               (tfjsObserveAll [(5%Z, "Left"%string); (0%Z, "Left"%string)]
                               TfjsApp.initial))) 5%Z
   > List.length
       (TfjsApp.countHistory
          (TfjsApp.pushHistory 5 "Left"
             (tfjsObserveAll [(5%Z, "Left"%string); (0%Z, "Left"%string)]
                             TfjsApp.initial))))%nat
  /\ TfjsApp.medianOf
       (sortNum
          (TfjsApp.countHistory
             (TfjsApp.pushHistory 5 "Left"
                (tfjsObserveAll [(5%Z, "Left"%string); (0%Z, "Left"%string)]
                                TfjsApp.initial)))) = 5%Z.
Proof.
  assert (H : (2 * count_occ Z.eq_dec
                     (TfjsApp.countHistory
                        (TfjsApp.pushHistory 5 "Left"
                           (tfjsObserveAll
                              [(5%Z, "Left"%string); (0%Z, "Left"%string)]
                              TfjsApp.initial))) 5%Z
               > List.length
                   (TfjsApp.countHistory
                      (TfjsApp.pushHistory 5 "Left"
                         (tfjsObserveAll
                            [(5%Z, "Left"%string); (0%Z, "Left"%string)]
                            TfjsApp.initial))))%nat).
  { vm_compute. lia. }
  split; [exact H|].
  exact (proj1 (majority_count_is_median 5 "Left" _ 5 H)).
Defined.

(* ------------------------------------------------------------------ *)
(** ** A steady count *)

Lemma In_skipn {A : Type} (n : nat) (l : list A) (x : A) :
  In x (skipn n l) -> In x l.
Proof.
  intro Hin. rewrite <- (firstn_skipn n l). apply in_or_app. right. exact Hin.
Qed.

Lemma count_occ_all (c : Z) (w : list Z) :
  (forall x, In x w -> x = c) -> count_occ Z.eq_dec w c = List.length w.
Proof.
  induction w as [|a w IH]; intro H; [reflexivity|]. cbn.
  destruct (Z.eq_dec a c) as [_|Hne].
  - f_equal. apply IH. intros x Hx. apply H. right. exact Hx.
  - exfalso. apply Hne. apply H. left. reflexivity.
Qed.

Lemma steady_window (c : Z) (h : string) (n : nat) :
  TfjsApp.countHistory (tfjsObserveAll (repeat (c, h) n) TfjsApp.initial)
  = lastn TfjsApp.COUNT_HISTORY (repeat c n).
Proof.
  destruct (tfjsObserveAll_windows (repeat (c, h) n) TfjsApp.initial)
    as [Hc _].
  rewrite Hc. cbn [TfjsApp.initial TfjsApp.countHistory].
  rewrite pushAll_lastn, map_repeat. reflexivity.
Qed.

Lemma steady_step (c : Z) (h : string) (n : nat) :
  TfjsApp.smoothCount
    (tfjsObserveAll (repeat (c, h) (S n)) TfjsApp.initial)
  = ((6 * TfjsApp.smoothCount
            (tfjsObserveAll (repeat (c, h) n) TfjsApp.initial)
      + 4 * c + 5) / 10)%Z.
Proof.
  assert (Hrun : tfjsObserveAll (repeat (c, h) (S n)) TfjsApp.initial
                 = TfjsApp.pushHistory c h
                     (tfjsObserveAll (repeat (c, h) n) TfjsApp.initial)).
  { cbn [repeat]. rewrite repeat_cons. unfold tfjsObserveAll.
    rewrite fold_left_app. reflexivity. }
  pose proof (steady_window c h (S n)) as Hw. rewrite Hrun in Hw.
  rewrite Hrun.
  apply pushHistory_majority.
  rewrite Hw.
  assert (Hall : forall x, In x (lastn TfjsApp.COUNT_HISTORY (repeat c (S n)))
                           -> x = c).
  { intros x Hx. unfold lastn in Hx. apply In_skipn in Hx.
    apply repeat_spec in Hx. exact Hx. }
  rewrite (count_occ_all c _ Hall), lastn_length, repeat_length.
  unfold TfjsApp.COUNT_HISTORY. lia.
Qed.

(** X9.  Under a steady count [c] between 1 and 5 after a reset, the displayed
    count never reaches [c]: it is at most [c - 1] after every observation
    and exactly [c - 1] from the third observation on.  A steady 0 is
    displayed as 0. *)
Theorem steady_count_settles_one_short (c : Z) (h : string) (n : nat) :
  ((1 <= c <= 5)%Z ->
   (TfjsApp.smoothCount (tfjsObserveAll (repeat (c, h) n) TfjsApp.initial)
    <= c - 1)%Z
   /\ ((3 <= n)%nat ->
       TfjsApp.smoothCount (tfjsObserveAll (repeat (c, h) n) TfjsApp.initial)
       = (c - 1)%Z))
  /\ TfjsApp.smoothCount (tfjsObserveAll (repeat (0%Z, h) n) TfjsApp.initial)
     = 0%Z.
Proof.
  split.
  - intro Hc.
    assert (Hle : forall k,
               (0 <= TfjsApp.smoothCount
                       (tfjsObserveAll (repeat (c, h) k) TfjsApp.initial)
                <= c - 1)%Z).
    { induction k as [|k IH]; [cbn; lia|].
      rewrite steady_step.
      set (s := TfjsApp.smoothCount _) in *.
      pose proof (Z.div_mod (6 * s + 4 * c + 5) 10 ltac:(lia)).
      pose proof (Z.mod_pos_bound (6 * s + 4 * c + 5) 10 ltac:(lia)).
      lia. }
    split; [apply Hle|].
    intro Hn.
    assert (H3 : TfjsApp.smoothCount
                   (tfjsObserveAll (repeat (c, h) 3) TfjsApp.initial)
                 = (c - 1)%Z).
    { rewrite !steady_step.
      change (TfjsApp.smoothCount
                (tfjsObserveAll (repeat (c, h) 0) TfjsApp.initial))
        with 0%Z.
      assert (Hcases : (c = 1 \/ c = 2 \/ c = 3 \/ c = 4 \/ c = 5)%Z) by lia.
      destruct Hcases as [->|[->|[->|[->| ->]]]]; reflexivity. }
    replace n with (3 + (n - 3))%nat by lia.
    induction (n - 3)%nat as [|k IH]; [exact H3|].
    replace (3 + S k)%nat with (S (3 + k)) by lia.
    rewrite steady_step, IH.
    apply (proj1 (blend_moves (c - 1) c)). lia.
  - induction n as [|k IH]; [reflexivity|].
    rewrite steady_step, IH. reflexivity.
Qed.

(** Witness: five fingers held for three frames are displayed as 4. *)
Lemma steady_count_settles_one_short_witness :
  (1 <= 5 <= 5)%Z /\ (3 <= 3)%nat
  /\ TfjsApp.smoothCount
       (tfjsObserveAll (repeat (5%Z, "Right"%string) 3) TfjsApp.initial)
     = (5 - 1)%Z.
Proof.
  assert (Hc : (1 <= 5 <= 5)%Z) by lia.
  assert (Hn : (3 <= 3)%nat) by lia.
  split; [exact Hc|]. split; [exact Hn|].
  exact (proj2 (proj1 (steady_count_settles_one_short 5 "Right" 3) Hc) Hn).
Defined.

(* ------------------------------------------------------------------ *)
(** ** What every reachable state satisfies *)

Lemma pushShift_In {A : Type} (cap : nat) (h : list A) (v x : A) :
  In x (pushShift cap h v) -> In x h \/ x = v.
Proof.
  unfold pushShift. intro Hin.
  assert (Hin' : In x (h ++ [v])).
  { destruct (cap <? List.length (h ++ [v]))%nat; [|exact Hin].
    destruct (h ++ [v]); [contradiction | right; exact Hin]. }
  apply in_app_iff in Hin'. destruct Hin' as [H|[H|[]]]; auto.
Qed.

Lemma pushShift_length {A : Type} (cap : nat) (h : list A) (v : A) :
  List.length (pushShift cap h v)
  = if (cap <? List.length h + 1)%nat then List.length h
    else (List.length h + 1)%nat.
Proof.
  unfold pushShift. rewrite length_app. cbn [List.length].
  destruct (cap <? List.length h + 1)%nat.
  - destruct h; cbn; [reflexivity|]. rewrite length_app. cbn. lia.
  - rewrite length_app. reflexivity.
Qed.

(** The invariant: counts between 0 and 5 in the window, a displayed count
    between 0 and 4, and two windows of the same length. *)
Lemma pushHistory_keeps (c : Z) (h : string) (st : TfjsApp.Smoother) :
  (0 <= c <= 5)%Z ->
  Forall (fun x => 0 <= x <= 5)%Z (TfjsApp.countHistory st) ->
  (0 <= TfjsApp.smoothCount st <= 4)%Z ->
  List.length (TfjsApp.countHistory st) = List.length (TfjsApp.handHistory st) ->
  Forall (fun x => 0 <= x <= 5)%Z
         (TfjsApp.countHistory (TfjsApp.pushHistory c h st))
  /\ (0 <= TfjsApp.smoothCount (TfjsApp.pushHistory c h st) <= 4)%Z
  /\ List.length (TfjsApp.countHistory (TfjsApp.pushHistory c h st))
     = List.length (TfjsApp.handHistory (TfjsApp.pushHistory c h st)).
Proof.
  intros Hc Hall Hs Hlen.
  assert (Hall' : Forall (fun x => 0 <= x <= 5)%Z
                    (TfjsApp.countHistory (TfjsApp.pushHistory c h st))).
  { cbn [TfjsApp.pushHistory TfjsApp.countHistory].
    apply Forall_forall. intros x Hx. apply pushShift_In in Hx.
    rewrite Forall_forall in Hall.
    destruct Hx as [Hx| ->]; [apply Hall; exact Hx | exact Hc]. }
  split; [exact Hall'|]. split.
  - rewrite pushHistory_smoothCount_int.
    assert (Hne : TfjsApp.countHistory (TfjsApp.pushHistory c h st) <> []).
    { cbn [TfjsApp.pushHistory TfjsApp.countHistory].
      apply pushShift_nonempty. unfold TfjsApp.COUNT_HISTORY. lia. }
    pose proof (medianOf_range 0 5 _ Hne Hall') as Hm.
    set (m := TfjsApp.medianOf _) in *.
    set (s := TfjsApp.smoothCount st) in *.
    pose proof (Z.div_mod (6 * s + 4 * m + 5) 10 ltac:(lia)).
    pose proof (Z.mod_pos_bound (6 * s + 4 * m + 5) 10 ltac:(lia)).
    lia.
  - cbn [TfjsApp.pushHistory TfjsApp.countHistory TfjsApp.handHistory].
    rewrite !pushShift_length, Hlen. reflexivity.
Qed.

Lemma tfjsStep_keeps (st : TfjsApp.Smoother) (f : TfjsFrame) :
  Forall (fun x => 0 <= x <= 5)%Z (TfjsApp.countHistory st) ->
  (0 <= TfjsApp.smoothCount st <= 4)%Z ->
  List.length (TfjsApp.countHistory st) = List.length (TfjsApp.handHistory st) ->
  Forall (fun x => 0 <= x <= 5)%Z (TfjsApp.countHistory (tfjsStep st f))
  /\ (0 <= TfjsApp.smoothCount (tfjsStep st f) <= 4)%Z
  /\ List.length (TfjsApp.countHistory (tfjsStep st f))
     = List.length (TfjsApp.handHistory (tfjsStep st f)).
Proof.
  intros Hall Hs Hlen. destruct f as [[cfg cv] detected].
  unfold tfjsStep. cbn [fst snd].
  destruct detected as [[|h rest]|];
    [cbn; repeat split; (constructor || lia) |
    | cbn; repeat split; (constructor || lia)].
  rewrite tfjs_frame_state. unfold TfjsApp.processHand.
  destruct (TfjsApp.handOutcome cfg cv h) as [|nl a lbl] eqn:Ho;
    [cbn; auto|].
  cbn [fst]. destruct (handOutcome_label cfg cv h nl a lbl Ho) as [-> _].
  apply pushHistory_keeps; try assumption.
  apply analysis_count_bounds.
Qed.

Lemma tfjs_shown_count (st : TfjsApp.Smoother) (f : TfjsFrame) :
  TfjsApp.countText (tfjsShown st f) = TfjsApp.smoothCount (tfjsStep st f)
  /\ TfjsApp.handText (tfjsShown st f) = TfjsApp.smoothHand (tfjsStep st f).
Proof.
  destruct f as [[cfg cv] detected]. unfold tfjsShown, tfjsStep.
  cbn [fst snd]. unfold TfjsApp.processFrame.
  destruct detected as [[|h rest]|]; [split; reflexivity| |split; reflexivity].
  cbn [List.length Nat.ltb Nat.leb].
  destruct (TfjsApp.loopHands cfg cv 0 _ st) as [st' outs].
  split; reflexivity.
Qed.

Lemma tfjsRun_keeps (frames : list TfjsFrame) (st : TfjsApp.Smoother) :
  Forall (fun x => 0 <= x <= 5)%Z (TfjsApp.countHistory st) ->
  (0 <= TfjsApp.smoothCount st <= 4)%Z ->
  List.length (TfjsApp.countHistory st) = List.length (TfjsApp.handHistory st) ->
  Forall (fun x => 0 <= x <= 5)%Z (TfjsApp.countHistory (tfjsRun frames st))
  /\ (0 <= TfjsApp.smoothCount (tfjsRun frames st) <= 4)%Z
  /\ List.length (TfjsApp.countHistory (tfjsRun frames st))
     = List.length (TfjsApp.handHistory (tfjsRun frames st)).
Proof.
  revert st. induction frames as [|f frames IH]; intros st Hall Hs Hlen.
  - cbn. auto.
  - cbn [tfjsRun fold_left].
    destruct (tfjsStep_keeps st f Hall Hs Hlen) as (H1 & H2 & H3).
    apply IH; assumption.
Qed.

(** X10.  Whatever frames were processed since start-up, the count window holds
    counts between 0 and 5, both windows have the same length, and the
    displayed count is between 0 and 4: the text element never shows 5. *)
Theorem display_never_shows_five (frames : list TfjsFrame) (f : TfjsFrame) :
  Forall (fun x => 0 <= x <= 5)%Z
         (TfjsApp.countHistory (tfjsRun frames TfjsApp.initial))
  /\ (0 <= TfjsApp.smoothCount (tfjsRun frames TfjsApp.initial) <= 4)%Z
  /\ List.length (TfjsApp.countHistory (tfjsRun frames TfjsApp.initial))
     = List.length (TfjsApp.handHistory (tfjsRun frames TfjsApp.initial))
  /\ (0 <= TfjsApp.countText (tfjsShown (tfjsRun frames TfjsApp.initial) f)
      <= 4)%Z.
Proof.
  assert (H0 : Forall (fun x => 0 <= x <= 5)%Z
                 (TfjsApp.countHistory TfjsApp.initial)) by constructor.
  assert (H1 : (0 <= TfjsApp.smoothCount TfjsApp.initial <= 4)%Z)
    by (cbn; lia).
  destruct (tfjsRun_keeps frames TfjsApp.initial H0 H1 eq_refl)
    as (Ha & Hb & Hc).
  split; [exact Ha|]. split; [exact Hb|]. split; [exact Hc|].
  rewrite (proj1 (tfjs_shown_count _ f)).
  apply (tfjsStep_keeps _ f Ha Hb Hc).
Qed.

(* ================================================================== *)
(** * More on the frequency table and the mode *)
(* ================================================================== *)

Lemma setProp_keys (o : JSObject) (k : string) (v : Cell) :
  map fst (setProp o k v)
  = if in_dec string_dec k (map fst o) then map fst o else map fst o ++ [k].
Proof.
  induction o as [|[k' v'] o IH]; cbn [setProp map fst].
  - destruct (in_dec string_dec k []) as [[]|_]. reflexivity.
  - destruct (String.eqb_spec k' k) as [->|Hne].
    + destruct (in_dec string_dec k (k :: map fst o)) as [_|Hn];
        [reflexivity|]. exfalso. apply Hn. left. reflexivity.
    + cbn [map fst]. rewrite IH.
      destruct (in_dec string_dec k (map fst o)) as [Hin|Hnin];
        destruct (in_dec string_dec k (k' :: map fst o)) as [Hin'|Hnin'];
        try reflexivity.
      * exfalso. apply Hnin'. right. exact Hin.
      * exfalso. destruct Hin' as [E|Hin']; [congruence | contradiction].
Qed.

Lemma tally_NoDup (arr : list string) : NoDup (map fst (tally arr)).
Proof.
  induction arr as [|v arr IH] using rev_ind; [constructor|].
  rewrite tally_snoc. unfold assignProp.
  destruct (String.eqb v "__proto__"); [exact IH|].
  rewrite setProp_keys.
  destruct (in_dec string_dec v (map fst (tally arr))) as [_|Hn];
    [exact IH|].
  apply NoDup_app; [exact IH | constructor; [intros [] | constructor] |].
  intros x Hx [<-|[]]. contradiction.
Qed.

Lemma tableTotal_setProp_new (o : JSObject) (k : string) (n : Z) :
  getProp o k = None ->
  tableTotal (setProp o k (Num n)) = (tableTotal o + n)%Z.
Proof.
  induction o as [|[k' v'] o IH];
    cbn [setProp getProp tableTotal fold_right snd]; intro H.
  - lia.
  - destruct (String.eqb k' k); [discriminate H|].
    cbn [tableTotal fold_right snd].
    fold (tableTotal (setProp o k (Num n))). fold (tableTotal o).
    rewrite (IH H). destruct v'; lia.
Qed.

Lemma tableTotal_setProp_inc (o : JSObject) (k : string) (n m : Z) :
  getProp o k = Some (Num n) ->
  tableTotal (setProp o k (Num m)) = (tableTotal o - n + m)%Z.
Proof.
  induction o as [|[k' v'] o IH];
    cbn [setProp getProp tableTotal fold_right snd]; intro H.
  - discriminate H.
  - destruct (String.eqb k' k).
    + inversion H; subst v'. cbn [tableTotal fold_right snd].
      fold (tableTotal o). lia.
    + cbn [tableTotal fold_right snd].
      fold (tableTotal (setProp o k (Num m))). fold (tableTotal o).
      rewrite (IH H). destruct v'; lia.
Qed.

Lemma tally_total (arr : list string) :
  Forall (fun k => plainKey k = true) arr ->
  tableTotal (tally arr) = Z.of_nat (List.length arr).
Proof.
  induction arr as [|v arr IH] using rev_ind; [reflexivity|].
  intro Hall. apply Forall_app in Hall. destruct Hall as [Harr Hv].
  inversion Hv as [|? ? Pv _]; subst.
  rewrite tally_snoc, length_app. cbn [List.length].
  pose proof (tally_getProp arr v Pv) as Hg.
  apply plainKey_spec in Pv. destruct Pv as [Hnp Hnf].
  unfold assignProp, readProp. apply String.eqb_neq in Hnp. rewrite Hnp, Hg.
  destruct (count_occ string_dec arr v =? 0)%nat.
  - rewrite Hnf. cbn [orZeroPlusOne].
    rewrite (tableTotal_setProp_new _ _ _ Hg), (IH Harr). lia.
  - cbn [orZeroPlusOne].
    rewrite (tableTotal_setProp_inc _ _ _ _ Hg), (IH Harr). lia.
Qed.

(** What a key that is not an own property reads as. *)
Lemma readProp_absent (arr : list string) (k : string) :
  ~ In k arr \/ k = "__proto__"%string ->
  getProp (tally arr) k = None
  /\ readProp (tally arr) k
     = if String.eqb k "__proto__" then RPrototype
       else match protoFunction k with
            | Some f => RFunction f
            | None => RUndefined
            end.
Proof.
  intro H.
  assert (Hg : getProp (tally arr) k = None).
  { destruct (getProp (tally arr) k) as [c|] eqn:E; [|reflexivity].
    assert (Hin : In k (map fst (tally arr)))
      by (apply getProp_In; congruence).
    apply tally_keys in Hin. destruct H; tauto. }
  split; [exact Hg|]. unfold readProp. rewrite Hg. reflexivity.
Qed.

Lemma insertIndex_perm (e : N * string) (l : list (N * string)) :
  Permutation (insertIndex e l) (e :: l).
Proof.
  induction l as [|e' l IH]; cbn; [reflexivity|].
  destruct (fst e <=? fst e')%N; [reflexivity|].
  rewrite IH. apply perm_swap.
Qed.

Lemma indexKeys_perm (ks : list string) :
  Permutation (map snd (indexKeys ks)) (filter isIndexKey ks).
Proof.
  induction ks as [|k ks IH]; cbn; [reflexivity|].
  unfold isIndexKey at 1. destruct (arrayIndex k) as [n|]; [|exact IH].
  rewrite (Permutation_map snd (insertIndex_perm (n, k) (indexKeys ks))).
  cbn. apply perm_skip. exact IH.
Qed.

Lemma filter_split_perm {A : Type} (p : A -> bool) (l : list A) :
  Permutation (filter p l ++ filter (fun x => negb (p x)) l) l.
Proof.
  induction l as [|a l IH]; cbn; [reflexivity|].
  destruct (p a); cbn.
  - apply perm_skip. exact IH.
  - rewrite <- Permutation_middle. apply perm_skip. exact IH.
Qed.

Lemma ownKeys_perm (o : JSObject) : Permutation (ownKeys o) (map fst o).
Proof.
  unfold ownKeys. rewrite indexKeys_perm. apply filter_split_perm.
Qed.

(** X11.  The table built by the counting loop of [mode] (and of
    [pushHistory]) has one own property per distinct element of the array
    other than ["__proto__"], which is never stored.  Under a key that
    names no property of [Object.prototype] it holds the number of
    occurrences, and these numbers add up to the array's length when all
    keys are such; under the name of an inherited function it holds that
    function's source text followed by one ["1"] per occurrence.  A key
    that is not stored reads as what [Object.prototype] has under it, and
    as [undefined] only when that is nothing.  [Object.keys] lists each
    stored key once. *)
Theorem tally_counts_occurrences (arr : list string) :
  (forall k, plainKey k = true -> In k arr ->
             getProp (tally arr) k = Some (Num (occ arr k)))
  /\ (forall k f, protoFunction k = Some f -> In k arr ->
                  getProp (tally arr) k
                  = Some (FnText f (count_occ string_dec arr k)))
  /\ (forall k, ~ In k arr \/ k = "__proto__"%string ->
                getProp (tally arr) k = None
                /\ readProp (tally arr) k
                   = if String.eqb k "__proto__" then RPrototype
                     else match protoFunction k with
                          | Some f => RFunction f
                          | None => RUndefined
                          end)
  /\ (Forall (fun k => plainKey k = true) arr ->
      tableTotal (tally arr) = Z.of_nat (List.length arr))
  /\ NoDup (ownKeys (tally arr))
  /\ (forall k, In k (ownKeys (tally arr))
                <-> In k arr /\ k <> "__proto__"%string).
Proof.
  split; [exact (tally_getProp_In arr)|]. split.
  { intros k f Hf Hin. rewrite (tally_getProp_inherited arr k f Hf).
    apply (count_occ_In string_dec) in Hin.
    destruct (Nat.eqb_spec (count_occ string_dec arr k) 0);
      [lia | reflexivity]. }
  split; [exact (readProp_absent arr)|].
  split; [apply tally_total|]. split.
  - apply (Permutation_NoDup (Permutation_sym (ownKeys_perm (tally arr)))).
    apply tally_NoDup.
  - exact (ownKeys_tally_In arr).
Qed.

(** Witness: the labels of three frames. *)
Lemma tally_counts_occurrences_witness :
  plainKey "Right" = true
  /\ In "Right"%string ["Right"; "Left"; "Right"]%string
  /\ getProp (tally ["Right"; "Left"; "Right"]%string) "Right"
     = Some (Num (occ ["Right"; "Left"; "Right"]%string "Right"))
  /\ (~ In "toString"%string ["Right"; "Left"; "Right"]%string
      \/ "toString"%string = "__proto__"%string)
  /\ readProp (tally ["Right"; "Left"; "Right"]%string) "toString"
     = RFunction "toString".
Proof.
  assert (H0 : plainKey "Right" = true) by reflexivity.
  assert (H1 : In "Right"%string ["Right"; "Left"; "Right"]%string)
    by (left; reflexivity).
  assert (H2 : ~ In "toString"%string ["Right"; "Left"; "Right"]%string
               \/ "toString"%string = "__proto__"%string).
  { left. intros [H|[H|[H|[]]]]; discriminate H. }
  split; [exact H0|]. split; [exact H1|].
  split; [exact (proj1 (tally_counts_occurrences _) _ H0 H1)|].
  split; [exact H2|].
  exact (proj2 (proj1 (proj2 (proj2 (tally_counts_occurrences _))) _ H2)).
Defined.

(* ------------------------------------------------------------------ *)
(** ** A value held by more than half of the window *)

Lemma count_occ_two (l : list string) (x y : string) :
  x <> y ->
  (count_occ string_dec l x + count_occ string_dec l y <= List.length l)%nat.
Proof.
  intro Hne. induction l as [|a l IH]; cbn; [lia|].
  destruct (string_dec a x), (string_dec a y); subst; try congruence; lia.
Qed.

Lemma majority_unique (arr : list string) (k k' : string) :
  (2 * occ arr k > Z.of_nat (List.length arr))%Z ->
  (occ arr k <= occ arr k')%Z -> k' = k.
Proof.
  intros Hmaj Hle. destruct (string_dec k' k) as [E|Hne]; [exact E|].
  pose proof (count_occ_two arr k' k Hne). unfold occ in *. lia.
Qed.

Lemma majority_in (arr : list string) (k : string) :
  (2 * occ arr k > Z.of_nat (List.length arr))%Z -> In k arr /\ arr <> [].
Proof.
  intro Hmaj.
  assert (Hin : In k arr).
  { apply (count_occ_In string_dec). unfold occ in Hmaj. lia. }
  split; [exact Hin|]. intro E. rewrite E in Hin. exact Hin.
Qed.

Lemma majority_modes (arr : list string) (k : string) :
  Forall (fun x => plainKey x = true) arr ->
  (2 * occ arr k > Z.of_nat (List.length arr))%Z ->
  MediaPipeBkp.mode arr = Some k /\ MediaPipeApp.mode arr = Some k.
Proof.
  intros Hpl Hmaj. destruct (majority_in arr k Hmaj) as [Hin Hne]. split.
  - destruct (bkp_mode_first arr Hne Hpl) as (k' & Hm & Hf).
    destruct (first_in_window arr k' Hpl Hf) as [_ Hmax].
    rewrite Hm. f_equal. apply (majority_unique arr k k' Hmaj).
    apply Hmax. exact Hin.
  - destruct (app_mode_last arr Hne Hpl) as (k' & Hm & Hl).
    destruct (last_in_window arr k' Hpl Hl) as [_ Hmax].
    rewrite Hm. f_equal. apply (majority_unique arr k k' Hmaj).
    apply Hmax. exact Hin.
Qed.

(** X12.  A value that fills more than half of a window is the one
    displayed, provided no element of the window names a property of
    [Object.prototype]: both [mode] functions return it.  No count does,
    so this is the count shown by the two mode variants; and the labels
    ["Left"], ["Right"] and ["Unknown"] do not, so on windows of these it
    is the handedness shown by all three variants. *)
Theorem majority_value_is_shown :
  (forall arr k,
      Forall (fun x => plainKey x = true) arr ->
      (2 * occ arr k > Z.of_nat (List.length arr))%Z ->
      MediaPipeBkp.mode arr = Some k /\ MediaPipeApp.mode arr = Some k)
  /\ (forall w c,
        (2 * occZ w c > Z.of_nat (List.length w))%Z ->
        MediaPipeBkp.displayedCount w = Some c
        /\ option_map strToNum (MediaPipeApp.mode (map numToString w))
           = Some (Some c))
  /\ (forall cnt h st l,
        Forall (fun x => plainKey x = true)
               (TfjsApp.handHistory (TfjsApp.pushHistory cnt h st)) ->
        (2 * occ (TfjsApp.handHistory (TfjsApp.pushHistory cnt h st)) l
         > Z.of_nat (List.length
                       (TfjsApp.handHistory (TfjsApp.pushHistory cnt h st))))%Z
        -> TfjsApp.smoothHand (TfjsApp.pushHistory cnt h st) = l)
  /\ (forall arr,
        Forall (fun x => In x ["Left"; "Right"; "Unknown"]%string) arr ->
        Forall (fun x => plainKey x = true) arr).
Proof.
  split; [exact majority_modes|]. split; [|split].
  - intros w c Hmaj.
    assert (Hmaj' : (2 * occ (map numToString w) (numToString c)
                     > Z.of_nat (List.length (map numToString w)))%Z).
    { rewrite occ_numToString, length_map. exact Hmaj. }
    destruct (majority_modes _ _ (plain_counts w) Hmaj') as [Hb Ha].
    unfold MediaPipeBkp.displayedCount. rewrite Hb, Ha. cbn.
    rewrite strToNum_numToString. split; reflexivity.
  - intros cnt h st l Hpl Hmaj.
    destruct (pushHistory_hand cnt h st) as [Hh Hs].
    rewrite Hh in Hpl, Hmaj. rewrite Hs.
    destruct (majority_modes _ _ Hpl Hmaj) as [_ Ha].
    rewrite Ha. reflexivity.
  - intros arr Hall. eapply Forall_impl; [|exact Hall].
    cbn. intros x [<-|[<-|[<-|[]]]]; reflexivity.
Qed.

(** Witness: two "Right" among three labels. *)
Lemma majority_value_is_shown_witness :
  Forall (fun x => plainKey x = true) ["Right"; "Left"; "Right"]%string
  /\ (2 * occ ["Right"; "Left"; "Right"]%string "Right"
      > Z.of_nat (List.length ["Right"; "Left"; "Right"]%string))%Z
  /\ MediaPipeBkp.mode ["Right"; "Left"; "Right"]%string = Some "Right"%string
  /\ MediaPipeApp.mode ["Right"; "Left"; "Right"]%string = Some "Right"%string.
Proof.
  assert (Hp : Forall (fun x => plainKey x = true)
                      ["Right"; "Left"; "Right"]%string)
    by (repeat constructor).
  assert (H : (2 * occ ["Right"; "Left"; "Right"]%string "Right"
               > Z.of_nat (List.length ["Right"; "Left"; "Right"]%string))%Z)
    by (vm_compute; reflexivity).
  split; [exact Hp|]. split; [exact H|].
  exact (proj1 majority_value_is_shown _ _ Hp H).
Defined.

(* ================================================================== *)
(** * Which hand feeds the smoothing, and when the callback throws *)
(* ================================================================== *)

Lemma handOutcome_mirror (cfg cfg' : TfjsApp.Config) (cv : TfjsApp.Canvas)
  (h : TfjsApp.Hand) :
  TfjsApp.mirror cfg = TfjsApp.mirror cfg' ->
  TfjsApp.handOutcome cfg cv h = TfjsApp.handOutcome cfg' cv h.
Proof.
  intro Hm. unfold TfjsApp.handOutcome. rewrite Hm. reflexivity.
Qed.

(** When [onResults] reaches its display, the texts are those of the
    windows it leaves. *)
Lemma mp_completed_ui (tg : MediaPipeApp.Toggles) (res : MediaPipeApp.Results)
  (st : MediaPipeApp.History) (lm0 : list Landmark)
  (rest : list (list Landmark)) (ui : MediaPipeApp.UI) :
  MediaPipeApp.multiHandLandmarks res = Some (lm0 :: rest) ->
  snd (MediaPipeApp.onResults tg res st) = MediaPipeApp.Completed ui ->
  exists c h,
    MediaPipeApp.mode
      (map numToString
         (MediaPipeApp.countHistory
            (fst (fst (MediaPipeApp.onResults tg res st))))) = Some c
    /\ MediaPipeApp.mode
         (MediaPipeApp.handedHistory
            (fst (fst (MediaPipeApp.onResults tg res st)))) = Some h
    /\ ui = MediaPipeApp.mkUI MediaPipeApp.HandDetected (strToNum c) h.
Proof.
  intros Hres. unfold MediaPipeApp.onResults. rewrite Hres.
  cbn [List.length Nat.ltb Nat.leb].
  destruct (MediaPipeApp.loopHands res 0 _ st) as [[s o] ok].
  destruct ok; [|discriminate].
  destruct (MediaPipeApp.mode (map numToString (MediaPipeApp.countHistory s)))
    as [c|] eqn:Hc; [|discriminate].
  destruct (MediaPipeApp.mode (MediaPipeApp.handedHistory s))
    as [h|] eqn:Hh; [|discriminate].
  cbn [fst snd]. intro H. inversion H; subst ui.
  exists c, h. rewrite Hc, Hh. repeat split.
Qed.

(** X13.  Only the first hand of a frame reaches the smoothing state: the
    other hands of the result, and the skeleton and multi-hand toggles,
    have no influence on the windows, nor on the count and handedness
    displayed by a frame that reaches its display.  (In the variant with
    toggles a later hand with fewer than 21 landmarks ends the callback
    before the display, multi-hand mode being on.) *)
Theorem only_first_hand_feeds_smoothing :
  (forall cfg cfg' cv h rest rest' st,
      TfjsApp.mirror cfg = TfjsApp.mirror cfg' ->
      tfjsStep st (cfg, cv, Some (h :: rest))
      = tfjsStep st (cfg', cv, Some (h :: rest'))
      /\ TfjsApp.countText (tfjsShown st (cfg, cv, Some (h :: rest)))
         = TfjsApp.countText (tfjsShown st (cfg', cv, Some (h :: rest')))
      /\ TfjsApp.handText (tfjsShown st (cfg, cv, Some (h :: rest)))
         = TfjsApp.handText (tfjsShown st (cfg', cv, Some (h :: rest'))))
  /\ (forall tg tg' lm0 rest rest' mh st,
        fst (fst (MediaPipeApp.onResults tg
                    (MediaPipeApp.mkResults (Some (lm0 :: rest)) mh) st))
        = fst (fst (MediaPipeApp.onResults tg'
                      (MediaPipeApp.mkResults (Some (lm0 :: rest')) mh) st))
        /\ (forall ui ui',
              snd (MediaPipeApp.onResults tg
                     (MediaPipeApp.mkResults (Some (lm0 :: rest)) mh) st)
              = MediaPipeApp.Completed ui ->
              snd (MediaPipeApp.onResults tg'
                     (MediaPipeApp.mkResults (Some (lm0 :: rest')) mh) st)
              = MediaPipeApp.Completed ui' ->
              ui = ui'))
  /\ (forall lm0 rest rest' mh st,
        MediaPipeBkp.onResults
          (MediaPipeBkp.mkResults (Some (lm0 :: rest)) mh) st
        = MediaPipeBkp.onResults
            (MediaPipeBkp.mkResults (Some (lm0 :: rest')) mh) st).
Proof.
  split; [|split].
  - intros cfg cfg' cv h rest rest' st Hm.
    assert (E : tfjsStep st (cfg, cv, Some (h :: rest))
                = tfjsStep st (cfg', cv, Some (h :: rest'))).
    { unfold tfjsStep. cbn [fst snd]. rewrite !tfjs_frame_state.
      unfold TfjsApp.processHand.
      rewrite (handOutcome_mirror cfg cfg' cv h Hm). reflexivity. }
    split; [exact E|].
    rewrite !(proj1 (tfjs_shown_count st _)), !(proj2 (tfjs_shown_count st _)).
    rewrite E. split; reflexivity.
  - intros tg tg' lm0 rest rest' mh st.
    assert (E : fst (fst (MediaPipeApp.onResults tg
                            (MediaPipeApp.mkResults (Some (lm0 :: rest)) mh)
                            st))
                = fst (fst (MediaPipeApp.onResults tg'
                              (MediaPipeApp.mkResults (Some (lm0 :: rest'))
                                 mh) st)))
      by (rewrite !mp_onResults_state; reflexivity).
    split; [exact E|].
    intros ui ui' H H'.
    destruct (mp_completed_ui tg
                (MediaPipeApp.mkResults (Some (lm0 :: rest)) mh) st
                lm0 rest ui eq_refl H) as (c & h & Hc & Hh & ->).
    destruct (mp_completed_ui tg'
                (MediaPipeApp.mkResults (Some (lm0 :: rest')) mh) st
                lm0 rest' ui' eq_refl H') as (c' & h' & Hc' & Hh' & ->).
    rewrite E in Hc, Hh. congruence.
  - intros. reflexivity.
Qed.

(** Witness: the same first hand alone, or followed by a second hand with
    multi-hand mode on. *)
Lemma only_first_hand_feeds_smoothing_witness :
  TfjsApp.mirror (TfjsApp.mkConfig true false false)
  = TfjsApp.mirror (TfjsApp.mkConfig false true false)
  /\ tfjsStep TfjsApp.initial
       (TfjsApp.mkConfig true false false, TfjsApp.mkCanvas 1280 720,
        Some [TfjsApp.mkHand None (Some straightHand) None])
     = tfjsStep TfjsApp.initial
         (TfjsApp.mkConfig false true false, TfjsApp.mkCanvas 1280 720,
          Some [TfjsApp.mkHand None (Some straightHand) None;
                TfjsApp.mkHand None (Some (repeat origin 21)) None]).
Proof.
  split; [reflexivity|].
  exact (proj1 (proj1 only_first_hand_feeds_smoothing
                  (TfjsApp.mkConfig true false false)
                  (TfjsApp.mkConfig false true false)
                  (TfjsApp.mkCanvas 1280 720)
                  (TfjsApp.mkHand None (Some straightHand) None)
                  [] [TfjsApp.mkHand None (Some (repeat origin 21)) None]
                  TfjsApp.initial eq_refl)).
Defined.

Lemma tipsPresent_length (lm : list Landmark) :
  tipsPresent lm = true <-> (21 <= List.length lm)%nat.
Proof.
  unfold tipsPresent, tipIndices. rewrite forallb_forall. split.
  - intro H. specialize (H 20%nat ltac:(cbn; tauto)).
    destruct (nth_error lm 20) eqn:E; [|discriminate].
    assert (Hlt : (20 < List.length lm)%nat)
      by (apply nth_error_Some; rewrite E; discriminate).
    lia.
  - intros Hlen t Ht.
    destruct (nth_error lm t) eqn:E; [reflexivity|].
    apply nth_error_None in E. cbn in Ht.
    destruct Ht as [<-|[<-|[<-|[<-|[<-|[]]]]]]; lia.
Qed.

Lemma mp_loop_ok (res : MediaPipeApp.Results) (i : nat)
  (hs : list (list Landmark)) (st : MediaPipeApp.History) :
  snd (MediaPipeApp.loopHands res i hs st) = forallb tipsPresent hs.
Proof.
  revert i st. induction hs as [|lm hs IH]; intros i st; [reflexivity|].
  cbn [MediaPipeApp.loopHands MediaPipeApp.stepHand forallb].
  destruct (tipsPresent lm); [|reflexivity].
  match goal with
  | |- context [MediaPipeApp.loopHands res (S i) hs ?s] =>
      specialize (IH (S i) s);
      destruct (MediaPipeApp.loopHands res (S i) hs s) as [[st2 os] ok2]
  end.
  exact IH.
Qed.

Lemma mp_completion (tg : MediaPipeApp.Toggles) (res : MediaPipeApp.Results)
  (lm0 : list Landmark) (rest : list (list Landmark))
  (st : MediaPipeApp.History) :
  MediaPipeApp.multiHandLandmarks res = Some (lm0 :: rest) ->
  (forallb tipsPresent
     (firstn (MediaPipeApp.handsToShow tg (S (List.length rest)))
             (lm0 :: rest)) = true ->
   (exists x,
       In x (pushShift MediaPipeApp.HISTORY_MAX
               (MediaPipeApp.handedHistory st)
               (flipLabel (MediaPipeApp.rawLabel res 0)))
       /\ x <> "__proto__"%string) ->
   exists ui,
     snd (MediaPipeApp.onResults tg res st) = MediaPipeApp.Completed ui
     /\ MediaPipeApp.statusText ui = MediaPipeApp.HandDetected)
  /\ (forallb tipsPresent
        (firstn (MediaPipeApp.handsToShow tg (S (List.length rest)))
                (lm0 :: rest)) = false
      \/ Forall (fun x => x = "__proto__"%string)
                (pushShift MediaPipeApp.HISTORY_MAX
                   (MediaPipeApp.handedHistory st)
                   (flipLabel (MediaPipeApp.rawLabel res 0))) ->
      snd (MediaPipeApp.onResults tg res st) = MediaPipeApp.Thrown).
Proof.
  intro Hres.
  pose proof (mp_onResults_state tg res st) as Hst.
  unfold mpObservation in Hst. rewrite Hres in Hst.
  unfold MediaPipeApp.onResults in *. rewrite Hres in *.
  cbn [List.length Nat.ltb Nat.leb] in *.
  pose proof (mp_loop_ok res 0
                (firstn (MediaPipeApp.handsToShow tg (S (List.length rest)))
                        (lm0 :: rest)) st) as Hok.
  destruct (MediaPipeApp.loopHands res 0 _ st) as [[s o] ok].
  cbn [snd] in Hok. subst ok.
  assert (Hs : s = MediaPipeApp.mkHistory
                     (pushShift MediaPipeApp.HISTORY_MAX
                        (MediaPipeApp.countHistory st) (count (analyzeHand lm0)))
                     (pushShift MediaPipeApp.HISTORY_MAX
                        (MediaPipeApp.handedHistory st)
                        (flipLabel (MediaPipeApp.rawLabel res 0)))).
  { destruct (forallb tipsPresent _); [|exact Hst].
    destruct (MediaPipeApp.mode (map numToString (MediaPipeApp.countHistory s)));
      [destruct (MediaPipeApp.mode (MediaPipeApp.handedHistory s))|];
      exact Hst. }
  clear Hst. subst s.
  cbn [MediaPipeApp.countHistory MediaPipeApp.handedHistory].
  assert (Hcn : pushShift MediaPipeApp.HISTORY_MAX
                  (MediaPipeApp.countHistory st) (count (analyzeHand lm0))
                <> [])
    by (apply pushShift_nonempty; unfold MediaPipeApp.HISTORY_MAX; lia).
  destruct (app_mode_counts_spec _ Hcn) as (m & Hm & _).
  split.
  - intros Hok Hex. rewrite Hok.
    destruct (mode_returns_element _ Hex) as [_ (k & Hkk & _)].
    rewrite Hm, Hkk. eexists. split; reflexivity.
  - intros [Hf|Hall].
    + rewrite Hf. reflexivity.
    + destruct (forallb tipsPresent _); [|reflexivity].
      destruct (mode_of_proto_only _ Hall) as [_ Hn].
      rewrite Hm, Hn. reflexivity.
Qed.

(** A hand with all its 21 landmarks whose label is ["__proto__"], on the
    empty windows: the callback ends in the TypeError of [reduce] although
    no hand is short. *)
Example callback_throws_on_proto_label :
  snd (MediaPipeApp.onResults (MediaPipeApp.mkToggles true false)
         (MediaPipeApp.mkResults (Some [repeat origin 21])
            (Some [mkEntry (Some "__proto__"%string)]))
         MediaPipeApp.initial)
  = MediaPipeApp.Thrown
  /\ ~ Exists (fun lm : list Landmark => (List.length lm < 21)%nat)
              [repeat origin 21].
Proof.
  split.
  - apply (proj2 (mp_completion (MediaPipeApp.mkToggles true false)
                    (MediaPipeApp.mkResults (Some [repeat origin 21])
                       (Some [mkEntry (Some "__proto__"%string)]))
                    (repeat origin 21) [] MediaPipeApp.initial eq_refl)).
    right. repeat constructor.
  - intro H. inversion H as [x l Hl|x l Hl]; subst.
    + cbn in Hl. lia.
    + inversion Hl.
Qed.

(** X14.  With at least one hand in the result, [onResults] of the variant
    with toggles ends in an uncaught TypeError exactly when one of the
    hands it goes through has fewer than 21 landmarks, or when the label
    window it has just pushed holds nothing but ["__proto__"], on which
    the [reduce] of [mode] throws (no label of the detector is that
    string: with any other label pushed, a short hand is the only cause);
    otherwise it updates the texts; the windows were pushed either way.
    In [script_bkp.js] the texts are always updated, and the fingertip
    loop that follows throws exactly when the first hand has fewer than 21
    landmarks. *)
Theorem callback_throws_iff_short_hand :
  (forall tg res lm0 rest st,
      MediaPipeApp.multiHandLandmarks res = Some (lm0 :: rest) ->
      (snd (MediaPipeApp.onResults tg res st) = MediaPipeApp.Thrown
       <-> Exists (fun lm => (List.length lm < 21)%nat)
                  (firstn (MediaPipeApp.handsToShow tg (S (List.length rest)))
                          (lm0 :: rest))
           \/ Forall (fun x => x = "__proto__"%string)
                     (pushShift MediaPipeApp.HISTORY_MAX
                        (MediaPipeApp.handedHistory st)
                        (flipLabel (MediaPipeApp.rawLabel res 0))))
      /\ (flipLabel (MediaPipeApp.rawLabel res 0) <> "__proto__"%string ->
          (snd (MediaPipeApp.onResults tg res st) = MediaPipeApp.Thrown
           <-> Exists (fun lm => (List.length lm < 21)%nat)
                      (firstn (MediaPipeApp.handsToShow tg
                                 (S (List.length rest)))
                              (lm0 :: rest))))
      /\ (snd (MediaPipeApp.onResults tg res st) <> MediaPipeApp.Thrown ->
          exists ui,
            snd (MediaPipeApp.onResults tg res st) = MediaPipeApp.Completed ui
            /\ MediaPipeApp.statusText ui = MediaPipeApp.HandDetected)
      /\ MediaPipeApp.countHistory
           (fst (fst (MediaPipeApp.onResults tg res st)))
         = pushShift MediaPipeApp.HISTORY_MAX (MediaPipeApp.countHistory st)
                     (count (analyzeHand lm0)))
  /\ (forall res lm0 rest st,
        MediaPipeBkp.multiHandLandmarks res = Some (lm0 :: rest) ->
        (snd (MediaPipeBkp.onResults res st) = false
         <-> (List.length lm0 < 21)%nat)
        /\ MediaPipeBkp.statusText (snd (fst (MediaPipeBkp.onResults res st)))
           = MediaPipeBkp.HandDetected).
Proof.
  split.
  - intros tg res lm0 rest st Hres.
    destruct (mp_completion tg res lm0 rest st Hres) as [Hyes Hno].
    set (hs := firstn (MediaPipeApp.handsToShow tg (S (List.length rest)))
                      (lm0 :: rest)) in *.
    assert (Hex : forallb tipsPresent hs = false
                  <-> Exists (fun lm => (List.length lm < 21)%nat) hs).
    { rewrite Exists_exists. split.
      - intro Hf.
        destruct (forallb tipsPresent hs) eqn:E; [discriminate|].
        assert (Hn : ~ (forall lm, In lm hs -> tipsPresent lm = true)).
        { intro Hall. apply forallb_forall in Hall. congruence. }
        clear E Hf Hyes Hno. induction hs as [|lm hs IH].
        + exfalso. apply Hn. intros lm [].
        + destruct (tipsPresent lm) eqn:El.
          * destruct IH as (x & Hx & Hlen).
            { intro Hall. apply Hn. intros y [<-|Hy]; [exact El | auto]. }
            exists x. split; [right; exact Hx | exact Hlen].
          * exists lm. split; [left; reflexivity|].
            destruct (Nat.lt_ge_cases (List.length lm) 21) as [Hlt|Hge];
              [exact Hlt|].
            apply tipsPresent_length in Hge. congruence.
      - intros (lm & Hin & Hlen).
        destruct (forallb tipsPresent hs) eqn:E; [|reflexivity].
        rewrite forallb_forall in E. specialize (E lm Hin).
        apply tipsPresent_length in E. lia. }
    set (w := pushShift MediaPipeApp.HISTORY_MAX
                (MediaPipeApp.handedHistory st)
                (flipLabel (MediaPipeApp.rawLabel res 0))) in *.
    assert (Hiff : snd (MediaPipeApp.onResults tg res st) = MediaPipeApp.Thrown
                   <-> Exists (fun lm => (List.length lm < 21)%nat) hs
                       \/ Forall (fun x => x = "__proto__"%string) w).
    { rewrite <- Hex. split.
      - intro Ht. destruct (forallb tipsPresent hs) eqn:E;
          [|left; reflexivity].
        destruct (non_proto_dec w) as [Hnp|Hall]; [|right; exact Hall].
        destruct (Hyes eq_refl Hnp) as (ui & Hc & _). congruence.
      - exact Hno. }
    split; [exact Hiff|]. split; [|split].
    + intro Hlbl. rewrite Hiff. split; [|intro H; left; exact H].
      intros [H|Hall]; [exact H|].
      exfalso. apply Hlbl. rewrite Forall_forall in Hall. apply Hall.
      subst w. apply pushShift_last. unfold MediaPipeApp.HISTORY_MAX. lia.
    + intro Hnt.
      destruct (forallb tipsPresent hs) eqn:E;
        [|exfalso; apply Hnt; apply Hno; left; reflexivity].
      destruct (non_proto_dec w) as [Hnp|Hall];
        [exact (Hyes eq_refl Hnp)|].
      exfalso. apply Hnt. apply Hno. right. exact Hall.
    + rewrite mp_onResults_state. unfold mpObservation. rewrite Hres.
      reflexivity.
  - intros res lm0 rest st Hres. unfold MediaPipeBkp.onResults.
    rewrite Hres. cbn [fst snd MediaPipeBkp.statusText].
    split; [|reflexivity].
    pose proof (tipsPresent_length lm0) as Ht.
    destruct (tipsPresent lm0); split; intro H; try discriminate H;
      try reflexivity.
    + assert ((21 <= List.length lm0)%nat) by (apply Ht; reflexivity). lia.
    + destruct (Nat.lt_ge_cases (List.length lm0) 21) as [Hlt|Hge]; [lia|].
      apply Ht in Hge. discriminate Hge.
Qed.

(** Witness: a single hand without landmarks makes the callback throw. *)
Lemma callback_throws_iff_short_hand_witness :
  MediaPipeApp.multiHandLandmarks (MediaPipeApp.mkResults (Some [[]]) None)
  = Some [[]]
  /\ flipLabel (MediaPipeApp.rawLabel
                  (MediaPipeApp.mkResults (Some [[]]) None) 0)
     <> "__proto__"%string
  /\ (snd (MediaPipeApp.onResults (MediaPipeApp.mkToggles true false)
             (MediaPipeApp.mkResults (Some [[]]) None) MediaPipeApp.initial)
      = MediaPipeApp.Thrown
      <-> Exists (fun lm : list Landmark => (List.length lm < 21)%nat)
                 (firstn (MediaPipeApp.handsToShow
                            (MediaPipeApp.mkToggles true false) 1) [[]])).
Proof.
  assert (Hl : flipLabel (MediaPipeApp.rawLabel
                            (MediaPipeApp.mkResults (Some [[]]) None) 0)
               <> "__proto__"%string) by discriminate.
  split; [reflexivity|]. split; [exact Hl|].
  exact (proj1 (proj2 (proj1 callback_throws_iff_short_hand
                         (MediaPipeApp.mkToggles true false)
                         (MediaPipeApp.mkResults (Some [[]]) None) [] []
                         MediaPipeApp.initial eq_refl)) Hl).
Defined.

(* ================================================================== *)
(** * Drawing of a processed hand *)
(* ================================================================== *)

Lemma list21 (nl : list Landmark) :
  List.length nl = 21%nat ->
  exists p0 p1 p2 p3 p4 p5 p6 p7 p8 p9 p10 p11 p12 p13 p14 p15 p16 p17 p18
         p19 p20,
    nl = [p0; p1; p2; p3; p4; p5; p6; p7; p8; p9; p10; p11; p12; p13; p14;
          p15; p16; p17; p18; p19; p20].
Proof.
  intro H.
  do 21 (destruct nl as [|? nl]; [discriminate H|]).
  destruct nl; [|discriminate H].
  repeat eexists.
Qed.

Lemma drawHand_explicit (skel : bool) (cv : TfjsApp.Canvas)
  (nl : list Landmark) (b0 b1 b2 b3 b4 : bool) (cnt : Z) :
  List.length nl = 21%nat ->
  exists cmds,
    TfjsDraw.drawHand skel cv nl (mkAnalysis [b0; b1; b2; b3; b4] cnt)
    = Some cmds
    /\ List.length cmds = (if skel then 41 else 5)%nat
    /\ List.length (filter isCircle cmds) = (if skel then 21 else 5)%nat
    /\ List.length (filter isHighlighted cmds)
       = numExtended [b0; b1; b2; b3; b4]
    /\ (forall f, (f < 5)%nat ->
          nth_error cmds (if skel then 20 + nth f tipIndices 0 else f)%nat
          = Some (TfjsDraw.drawCircle cv (nth (nth f tipIndices 0%nat) nl origin)
                    (if skel then 6 else 7)
                    (if nth f [b0; b1; b2; b3; b4] false
                     then TfjsDraw.highlight
                     else if skel then TfjsDraw.dimJoint
                          else TfjsDraw.dimTip)))
    /\ (skel = true ->
        forall pi, (pi < 21)%nat -> TfjsDraw.isTip pi = false ->
          nth_error cmds (20 + pi)
          = Some (TfjsDraw.drawCircle cv (nth pi nl origin) 3
                                      TfjsDraw.dimJoint)).
Proof.
  intro Hlen.
  destruct (list21 nl Hlen)
    as (p0 & p1 & p2 & p3 & p4 & p5 & p6 & p7 & p8 & p9 & p10 & p11 & p12
        & p13 & p14 & p15 & p16 & p17 & p18 & p19 & p20 & ->).
  destruct skel.
  - eexists. split; [reflexivity|].
    split; [reflexivity|]. split; [reflexivity|]. split.
    { destruct b0, b1, b2, b3, b4; reflexivity. }
    split.
    + intros f Hf.
      destruct f as [|[|[|[|[|f]]]]]; [reflexivity..|lia].
    + intros _ pi Hpi Htip.
      do 21 (destruct pi as [|pi];
             [first [reflexivity | discriminate Htip]|]).
      lia.
  - eexists. split; [reflexivity|].
    split; [reflexivity|]. split; [reflexivity|]. split.
    { destruct b0, b1, b2, b3, b4; reflexivity. }
    split.
    + intros f Hf.
      destruct f as [|[|[|[|[|f]]]]]; [reflexivity..|lia].
    + discriminate.
Qed.

(** X15.  For a hand that passed the 21-landmark check the drawing code never
    reads a missing landmark.  With the skeleton shown it issues 20 lines
    and 21 circles, otherwise 5 circles; the circle of each fingertip sits
    on that tip's landmark and is filled with the highlight colour exactly
    when the finger is classified extended, no other joint is ever
    highlighted, and so the number of highlighted circles is the frame's
    raw finger count. *)
Theorem markers_follow_classification (skel : bool) (cv : TfjsApp.Canvas)
  (nl : list Landmark) :
  List.length nl = 21%nat ->
  exists cmds,
    TfjsDraw.drawHand skel cv nl (analyzeLandmarks nl) = Some cmds
    /\ List.length cmds = (if skel then 41 else 5)%nat
    /\ List.length (filter isCircle cmds) = (if skel then 21 else 5)%nat
    /\ Z.of_nat (List.length (filter isHighlighted cmds))
       = count (analyzeLandmarks nl)
    /\ (forall f, (f < 5)%nat ->
          nth_error cmds (if skel then 20 + nth f tipIndices 0 else f)%nat
          = Some (TfjsDraw.drawCircle cv (nth (nth f tipIndices 0%nat) nl origin)
                    (if skel then 6 else 7)
                    (if nth f (extended (analyzeLandmarks nl)) false
                     then TfjsDraw.highlight
                     else if skel then TfjsDraw.dimJoint
                          else TfjsDraw.dimTip)))
    /\ (skel = true ->
        forall pi, (pi < 21)%nat -> TfjsDraw.isTip pi = false ->
          nth_error cmds (20 + pi)
          = Some (TfjsDraw.drawCircle cv (nth pi nl origin) 3
                                      TfjsDraw.dimJoint)).
Proof.
  intro Hlen.
  destruct (drawHand_explicit skel cv nl
              (tryExtended nl 2 3 4 150) (tryExtended nl 5 6 8 160)
              (tryExtended nl 9 10 12 160) (tryExtended nl 13 14 16 160)
              (tryExtended nl 17 18 20 160)
              (count (analyzeLandmarks nl)) Hlen)
    as (cmds & Hd & Hn & Hcirc & Hhi & Htips & Hjoints).
  exists cmds. split; [exact Hd|]. split; [exact Hn|].
  split; [exact Hcirc|]. split.
  - rewrite Hhi. symmetry.
    exact (proj1 (countExtended_five _ _ _ _ _)).
  - split; [exact Htips | exact Hjoints].
Qed.

(** Witness: the straight hand with the skeleton shown. *)
Lemma markers_follow_classification_witness :
  List.length straightHand = 21%nat
  /\ exists cmds,
       TfjsDraw.drawHand true (TfjsApp.mkCanvas 1280 720) straightHand
                         (analyzeLandmarks straightHand) = Some cmds
       /\ List.length cmds = 41%nat.
Proof.
  split; [reflexivity|].
  destruct (markers_follow_classification true (TfjsApp.mkCanvas 1280 720)
              straightHand eq_refl) as (cmds & Hd & Hn & _).
  exists cmds. split; [exact Hd | exact Hn].
Defined.

(* ================================================================== *)
(** * Normalisation and drawing of a whole frame *)
(* ================================================================== *)

(** The spec's example: x = 640 on a canvas 1280 wide is taken as a pixel
    coordinate and becomes 0.5. *)
Example normalize_sample :
  TfjsApp.normalize (TfjsApp.mkCanvas 1280 720)
                    (Some [mkLandmark 640 360 (Some 0%R)])
  = Some [mkLandmark (640 / 1280) (360 / 720) (Some 0%R)]
  /\ (640 / 1280 = 0.5)%R.
Proof.
  split; [|lra].
  cbn [TfjsApp.normalize kx].
  assert (H : Rgtb 640 1.5 = true) by (apply Rgtb_true; lra).
  rewrite H. reflexivity.
Qed.

(** X17.  Whatever the detector returns, the drawing part of [processFrame]
    never reads a missing landmark: every hand of the frame is either
    skipped, drawing nothing, or drawn completely. *)
Theorem frame_drawing_never_throws (cfg : TfjsApp.Config)
  (cv : TfjsApp.Canvas) (hands : list TfjsApp.Hand) (st : TfjsApp.Smoother) :
  Forall (fun o => exists cmds, TfjsDraw.drawOutcome cfg cv o = Some cmds)
         (snd (TfjsApp.processFrame cfg cv (Some hands) st))
  /\ Forall (fun o => o = TfjsApp.Skipped ->
                      TfjsDraw.drawOutcome cfg cv o = Some [])
            (snd (TfjsApp.processFrame cfg cv (Some hands) st)).
Proof.
  split; [|apply Forall_forall; intros o _ ->; reflexivity].
  apply Forall_forall. intros o Hin.
  rewrite tfjs_frame_outcomes in Hin. apply in_map_iff in Hin.
  destruct Hin as (h & <- & _).
  destruct (handOutcome_cases cfg cv h)
    as [[_ Hs]|(k & nl & _ & _ & Hl & Hp)].
  - rewrite Hs. exists []. reflexivity.
  - rewrite Hp. cbn [TfjsDraw.drawOutcome].
    destruct (drawHand_explicit (TfjsApp.showSkeleton cfg) cv nl
                (tryExtended nl 2 3 4 150) (tryExtended nl 5 6 8 160)
                (tryExtended nl 9 10 12 160) (tryExtended nl 13 14 16 160)
                (tryExtended nl 17 18 20 160)
                (count (analyzeLandmarks nl)) Hl) as (cmds & Hd & _).
    exists cmds. exact Hd.
Qed.

(* ================================================================== *)
(** * Canvas sizing *)
(* ================================================================== *)

Lemma ensureCanvasSize_variants (image : option CanvasSizing.Image)
  (video : CanvasSizing.Video) (canvas : CanvasSizing.CanvasEl) :
  CanvasSizing.ensureCanvasSizeBkp image video canvas
  = CanvasSizing.ensureCanvasSize image video canvas.
Proof.
  unfold CanvasSizing.ensureCanvasSizeBkp, CanvasSizing.ensureCanvasSize,
    CanvasSizing.orElse.
  destruct image as [[[iw|] [ih|]]|]; reflexivity.
Qed.

Lemma ensureCanvasSize_cases (image : option CanvasSizing.Image)
  (video : CanvasSizing.Video) (canvas : CanvasSizing.CanvasEl) :
  let w := CanvasSizing.orElse
             (match image with
              | Some i => CanvasSizing.imgWidth i
              | None => None
              end) (CanvasSizing.videoWidth video) in
  let h := CanvasSizing.orElse
             (match image with
              | Some i => CanvasSizing.imgHeight i
              | None => None
              end) (CanvasSizing.videoHeight video) in
  (w <> 0%Z /\ h <> 0%Z
   /\ CanvasSizing.cWidth
        (CanvasSizing.ensureCanvasSize image video canvas) = w
   /\ CanvasSizing.cHeight
        (CanvasSizing.ensureCanvasSize image video canvas) = h)
  \/ ((w = 0%Z \/ h = 0%Z)
      /\ CanvasSizing.ensureCanvasSize image video canvas = canvas).
Proof.
  cbv zeta. unfold CanvasSizing.ensureCanvasSize, CanvasSizing.truthy.
  set (w := CanvasSizing.orElse _ (CanvasSizing.videoWidth video)).
  set (h := CanvasSizing.orElse _ (CanvasSizing.videoHeight video)).
  destruct (Z.eqb_spec w 0) as [Hw|Hw]; cbn [negb andb];
    [right; split; [left; exact Hw | reflexivity]|].
  destruct (Z.eqb_spec h 0) as [Hh|Hh]; cbn [negb andb];
    [right; split; [right; exact Hh | reflexivity]|].
  left. split; [exact Hw|]. split; [exact Hh|].
  destruct (Z.eqb_spec (CanvasSizing.cWidth canvas) w) as [Ew|Ew];
    destruct (Z.eqb_spec (CanvasSizing.cHeight canvas) h) as [Eh|Eh];
    cbn [negb orb CanvasSizing.cWidth CanvasSizing.cHeight];
    split; try reflexivity; assumption.
Qed.

(** X18.  The canvas is given the size of the frame, each dimension on
    its own: the image's value where the image is there and carries a
    non-zero one, else the video's (so an image of width 0 and height 720
    gives the video's width and the image's height).  When either
    dimension is 0 the canvas is left alone, a canvas that already has
    the size is not touched, and sizing twice is the same as sizing once.
    The two MediaPipe variants compute the same canvas, and
    [fitCanvasToVideo] does the same from the video's size. *)
Theorem canvas_takes_frame_size (image : option CanvasSizing.Image)
  (video : CanvasSizing.Video) (canvas : CanvasSizing.CanvasEl) :
  CanvasSizing.ensureCanvasSizeBkp image video canvas
  = CanvasSizing.ensureCanvasSize image video canvas
  /\ CanvasSizing.ensureCanvasSize image video
       (CanvasSizing.ensureCanvasSize image video canvas)
     = CanvasSizing.ensureCanvasSize image video canvas
  /\ (forall w h,
        frameDimension (imageWidth image) (CanvasSizing.videoWidth video) w ->
        frameDimension (imageHeight image) (CanvasSizing.videoHeight video) h ->
        (w <> 0%Z -> h <> 0%Z ->
         CanvasSizing.cWidth
           (CanvasSizing.ensureCanvasSize image video canvas) = w
         /\ CanvasSizing.cHeight
              (CanvasSizing.ensureCanvasSize image video canvas) = h)
        /\ (w = 0%Z \/ h = 0%Z ->
            CanvasSizing.ensureCanvasSize image video canvas = canvas)
        /\ (CanvasSizing.cWidth canvas = w ->
            CanvasSizing.cHeight canvas = h ->
            CanvasSizing.ensureCanvasSize image video canvas = canvas))
  /\ (forall iw ih,
        image = Some (CanvasSizing.mkImage (Some iw) (Some ih)) ->
        iw <> 0%Z -> ih <> 0%Z ->
        CanvasSizing.cWidth
          (CanvasSizing.ensureCanvasSize image video canvas) = iw
        /\ CanvasSizing.cHeight
             (CanvasSizing.ensureCanvasSize image video canvas) = ih)
  /\ (image = None ->
      (CanvasSizing.videoWidth video <> 0%Z ->
       CanvasSizing.videoHeight video <> 0%Z ->
       CanvasSizing.cWidth
         (CanvasSizing.ensureCanvasSize image video canvas)
       = CanvasSizing.videoWidth video
       /\ CanvasSizing.cHeight
            (CanvasSizing.ensureCanvasSize image video canvas)
          = CanvasSizing.videoHeight video)
      /\ (CanvasSizing.videoWidth video = 0%Z
          \/ CanvasSizing.videoHeight video = 0%Z ->
          CanvasSizing.ensureCanvasSize image video canvas = canvas))
  /\ (CanvasSizing.videoWidth video <> 0%Z ->
      CanvasSizing.videoHeight video <> 0%Z ->
      CanvasSizing.cWidth (CanvasSizing.fitCanvasToVideo video canvas)
      = CanvasSizing.videoWidth video
      /\ CanvasSizing.cHeight (CanvasSizing.fitCanvasToVideo video canvas)
         = CanvasSizing.videoHeight video)
  /\ (CanvasSizing.videoWidth video = 0%Z
      \/ CanvasSizing.videoHeight video = 0%Z ->
      CanvasSizing.fitCanvasToVideo video canvas = canvas)
  /\ CanvasSizing.fitCanvasToVideo video
       (CanvasSizing.fitCanvasToVideo video canvas)
     = CanvasSizing.fitCanvasToVideo video canvas.
Proof.
  split; [apply ensureCanvasSize_variants|]. split.
  { pose proof (ensureCanvasSize_cases image video canvas) as Hc.
    cbv zeta in Hc.
    destruct Hc as [(Hw & Hh & Ew & Eh)|[Hz E]].
    - unfold CanvasSizing.ensureCanvasSize at 1.
      rewrite Ew, Eh, !Z.eqb_refl. cbn [negb orb].
      rewrite Bool.andb_false_r. reflexivity.
    - rewrite !E. reflexivity. }
  split.
  { intros w h Hw Hh.
    assert (Ew : CanvasSizing.orElse (imageWidth image)
                   (CanvasSizing.videoWidth video) = w).
    { unfold CanvasSizing.orElse, CanvasSizing.truthy.
      destruct Hw as [(n & -> & Hn & ->)|[[->| ->] ->]];
        [destruct (Z.eqb_spec n 0); [contradiction | reflexivity]
        | reflexivity | reflexivity]. }
    assert (Eh : CanvasSizing.orElse (imageHeight image)
                   (CanvasSizing.videoHeight video) = h).
    { unfold CanvasSizing.orElse, CanvasSizing.truthy.
      destruct Hh as [(n & -> & Hn & ->)|[[->| ->] ->]];
        [destruct (Z.eqb_spec n 0); [contradiction | reflexivity]
        | reflexivity | reflexivity]. }
    pose proof (ensureCanvasSize_cases image video canvas) as Hc.
    cbv zeta in Hc.
    change (match image with
            | Some i => CanvasSizing.imgWidth i
            | None => None
            end) with (imageWidth image) in Hc.
    change (match image with
            | Some i => CanvasSizing.imgHeight i
            | None => None
            end) with (imageHeight image) in Hc.
    rewrite Ew, Eh in Hc.
    split; [|split].
    - intros Hw0 Hh0.
      destruct Hc as [(_ & _ & E1 & E2)|[[Hz|Hz] _]];
        [split; assumption | contradiction | contradiction].
    - intros Hz. destruct Hc as [(Hw0 & Hh0 & _)|[_ E]]; [|exact E].
      destruct Hz; contradiction.
    - intros Hcw Hch. unfold CanvasSizing.ensureCanvasSize.
      change (match image with
              | Some i => CanvasSizing.imgWidth i
              | None => None
              end) with (imageWidth image).
      change (match image with
              | Some i => CanvasSizing.imgHeight i
              | None => None
              end) with (imageHeight image).
      cbv zeta. rewrite Ew, Eh, Hcw, Hch, !Z.eqb_refl. cbn [negb orb].
      rewrite Bool.andb_false_r. reflexivity. }
  split.
  { intros iw ih -> Hw Hh.
    pose proof (ensureCanvasSize_cases
                  (Some (CanvasSizing.mkImage (Some iw) (Some ih)))
                  video canvas) as Hc.
    cbv zeta in Hc.
    cbn [CanvasSizing.imgWidth CanvasSizing.imgHeight CanvasSizing.orElse]
      in Hc.
    unfold CanvasSizing.truthy in Hc.
    destruct (Z.eqb_spec iw 0); [contradiction|].
    destruct (Z.eqb_spec ih 0); [contradiction|].
    cbn [negb] in Hc.
    destruct Hc as [(_ & _ & Ew & Eh)|[[Hz|Hz] _]];
      [split; assumption | contradiction | contradiction]. }
  split.
  { intros ->.
    pose proof (ensureCanvasSize_cases None video canvas) as Hc.
    cbv zeta in Hc. cbn [CanvasSizing.orElse] in Hc.
    split.
    - intros Hw Hh.
      destruct Hc as [(_ & _ & Ew & Eh)|[[Hz|Hz] _]];
        [split; assumption | contradiction | contradiction].
    - intros Hz.
      destruct Hc as [(Hw & Hh & _)|[_ E]]; [|exact E].
      destruct Hz; contradiction. }
  unfold CanvasSizing.fitCanvasToVideo, CanvasSizing.truthy.
  destruct (Z.eqb_spec (CanvasSizing.videoWidth video) 0) as [Hw|Hw];
    destruct (Z.eqb_spec (CanvasSizing.videoHeight video) 0) as [Hh|Hh];
    cbn [negb orb CanvasSizing.cWidth CanvasSizing.cHeight];
    (split; [intros; try contradiction; split; reflexivity|]);
    (split; [intros [Hz|Hz]; try contradiction; reflexivity|]);
    reflexivity.
Qed.

(** Witness: an image of width 0 and height 720 over a 640 x 480 video,
    on a fresh 300 x 150 canvas. *)
Lemma canvas_takes_frame_size_witness :
  frameDimension
    (imageWidth (Some (CanvasSizing.mkImage (Some 0%Z) (Some 720%Z))))
    (CanvasSizing.videoWidth (CanvasSizing.mkVideo 640 480 640 480)) 640%Z
  /\ frameDimension
       (imageHeight (Some (CanvasSizing.mkImage (Some 0%Z) (Some 720%Z))))
       (CanvasSizing.videoHeight (CanvasSizing.mkVideo 640 480 640 480)) 720%Z
  /\ 640%Z <> 0%Z /\ 720%Z <> 0%Z
  /\ CanvasSizing.cWidth
       (CanvasSizing.ensureCanvasSize
          (Some (CanvasSizing.mkImage (Some 0%Z) (Some 720%Z)))
          (CanvasSizing.mkVideo 640 480 640 480)
          (CanvasSizing.mkCanvasEl 300 150 "" "")) = 640%Z
  /\ CanvasSizing.cHeight
       (CanvasSizing.ensureCanvasSize
          (Some (CanvasSizing.mkImage (Some 0%Z) (Some 720%Z)))
          (CanvasSizing.mkVideo 640 480 640 480)
          (CanvasSizing.mkCanvasEl 300 150 "" "")) = 720%Z.
Proof.
  assert (Hw : frameDimension
                 (imageWidth
                    (Some (CanvasSizing.mkImage (Some 0%Z) (Some 720%Z))))
                 (CanvasSizing.videoWidth
                    (CanvasSizing.mkVideo 640 480 640 480)) 640%Z).
  { right. split; [right; reflexivity | reflexivity]. }
  assert (Hh : frameDimension
                 (imageHeight
                    (Some (CanvasSizing.mkImage (Some 0%Z) (Some 720%Z))))
                 (CanvasSizing.videoHeight
                    (CanvasSizing.mkVideo 640 480 640 480)) 720%Z).
  { left. exists 720%Z. repeat split. discriminate. }
  assert (H1 : 640%Z <> 0%Z) by discriminate.
  assert (H2 : 720%Z <> 0%Z) by discriminate.
  split; [exact Hw|]. split; [exact Hh|].
  split; [exact H1|]. split; [exact H2|].
  exact (proj1 (proj1 (proj2 (proj2 (canvas_takes_frame_size
           (Some (CanvasSizing.mkImage (Some 0%Z) (Some 720%Z)))
           (CanvasSizing.mkVideo 640 480 640 480)
           (CanvasSizing.mkCanvasEl 300 150 "" ""))))
           640%Z 720%Z Hw Hh) H1 H2).
Defined.

(* ================================================================== *)
(** * Keyboard and button toggles *)
(* ================================================================== *)

Lemma lower_is (c : ascii) (target upper : ascii) :
  (forall x, Ascii.eqb (lowerAscii x) target
             = (Ascii.eqb x target || Ascii.eqb x upper)%bool) ->
  Ascii.eqb (lowerAscii c) target = true <-> c = target \/ c = upper.
Proof.
  intro H. rewrite H, Bool.orb_true_iff, !Ascii.eqb_eq. reflexivity.
Qed.

Lemma lower_s (x : ascii) :
  Ascii.eqb (lowerAscii x) "s"
  = (Ascii.eqb x "s" || Ascii.eqb x "S")%bool.
Proof.
  destruct x as [[] [] [] [] [] [] [] []]; vm_compute; reflexivity.
Qed.

Lemma lower_m (x : ascii) :
  Ascii.eqb (lowerAscii x) "m"
  = (Ascii.eqb x "m" || Ascii.eqb x "M")%bool.
Proof.
  destruct x as [[] [] [] [] [] [] [] []]; vm_compute; reflexivity.
Qed.

Lemma key_is_s (key : string) :
  String.eqb (toLowerCase key) "s" = true
  <-> key = "s"%string \/ key = "S"%string.
Proof.
  destruct key as [|c [|c' r]].
  - cbn. split; [discriminate | intros [H|H]; discriminate H].
  - cbn [toLowerCase String.eqb].
    assert (E : (if Ascii.eqb (lowerAscii c) "s" then true else false)
                = Ascii.eqb (lowerAscii c) "s")
      by (destruct (Ascii.eqb (lowerAscii c) "s"); reflexivity).
    rewrite E, (lower_is c "s" "S" lower_s).
    split; intros [H|H]; [left | right | left | right];
      congruence.
  - cbn [toLowerCase String.eqb].
    split.
    + destruct (Ascii.eqb (lowerAscii c) "s"); discriminate.
    + intros [H|H]; discriminate H.
Qed.

Lemma key_is_m (key : string) :
  String.eqb (toLowerCase key) "m" = true
  <-> key = "m"%string \/ key = "M"%string.
Proof.
  destruct key as [|c [|c' r]].
  - cbn. split; [discriminate | intros [H|H]; discriminate H].
  - cbn [toLowerCase String.eqb].
    assert (E : (if Ascii.eqb (lowerAscii c) "m" then true else false)
                = Ascii.eqb (lowerAscii c) "m")
      by (destruct (Ascii.eqb (lowerAscii c) "m"); reflexivity).
    rewrite E, (lower_is c "m" "M" lower_m).
    split; intros [H|H]; [left | right | left | right];
      congruence.
  - cbn [toLowerCase String.eqb].
    split.
    + destruct (Ascii.eqb (lowerAscii c) "m"); discriminate.
    + intros [H|H]; discriminate H.
Qed.

(** X19.  The key "s" or "S" flips the skeleton toggle and nothing else, "m" or
    "M" flips the multi-hand toggle and nothing else, every other key
    leaves both as they are; the same key twice restores the toggles, and
    the order of two key presses does not matter. *)
Theorem keyboard_toggles (key : string) (tg : MediaPipeApp.Toggles) :
  (key = "s"%string \/ key = "S"%string ->
   onKeydown key tg
   = MediaPipeApp.mkToggles (negb (MediaPipeApp.showSkeleton tg))
                            (MediaPipeApp.showMultipleHands tg))
  /\ (key = "m"%string \/ key = "M"%string ->
      onKeydown key tg
      = MediaPipeApp.mkToggles (MediaPipeApp.showSkeleton tg)
                               (negb (MediaPipeApp.showMultipleHands tg)))
  /\ (key <> "s"%string -> key <> "S"%string ->
      key <> "m"%string -> key <> "M"%string ->
      onKeydown key tg = tg)
  /\ onKeydown key (onKeydown key tg) = tg
  /\ (forall key', onKeydown key (onKeydown key' tg)
                   = onKeydown key' (onKeydown key tg)).
Proof.
  assert (Hs : forall k, String.eqb (toLowerCase k) "s" = true ->
                         String.eqb (toLowerCase k) "m" = false).
  { intros k H. apply String.eqb_eq in H. rewrite H. reflexivity. }
  split; [|split; [|split; [|split]]].
  - intro H. apply key_is_s in H. unfold onKeydown.
    rewrite H, (Hs key H). reflexivity.
  - intro H. apply key_is_m in H. unfold onKeydown. rewrite H.
    destruct (String.eqb (toLowerCase key) "s") eqn:E;
      [rewrite (Hs key E) in H; discriminate H|].
    reflexivity.
  - intros H1 H2 H3 H4. unfold onKeydown.
    destruct (String.eqb (toLowerCase key) "s") eqn:E;
      [apply key_is_s in E; destruct E; contradiction|].
    destruct (String.eqb (toLowerCase key) "m") eqn:E';
      [apply key_is_m in E'; destruct E'; contradiction|].
    reflexivity.
  - unfold onKeydown. destruct tg as [sk mu].
    destruct (String.eqb (toLowerCase key) "s"),
             (String.eqb (toLowerCase key) "m");
      cbn; rewrite ?Bool.negb_involutive; reflexivity.
  - intro key'. unfold onKeydown. destruct tg as [sk mu].
    destruct (String.eqb (toLowerCase key) "s"),
             (String.eqb (toLowerCase key) "m"),
             (String.eqb (toLowerCase key') "s"),
             (String.eqb (toLowerCase key') "m"); reflexivity.
Qed.

(** Witness: the capital S. *)
Lemma keyboard_toggles_witness :
  ("S"%string = "s"%string \/ "S"%string = "S"%string)
  /\ onKeydown "S" (MediaPipeApp.mkToggles true false)
     = MediaPipeApp.mkToggles false false.
Proof.
  assert (H : "S"%string = "s"%string \/ "S"%string = "S"%string)
    by (right; reflexivity).
  split; [exact H|].
  exact (proj1 (keyboard_toggles "S" (MediaPipeApp.mkToggles true false)) H).
Defined.

Lemma clickAll_snoc (bs : list TfjsControls.Button) (b : TfjsControls.Button)
  (c : TfjsControls.Controls) :
  clickAll (bs ++ [b]) c = TfjsControls.click b (clickAll bs c).
Proof. unfold clickAll. rewrite fold_left_app. reflexivity. Qed.

Lemma clicksOn_snoc (b x : TfjsControls.Button)
  (bs : list TfjsControls.Button) :
  clicksOn b (bs ++ [x])
  = (clicksOn b bs
     + match b, x with
       | TfjsControls.BtnSkeleton, TfjsControls.BtnSkeleton
       | TfjsControls.BtnMulti, TfjsControls.BtnMulti
       | TfjsControls.BtnMirror, TfjsControls.BtnMirror => 1
       | _, _ => 0
       end)%nat.
Proof.
  unfold clicksOn. rewrite filter_app, length_app.
  destruct b, x; reflexivity.
Qed.

Lemma flipped_succ (v : bool) (n : nat) :
  flipped v (n + 1) = negb (flipped v n).
Proof.
  unfold flipped. rewrite Nat.add_1_r, Nat.odd_succ, <- Nat.negb_odd.
  destruct v, (Nat.odd n); reflexivity.
Qed.

Lemma clickAll_invariant (bs : list TfjsControls.Button)
  (c : TfjsControls.Controls) :
  let c' := clickAll bs c in
  TfjsApp.showSkeleton (TfjsControls.cfg c')
  = flipped (TfjsApp.showSkeleton (TfjsControls.cfg c))
            (clicksOn TfjsControls.BtnSkeleton bs)
  /\ TfjsApp.multiHand (TfjsControls.cfg c')
     = flipped (TfjsApp.multiHand (TfjsControls.cfg c))
               (clicksOn TfjsControls.BtnMulti bs)
  /\ TfjsApp.mirror (TfjsControls.cfg c')
     = flipped (TfjsApp.mirror (TfjsControls.cfg c))
               (clicksOn TfjsControls.BtnMirror bs)
  /\ (if Nat.eqb (clicksOn TfjsControls.BtnSkeleton bs) 0
      then TfjsControls.skeletonCaption c' = TfjsControls.skeletonCaption c
      else TfjsControls.skeletonCaption c'
           = if TfjsApp.showSkeleton (TfjsControls.cfg c')
             then "Hide Skeleton"%string else "Show Skeleton"%string)
  /\ (if Nat.eqb (clicksOn TfjsControls.BtnMulti bs) 0
      then TfjsControls.multiCaption c' = TfjsControls.multiCaption c
      else TfjsControls.multiCaption c'
           = if TfjsApp.multiHand (TfjsControls.cfg c')
             then "Multi-hand: On"%string else "Multi-hand: Off"%string)
  /\ (if Nat.eqb (clicksOn TfjsControls.BtnMirror bs) 0
      then TfjsControls.mirrorCaption c' = TfjsControls.mirrorCaption c
           /\ TfjsControls.videoTransform c' = TfjsControls.videoTransform c
      else TfjsControls.mirrorCaption c'
           = (if TfjsApp.mirror (TfjsControls.cfg c')
              then "Mirror: On"%string else "Mirror: Off"%string)
           /\ TfjsControls.videoTransform c'
              = if TfjsApp.mirror (TfjsControls.cfg c')
                then "scaleX(-1)"%string else "none"%string).
Proof.
  cbv zeta. induction bs as [|b bs IH] using rev_ind.
  - cbn. unfold flipped. cbn. rewrite !Bool.xorb_false_r.
    repeat split; reflexivity.
  - destruct IH as (I1 & I2 & I3 & I4 & I5 & I6).
    rewrite clickAll_snoc, !clicksOn_snoc.
    destruct b; cbn [TfjsControls.click TfjsControls.cfg
                     TfjsApp.showSkeleton TfjsApp.multiHand TfjsApp.mirror
                     TfjsControls.skeletonCaption TfjsControls.multiCaption
                     TfjsControls.mirrorCaption TfjsControls.videoTransform];
      rewrite ?Nat.add_0_r, ?flipped_succ;
      rewrite ?Nat.add_1_r; cbn [Nat.eqb];
      rewrite <- ?I1, <- ?I2, <- ?I3.
    + repeat split; try assumption; reflexivity.
    + repeat split; try assumption; try reflexivity;
        destruct (TfjsApp.multiHand (TfjsControls.cfg (clickAll bs c)));
        reflexivity.
    + repeat split; try assumption; try reflexivity;
        destruct (TfjsApp.mirror (TfjsControls.cfg (clickAll bs c)));
        reflexivity.
Qed.

(** X20.  After any sequence of clicks every toggle is its starting value flipped
    once per click on its own button, whatever was clicked in between; the
    caption of a button that was clicked names the toggle's current value,
    as does the video's transform once the mirror button was clicked; what
    belongs to a button that was not clicked is as it was. *)
Theorem clicks_flip_own_toggle (bs : list TfjsControls.Button)
  (c : TfjsControls.Controls) :
  TfjsControls.cfg (clickAll bs c)
  = TfjsApp.mkConfig
      (flipped (TfjsApp.showSkeleton (TfjsControls.cfg c))
               (clicksOn TfjsControls.BtnSkeleton bs))
      (flipped (TfjsApp.multiHand (TfjsControls.cfg c))
               (clicksOn TfjsControls.BtnMulti bs))
      (flipped (TfjsApp.mirror (TfjsControls.cfg c))
               (clicksOn TfjsControls.BtnMirror bs))
  /\ ((0 < clicksOn TfjsControls.BtnSkeleton bs)%nat ->
      TfjsControls.skeletonCaption (clickAll bs c)
      = if TfjsApp.showSkeleton (TfjsControls.cfg (clickAll bs c))
        then "Hide Skeleton"%string else "Show Skeleton"%string)
  /\ ((0 < clicksOn TfjsControls.BtnMulti bs)%nat ->
      TfjsControls.multiCaption (clickAll bs c)
      = if TfjsApp.multiHand (TfjsControls.cfg (clickAll bs c))
        then "Multi-hand: On"%string else "Multi-hand: Off"%string)
  /\ ((0 < clicksOn TfjsControls.BtnMirror bs)%nat ->
      TfjsControls.mirrorCaption (clickAll bs c)
      = (if TfjsApp.mirror (TfjsControls.cfg (clickAll bs c))
         then "Mirror: On"%string else "Mirror: Off"%string)
      /\ TfjsControls.videoTransform (clickAll bs c)
         = if TfjsApp.mirror (TfjsControls.cfg (clickAll bs c))
           then "scaleX(-1)"%string else "none"%string)
  /\ (clicksOn TfjsControls.BtnSkeleton bs = 0%nat ->
      TfjsControls.skeletonCaption (clickAll bs c)
      = TfjsControls.skeletonCaption c)
  /\ (clicksOn TfjsControls.BtnMulti bs = 0%nat ->
      TfjsControls.multiCaption (clickAll bs c)
      = TfjsControls.multiCaption c)
  /\ (clicksOn TfjsControls.BtnMirror bs = 0%nat ->
      TfjsControls.mirrorCaption (clickAll bs c)
      = TfjsControls.mirrorCaption c
      /\ TfjsControls.videoTransform (clickAll bs c)
         = TfjsControls.videoTransform c).
Proof.
  pose proof (clickAll_invariant bs c) as H. cbv zeta in H.
  destruct H as (I1 & I2 & I3 & I4 & I5 & I6).
  split.
  { rewrite <- I1, <- I2, <- I3.
    destruct (TfjsControls.cfg (clickAll bs c)); reflexivity. }
  repeat match goal with |- _ /\ _ => split end.
  - intro Hn.
    destruct (clicksOn TfjsControls.BtnSkeleton bs); [inversion Hn|].
    exact I4.
  - intro Hn.
    destruct (clicksOn TfjsControls.BtnMulti bs); [inversion Hn|].
    exact I5.
  - intro Hn.
    destruct (clicksOn TfjsControls.BtnMirror bs); [inversion Hn|].
    exact I6.
  - intro Hn. rewrite Hn in I4. exact I4.
  - intro Hn. rewrite Hn in I5. exact I5.
  - intro Hn. rewrite Hn in I6. exact I6.
Qed.

(** Witness: mirror, skeleton, mirror, mirror from the page's first state
    leaves the video mirrored. *)
Lemma clicks_flip_own_toggle_witness :
  (0 < clicksOn TfjsControls.BtnMirror
         [TfjsControls.BtnMirror; TfjsControls.BtnSkeleton;
          TfjsControls.BtnMirror; TfjsControls.BtnMirror])%nat
  /\ TfjsControls.videoTransform
       (clickAll [TfjsControls.BtnMirror; TfjsControls.BtnSkeleton;
                  TfjsControls.BtnMirror; TfjsControls.BtnMirror]
          (TfjsControls.mkControls TfjsControls.initialConfig
             "Hide Skeleton" "Multi-hand: Off" "Mirror: Off" ""))
     = "scaleX(-1)"%string.
Proof.
  assert (H : (0 < clicksOn TfjsControls.BtnMirror
                     [TfjsControls.BtnMirror; TfjsControls.BtnSkeleton;
                      TfjsControls.BtnMirror; TfjsControls.BtnMirror])%nat)
    by (cbv; repeat constructor).
  split; [exact H|].
  exact (proj2 (proj1 (proj2 (proj2 (proj2 (clicks_flip_own_toggle
           [TfjsControls.BtnMirror; TfjsControls.BtnSkeleton;
            TfjsControls.BtnMirror; TfjsControls.BtnMirror]
           (TfjsControls.mkControls TfjsControls.initialConfig
              "Hide Skeleton" "Multi-hand: Off" "Mirror: Off" "")))))
           H)).
Defined.
